(** * sysinfo-lab: the snapshot collector of [main.go]

    A shallow embedding of the probes, the collector and the two renderers of
    [main.go], together with the parts of the Go standard library they call
    ([unicode/utf8], [unicode], [strings], [strconv], [fmt]'s scanner,
    [flag] at the one flag of the program and [encoding/json] at the
    struct types of the program).

    Go strings are byte strings: they are modelled by [string], whose
    characters are the 256 byte values.  Go's [int] is the 64-bit [int64] of
    the linux/amd64 target, [uint64] and [int64] are [Z] with their range
    written out, and [float64] is the IEEE binary64 format of
    [SpecFloat.spec_float]. *)

From Stdlib Require Import ZArith List String Ascii Bool Lia.
From Stdlib Require Import Floats.SpecFloat.
Import ListNotations.

Local Open Scope string_scope.
Local Open Scope Z_scope.

#[local] Set Warnings "-register-all".

(** ** Bytes and byte strings *)

Definition code (c : ascii) : Z := Z.of_N (N_of_ascii c).

Definition chr (z : Z) : ascii := ascii_of_N (Z.to_N z).

Fixpoint drop (n : nat) (s : string) : string :=
  match n, s with
  | O, _ => s
  | S _, EmptyString => EmptyString
  | S k, String _ t => drop k t
  end.

Definition take (n : nat) (s : string) : string := String.substring 0 n s.

Definition len (s : string) : Z := Z.of_nat (String.length s).

(** [s[i]], for [0 <= i < len s]. *)
Definition at_ (s : string) (i : Z) : Z :=
  match String.get (Z.to_nat i) s with
  | Some c => code c
  | None => 0
  end.

(** [s[lo:hi]]. *)
Definition slice (s : string) (lo hi : Z) : string :=
  String.substring (Z.to_nat lo) (Z.to_nat (hi - lo)) s.

(** ** Package [unicode/utf8] *)

Module utf8.

Definition RuneError : Z := 65533.
Definition RuneSelf : Z := 128.
Definition UTFMax : Z := 4.

(** The table [first], with the accept range of the second byte looked up
    in [acceptRanges]: [as_] is an ASCII byte, [xx] an invalid lead byte. *)
Inductive info :=
| as_
| xx
| lead (size : nat) (lo hi : Z).

Definition first (b : Z) : info :=
  if b <? 128 then as_
  else if b <? 194 then xx
  else if b <? 224 then lead 2 128 191
  else if b =? 224 then lead 3 160 191
  else if b <? 237 then lead 3 128 191
  else if b =? 237 then lead 3 128 159
  else if b <? 240 then lead 3 128 191
  else if b =? 240 then lead 4 144 191
  else if b <? 244 then lead 4 128 191
  else if b =? 244 then lead 4 128 143
  else xx.

Definition cont (b : Z) : bool := (128 <=? b) && (b <=? 191).

(** [DecodeRuneInString]: the first rune of [s] and its width in bytes;
    [(RuneError, 0)] on the empty string, [(RuneError, 1)] on an invalid
    encoding. *)
Definition DecodeRuneInString (s : string) : Z * nat :=
  match s with
  | EmptyString => (RuneError, 0%nat)
  | String c0 t =>
      let s0 := code c0 in
      match first s0 with
      | as_ => (s0, 1%nat)
      | xx => (RuneError, 1%nat)
      | lead sz lo hi =>
          match t with
          | EmptyString => (RuneError, 1%nat)
          | String c1 t1 =>
              let s1 := code c1 in
              if (s1 <? lo) || (hi <? s1) then (RuneError, 1%nat)
              else if (sz <=? 2)%nat then
                (Z.lor (Z.shiftl (Z.land s0 31) 6) (Z.land s1 63), 2%nat)
              else
                match t1 with
                | EmptyString => (RuneError, 1%nat)
                | String c2 t2 =>
                    let s2 := code c2 in
                    if negb (cont s2) then (RuneError, 1%nat)
                    else if (sz <=? 3)%nat then
                      (Z.lor (Z.lor (Z.shiftl (Z.land s0 15) 12)
                                    (Z.shiftl (Z.land s1 63) 6))
                             (Z.land s2 63), 3%nat)
                    else
                      match t2 with
                      | EmptyString => (RuneError, 1%nat)
                      | String c3 _ =>
                          let s3 := code c3 in
                          if negb (cont s3) then (RuneError, 1%nat)
                          else
                            (Z.lor (Z.lor (Z.lor (Z.shiftl (Z.land s0 7) 18)
                                                 (Z.shiftl (Z.land s1 63) 12))
                                          (Z.shiftl (Z.land s2 63) 6))
                                   (Z.land s3 63), 4%nat)
                      end
                end
          end
      end
  end.

(** [RuneStart]: the byte is not a continuation byte. *)
Definition RuneStart (b : Z) : bool := negb (Z.land b 192 =? 128).

(** The backward search of [DecodeLastRuneInString]:
    [for start--; start >= lim; start-- { if RuneStart(s[start]) { break } }],
    entered with [start] already decremented. *)
Fixpoint back (fuel : nat) (s : string) (start lim : Z) : Z :=
  match fuel with
  | O => start
  | S k =>
      if start <? lim then start
      else if RuneStart (at_ s start) then start
      else back k s (start - 1) lim
  end.

Definition DecodeLastRuneInString (s : string) : Z * nat :=
  let end_ := len s in
  if end_ =? 0 then (RuneError, 0%nat)
  else
    let r := at_ s (end_ - 1) in
    if r <? RuneSelf then (r, 1%nat)
    else
      let lim := Z.max 0 (end_ - UTFMax) in
      let start := Z.max 0 (back 4 s (end_ - 2) lim) in
      let '(r, size) := DecodeRuneInString (slice s start end_) in
      if start + Z.of_nat size =? end_ then (r, size) else (RuneError, 1%nat).

(** [for _, r := range s]: the runes of [s] in order, each with the bytes
    that encode it (one byte for an invalid encoding). *)
Fixpoint runes_fuel (fuel : nat) (s : string) : list (Z * string) :=
  match fuel with
  | O => []
  | S k =>
      match s with
      | EmptyString => []
      | _ =>
          let '(r, size) := DecodeRuneInString s in
          (r, take size s) :: runes_fuel k (drop size s)
      end
  end.

Definition runes (s : string) : list (Z * string) :=
  runes_fuel (String.length s) s.

(** [ValidString]: no rune of [s] is an invalid encoding.  The rune U+FFFD
    itself, encoded on three bytes, is valid. *)
Definition ValidString (s : string) : bool :=
  forallb (fun rt => negb ((fst rt =? RuneError) && (len (snd rt) =? 1)))
          (runes s).

End utf8.

(** ** Package [unicode] *)

Module unicode.

(** [IsSpace]: the Latin-1 cases of the switch, then the rest of the
    [White_Space] table. *)
Definition IsSpace (r : Z) : bool :=
  if (0 <=? r) && (r <=? 255) then
    ((9 <=? r) && (r <=? 13)) || (r =? 32) || (r =? 133) || (r =? 160)
  else
    (r =? 5760) || ((8192 <=? r) && (r <=? 8202)) || (r =? 8232)
    || (r =? 8233) || (r =? 8239) || (r =? 8287) || (r =? 12288).

End unicode.

(** ** Package [strings] *)

Module strings.

Definition HasPrefix (s pre : string) : bool := String.prefix pre s.

(** [Split(s, sep)] for a one-byte separator, here always the newline:
    the pieces between the separators, at least one. *)
Fixpoint Split (s : string) (sep : ascii) : list string :=
  match s with
  | EmptyString => [EmptyString]
  | String c t =>
      if Ascii.eqb c sep then EmptyString :: Split t sep
      else
        match Split t sep with
        | h :: r => String c h :: r
        | [] => [String c EmptyString]
        end
  end.

(** [Cut(s, sep)] for a one-byte separator: the text before and after its
    first occurrence. *)
Fixpoint Cut (s : string) (sep : ascii) : string * string * bool :=
  match s with
  | EmptyString => (EmptyString, EmptyString, false)
  | String c t =>
      if Ascii.eqb c sep then (EmptyString, t, true)
      else
        let '(before, after, found) := Cut t sep in
        if found then (String c before, after, true)
        else (String c t, EmptyString, false)
  end.

(** [TrimLeftFunc(s, f)]: [s] from its first rune that does not satisfy
    [f]. *)
Fixpoint trimLeft (fuel : nat) (f : Z -> bool) (s : string) : string :=
  match fuel with
  | O => s
  | S k =>
      match s with
      | EmptyString => EmptyString
      | _ =>
          let '(r, size) := utf8.DecodeRuneInString s in
          if f r then trimLeft k f (drop size s) else s
      end
  end.

Definition TrimLeftFunc (s : string) (f : Z -> bool) : string :=
  trimLeft (String.length s) f s.

(** [lastIndexFunc(s, f, false)]: the index of the last rune that does not
    satisfy [f], decoding backwards from [i]; [-1] when there is none. *)
Fixpoint lastIndex (fuel : nat) (f : Z -> bool) (s : string) (i : Z) : Z :=
  match fuel with
  | O => -1
  | S k =>
      if i <=? 0 then -1
      else
        let '(r, size) := utf8.DecodeLastRuneInString (slice s 0 i) in
        let i' := i - Z.of_nat size in
        if f r then lastIndex k f s i' else i'
  end.

Definition TrimRightFunc (s : string) (f : Z -> bool) : string :=
  let i := lastIndex (String.length s) f s (len s) in
  let i :=
    if (0 <=? i) && (utf8.RuneSelf <=? at_ s i)
    then i + Z.of_nat (snd (utf8.DecodeRuneInString (slice s i (len s))))
    else i + 1 in
  slice s 0 i.

(** [TrimSpace(s)]: its ASCII fast path gives the same result as
    [TrimFunc(s, unicode.IsSpace)], which it falls back to on the first
    byte that is not ASCII. *)
Definition TrimSpace (s : string) : string :=
  TrimRightFunc (TrimLeftFunc s unicode.IsSpace) unicode.IsSpace.

(** [FieldsFunc]: [cur] is the field being read, when there is one. *)
Fixpoint fieldsFunc (f : Z -> bool) (rs : list (Z * string))
         (cur : option string) : list string :=
  match rs with
  | [] => match cur with Some fld => [fld] | None => [] end
  | (r, t) :: rest =>
      if f r then
        match cur with
        | Some fld => fld :: fieldsFunc f rest None
        | None => fieldsFunc f rest None
        end
      else
        fieldsFunc f rest
          (Some (match cur with Some fld => fld ++ t | None => t end))
  end.

(** [Fields(s)]: the maximal runs of runes that are not white space. *)
Definition Fields (s : string) : list string :=
  fieldsFunc unicode.IsSpace (utf8.runes s) None.

End strings.

(** ** Errors *)

Inductive numErr :=
| ErrSyntax
| ErrRange.

(** The errors the program meets: what package [os] and [unix.Statfs]
    return (opaque here), [*strconv.NumError], the scanner's errors, and
    the texts made by [fmt.Errorf] and [errors.New]. *)
Inductive error :=
| OSError (msg : string)
| NumError (Func Num : string) (Err : numErr)
| EOF
| ErrUnexpectedEOF
| ScanError (msg : string)
| Errorf (msg : string)
| UnsupportedValueError
| UnmarshalTypeError.

(** ** Package [strconv] *)

Module strconv.

Definition maxUint64 : Z := 2 ^ 64 - 1.

(** The digit loop of [ParseUint(s, 10, 64)]: [Some n] on success, [None]
    with the error otherwise.  A letter is a digit of value at least 10,
    refused in base 10 like any other byte. *)
Fixpoint parseDigits (s : string) (n : Z) : Z * option numErr :=
  match s with
  | EmptyString => (n, None)
  | String c t =>
      let c := code c in
      if (48 <=? c) && (c <=? 57) then
        let d := c - 48 in
        if n >=? maxUint64 / 10 + 1 then (maxUint64, Some ErrRange)
        else
          let n := n * 10 in
          let n1 := (n + d) mod 2 ^ 64 in
          if (n1 <? n) || (n1 >? maxUint64) then (maxUint64, Some ErrRange)
          else parseDigits t n1
      else (0, Some ErrSyntax)
  end.

(** [ParseUint(s, 10, 64)]. *)
Definition ParseUint (s : string) : Z * option error :=
  match s with
  | EmptyString => (0, Some (NumError "ParseUint" s ErrSyntax))
  | _ =>
      match parseDigits s 0 with
      | (n, None) => (n, None)
      | (n, Some e) => (n, Some (NumError "ParseUint" s e))
      end
  end.

(** [ParseInt(s, 10, 64)]. *)
Definition ParseInt (s : string) : Z * option error :=
  match s with
  | EmptyString => (0, Some (NumError "ParseInt" s ErrSyntax))
  | String c t =>
      let neg := Ascii.eqb c "-" in
      let s' := if Ascii.eqb c "+" || neg then t else s in
      match ParseUint s' with
      | (_, Some (NumError _ _ ErrSyntax)) =>
          (0, Some (NumError "ParseInt" s ErrSyntax))
      | (un, _) =>
          let cutoff := 2 ^ 63 in
          if negb neg && (un >=? cutoff) then
            (cutoff - 1, Some (NumError "ParseInt" s ErrRange))
          else if neg && (un >? cutoff) then
            (- cutoff, Some (NumError "ParseInt" s ErrRange))
          else ((if neg then - un else un), None)
      end
  end.

(** [FormatInt(i, 10)], what the verb [%d] prints. *)
Fixpoint formatBits (fuel : nat) (u : Z) (acc : string) : string :=
  match fuel with
  | O => acc
  | S k =>
      let acc := String (chr (48 + u mod 10)) acc in
      if u <? 10 then acc else formatBits k (u / 10) acc
  end.

Definition FormatUint (u : Z) : string :=
  formatBits (S (Z.to_nat (Z.log2 u))) u EmptyString.

Definition FormatInt (i : Z) : string :=
  if i <? 0 then String "-" (FormatUint (- i)) else FormatUint i.


End strconv.

(** ** Package [fmt]: [Sscanf] with one [*int] operand *)

Module fmt.

(** The scanner's own table [space] lists the ranges of
    [unicode.IsSpace]. *)
Definition isSpace (r : Z) : bool := unicode.IsSpace r.

(** What [advance] and [doScanf] cut a format into: a literal rune, a run
    of white space (with the number of newlines in it and whether blanks
    follow the last one), the verb [%d], or another verb, which the formats
    of this program do not have. *)
Inductive directive :=
| DLit (r : Z)
| DSpace (newlines : nat) (trailingSpace : bool)
| DInt
| DOther.

Definition flush (sp : option (nat * bool)) : list directive :=
  match sp with
  | Some (n, t) => [DSpace n t]
  | None => []
  end.

Fixpoint directives (f : list Z) (sp : option (nat * bool))
  : list directive :=
  match f with
  | [] => flush sp
  | r :: rest =>
      if isSpace r then
        let '(n, t) := match sp with Some nt => nt | None => (O, false) end in
        directives rest
          (Some (if r =? 10 then (S n, false) else (n, true)))
      else
        flush sp ++
        (if r =? 37 then
           match rest with
           | v :: rest' =>
               if v =? 37 then DLit 37 :: directives rest' None
               else if v =? 100 then DInt :: directives rest' None
               else [DOther]
           | [] => [DOther]
           end
         else DLit r :: directives rest None)
  end.

(** [getRune]: the next rune and the rest of the input, [None] at the end
    of the input.  The scanner's counter of runes read, which ends the
    input after [1 << 30] of them, is left out. *)
Definition getRune (inp : string) : option (Z * string) :=
  match inp with
  | EmptyString => None
  | _ =>
      let '(r, size) := utf8.DecodeRuneInString inp in
      Some (r, drop size inp)
  end.

(** [for isSpace(inputc) && inputc != '\n' { inputc = s.getRune() }],
    the rune that stops the loop unread. *)
Fixpoint skipBlanks (fuel : nat) (inp : string) : string :=
  match fuel with
  | O => inp
  | S k =>
      match getRune inp with
      | Some (r, rest) =>
          if isSpace r && negb (r =? 10) then skipBlanks k rest else inp
      | None => inp
      end
  end.

Definition blanks (inp : string) : string :=
  skipBlanks (String.length inp) inp.

(** The white space case of [advance]. *)
Fixpoint newlines (n : nat) (inp : string) : string + error :=
  match n with
  | O => inl inp
  | S k =>
      let inp := blanks inp in
      match getRune inp with
      | None => newlines k inp
      | Some (r, rest) =>
          if r =? 10 then newlines k rest
          else inr (ScanError "newline in format does not match input")
      end
  end.

Definition space (n : nat) (trailingSpace : bool) (inp : string)
  : string + error :=
  match newlines n inp with
  | inr e => inr e
  | inl inp =>
      if trailingSpace then
        match getRune inp with
        | None => inl inp
        | Some (r, _) =>
            if (n =? 0)%nat && negb (isSpace r) then
              inr (ScanError "expected space in input to match format")
            else if (n =? 0)%nat && (r =? 10) then
              inr (ScanError "newline in input does not match format")
            else inl (blanks inp)
        end
      else inl inp
  end.

(** [SkipSpace], for [Sscanf], where a newline is not white space. *)
Definition SkipSpace (inp : string) : string + error :=
  let inp := blanks inp in
  match getRune inp with
  | Some (r, _) =>
      if r =? 10 then inr (ScanError "unexpected newline") else inl inp
  | None => inl inp
  end.

Definition isDigit (c : ascii) : bool := (48 <=? code c) && (code c <=? 57).

(** [for s.accept(digits) {}]: the digits read and the rest of the
    input. *)
Fixpoint acceptDigits (inp : string) : string * string :=
  match inp with
  | EmptyString => (EmptyString, EmptyString)
  | String c t =>
      if isDigit c then
        let '(tok, rest) := acceptDigits t in (String c tok, rest)
      else (EmptyString, inp)
  end.

(** [scanInt('d', 64)]: the integer read and the rest of the input. *)
Definition scanInt (inp : string) : (Z * string) + error :=
  match SkipSpace inp with
  | inr e => inr e
  | inl inp =>
      match inp with
      | EmptyString => inr EOF
      | String c t =>
          let signed := Ascii.eqb c "+" || Ascii.eqb c "-" in
          let sign := if signed then String c EmptyString else EmptyString in
          let inp := if signed then t else inp in
          match inp with
          | EmptyString => inr EOF
          | String d _ =>
              if isDigit d then
                let '(tok, rest) := acceptDigits inp in
                match strconv.ParseInt (sign ++ tok) with
                | (i, None) => inl (i, rest)
                | (_, Some e) => inr e
                end
              else inr (ScanError "expected integer")
          end
      end
  end.

(** [doScanf] with the one operand [a], an [*int] holding [v] on entry:
    the value it holds on return, the number of operands scanned and the
    error.  The operand is written when its verb has been scanned, whatever
    happens later. *)
Fixpoint doScanf (ds : list directive) (inp : string) (v : Z)
         (numProcessed : nat) : Z * nat * option error :=
  match ds with
  | [] =>
      (v, numProcessed,
       if (numProcessed <? 1)%nat then Some (ScanError "too many operands")
       else None)
  | DLit r :: ds' =>
      match getRune inp with
      | None => (v, numProcessed, Some ErrUnexpectedEOF)
      | Some (r', rest) =>
          if r =? r' then doScanf ds' rest v numProcessed
          else (v, numProcessed, Some (ScanError "input does not match format"))
      end
  | DSpace n t :: ds' =>
      match space n t inp with
      | inr e => (v, numProcessed, Some e)
      | inl inp => doScanf ds' inp v numProcessed
      end
  | DInt :: ds' =>
      match SkipSpace inp with
      | inr e => (v, numProcessed, Some e)
      | inl inp =>
          if (1 <=? numProcessed)%nat then
            (v, numProcessed,
             Some (ScanError "too few operands for format '%d'"))
          else
            match scanInt inp with
            | inr e => (v, numProcessed, Some e)
            | inl (i, rest) => doScanf ds' rest i (S numProcessed)
            end
      end
  | DOther :: _ => (v, numProcessed, Some (ScanError "bad verb"))
  end.

(** [Sscanf(str, format, &a)] with [a] holding [v]: the value [a] holds
    afterwards, with the count and the error returned. *)
Definition Sscanf (str format : string) (v : Z) : Z * nat * option error :=
  doScanf (directives (map fst (utf8.runes format)) None) str v 0.

End fmt.

(** ** The data model of [main.go] *)

(** [float64]. *)
Definition float64 : Type := spec_float.

Definition prec : Z := 53.
Definition emax : Z := 1024.

(** [x == 0] on [float64]: true of both zeros, false of NaN. *)
Definition isZero (x : float64) : bool := SFeqb x (S754_zero false).

Definition isFinite (x : float64) : bool :=
  match x with
  | S754_zero _ | S754_finite _ _ _ => true
  | S754_infinity _ | S754_nan => false
  end.

Record DiskInfo := {
  Mountpoint : string;
  FSType : string;
  Total : Z;
  Free : Z
}.

(** A nil pointer is [None]. *)
Record CgroupV1 := {
  MemoryLimitBytes : option Z;
  CPULimitCores : option float64
}.

(** The slice [Mounts] is a list, the nil slice being the empty list: the
    program makes no empty slice that is not nil.  The field [CgroupV1] is
    written [CgroupV1_], its name being that of the type. *)
Record SysInfo := {
  FDCount : Z;
  VmRSS : Z;
  ExePath : string;
  CPUModel : string;
  CPUCores : Z;
  MemTotal : Z;
  Mounts : list DiskInfo;
  CgroupV1_ : option CgroupV1
}.

(** ** The operating system *)

(** The fields of [unix.Statfs_t] the program reads: [Bsize] is an
    [int64], [Blocks] and [Bfree] are [uint64]. *)
Record Statfs_t := {
  Bsize : Z;
  Blocks : Z;
  Bfree : Z
}.

(** What a run reads from outside: each call either fails with an error or
    gives its result.  [ReadDir] gives the names of the entries. *)
Record World := {
  ReadDir : string -> list string + error;
  ReadFile : string -> string + error;
  Readlink : string -> string + error;
  Statfs : string -> Statfs_t + error;
  NumCPU : Z
}.

(** [uint64(x)] and the product of two [uint64]. *)
Definition uint64 (x : Z) : Z := x mod 2 ^ 64.

Definition mul64 (x y : Z) : Z := (x * y) mod 2 ^ 64.

(** ** The probes *)

Definition humanMB (b : Z) : string :=
  strconv.FormatInt (b / 1024 / 1024) ++ " MB".

Definition countFDs (w : World) : Z * option error :=
  match ReadDir w "/proc/self/fd" with
  | inr err => (0, Some err)
  | inl entries => (Z.of_nat (List.length entries), None)
  end.

(** The loop of [getRSS] over the lines: it returns at the first line with
    the prefix, whatever [Sscanf] made of it. *)
Fixpoint getRSS_lines (lines : list string) : Z * option error :=
  match lines with
  | [] => (0, Some (Errorf "VmRSS not found"))
  | line :: rest =>
      if strings.HasPrefix line "VmRSS:" then
        let rss := 0 in
        let '(rss, _, _) := fmt.Sscanf line "VmRSS: %d kB" rss in
        (rss, None)
      else getRSS_lines rest
  end.

Definition getRSS (w : World) : Z * option error :=
  match ReadFile w "/proc/self/status" with
  | inr err => (0, Some err)
  | inl data => getRSS_lines (strings.Split data "010")
  end.

Definition getBinPath (w : World) : string * option error :=
  match Readlink w "/proc/self/exe" with
  | inr err => ("", Some err)
  | inl path => (path, None)
  end.

(** The loop of [getCPUInfo]: it breaks at the first line with the prefix
    and a colon. *)
Fixpoint getCPUInfo_lines (lines : list string) : string :=
  match lines with
  | [] => ""
  | line :: rest =>
      if strings.HasPrefix line "model name" then
        let '(_, right_, found) := strings.Cut line ":" in
        if found then strings.TrimSpace right_ else getCPUInfo_lines rest
      else getCPUInfo_lines rest
  end.

Definition getCPUInfo (w : World) : string * Z * option error :=
  match ReadFile w "/proc/cpuinfo" with
  | inr err => ("", 0, Some err)
  | inl cpuData =>
      let model := getCPUInfo_lines (strings.Split cpuData "010") in
      let cores := NumCPU w in
      (model, cores, None)
  end.

(** The loop of [getMemInfo]: every line with the prefix is scanned into
    the same variable. *)
Fixpoint getMemInfo_lines (lines : list string) (memTotal : Z) : Z :=
  match lines with
  | [] => memTotal
  | line :: rest =>
      if strings.HasPrefix line "MemTotal:" then
        let '(memTotal, _, _) := fmt.Sscanf line "MemTotal: %d kB" memTotal in
        getMemInfo_lines rest memTotal
      else getMemInfo_lines rest memTotal
  end.

Definition getMemInfo (w : World) : Z * option error :=
  match ReadFile w "/proc/meminfo" with
  | inr err => (0, Some err)
  | inl memData => (getMemInfo_lines (strings.Split memData "010") 0, None)
  end.

(** The loop of [getDisksInfo], [disks] being the slice built so far. *)
Fixpoint getDisksInfo_lines (w : World) (lines : list string)
         (disks : list DiskInfo) : list DiskInfo :=
  match lines with
  | [] => disks
  | line :: rest =>
      if String.eqb line "" then getDisksInfo_lines w rest disks
      else
        let fields := strings.Fields line in
        if (List.length fields <? 3)%nat then getDisksInfo_lines w rest disks
        else
          let mountpoint := nth 1 fields "" in
          let fsType := nth 2 fields "" in
          match Statfs w mountpoint with
          | inr _ => getDisksInfo_lines w rest disks
          | inl stat =>
              if String.eqb fsType "proc" || String.eqb fsType "sysfs"
                 || String.eqb fsType "cgroup"
              then getDisksInfo_lines w rest disks
              else
                let total := mul64 (Blocks stat) (uint64 (Bsize stat)) in
                let free := mul64 (Bfree stat) (uint64 (Bsize stat)) in
                getDisksInfo_lines w rest
                  (disks ++ [{| Mountpoint := mountpoint;
                                FSType := fsType;
                                Total := total;
                                Free := free |}])
          end
  end.

Definition getDisksInfo (w : World) : list DiskInfo * option error :=
  match ReadFile w "/proc/mounts" with
  | inr err => ([], Some err)
  | inl data => (getDisksInfo_lines w (strings.Split data "010") [], None)
  end.

Definition readTrim (w : World) (path : string) : string * option error :=
  match ReadFile w path with
  | inr err => ("", Some err)
  | inl bytes => (strings.TrimSpace bytes, None)
  end.

Definition unlimitedThreshold : Z := 2 ^ 63 - 4096.

Definition readCgroupMemoryLimit (w : World) : option Z * option error :=
  match readTrim w "/sys/fs/cgroup/memory/memory.limit_in_bytes" with
  | (_, Some err) => (None, Some err)
  | (value, None) =>
      match strconv.ParseUint value with
      | (_, Some err) => (None, Some err)
      | (num, None) =>
          if num >=? unlimitedThreshold then (None, None)
          else (Some num, None)
      end
  end.

Section Collector.

(** [strconv.ParseFloat(s, 64)] is taken as given: the value and the
    error it returns for each string. *)
Variable ParseFloat : string -> float64 * option error.

Definition readCgroupCPULimit (w : World) : option float64 * option error :=
  match readTrim w "/sys/fs/cgroup/cpu/cpu.cfs_quota_us" with
  | (_, Some err) => (None, Some err)
  | (quotaStr, None) =>
      match readTrim w "/sys/fs/cgroup/cpu/cpu.cfs_period_us" with
      | (_, Some err) => (None, Some err)
      | (periodStr, None) =>
          if String.eqb quotaStr "-1" then (None, None)
          else
            match ParseFloat quotaStr with
            | (_, Some err) => (None, Some err)
            | (quota, None) =>
                match ParseFloat periodStr with
                | (_, Some err) => (None, Some err)
                | (period, None) =>
                    if isZero period then
                      (None, Some (Errorf "cpu.cfs_period_us is zero"))
                    else
                      let cores := SFdiv prec emax quota period in
                      (Some cores, None)
                end
            end
      end
  end.

End Collector.
(** ** Package [encoding/json] at the types of the program *)

Module json.

(** A number is kept as the Go value the encoder formatted: [strconv]
    writes an integer in decimal and a finite [float64] with the fewest
    digits that parse back to it, so the text of the literal is not
    modelled. *)
Inductive number :=
| Int (i : Z)
| Float (f : float64).

(** The tree of a JSON text; the members of an object are in the order of
    the text. *)
Inductive value :=
| Null
| Bool (b : bool)
| Number (n : number)
| String_ (s : string)
| Array (l : list value)
| Object (m : list (string * value)).

(** The bytes of U+FFFD. *)
Definition replacement : string :=
  String (chr 239) (String (chr 191) (String (chr 189) EmptyString)).

(** A string value is coerced to valid UTF-8: the encoder writes
    [\ufffd] for every byte that starts no valid encoding. *)
Definition coerce (s : string) : string :=
  String.concat ""
    (map (fun rt : Z * string =>
            if (fst rt =? utf8.RuneError) && (len (snd rt) =? 1)
            then replacement else snd rt)
         (utf8.runes s)).

Definition marshalDiskInfo (d : DiskInfo) : value :=
  Object [("Mountpoint", String_ (coerce (Mountpoint d)));
          ("FSType", String_ (coerce (FSType d)));
          ("Total", Number (Int (Total d)));
          ("Free", Number (Int (Free d)))].

(** A nil slice is [null]. *)
Definition marshalMounts (l : list DiskInfo) : value :=
  match l with
  | [] => Null
  | _ => Array (map marshalDiskInfo l)
  end.

(** [floatEncoder]: NaN and the infinities are refused. *)
Definition marshalFloat (f : float64) : value + error :=
  if isFinite f then inl (Number (Float f)) else inr UnsupportedValueError.

(** Both fields of [CgroupV1] are [omitempty] pointers. *)
Definition marshalCgroupV1 (c : CgroupV1) : value + error :=
  let mem :=
    match MemoryLimitBytes c with
    | Some m => [("memory_limit_bytes", Number (Int m))]
    | None => []
    end in
  match CPULimitCores c with
  | None => inl (Object mem)
  | Some f =>
      match marshalFloat f with
      | inl v => inl (Object (mem ++ [("cpu_limit_cores", v)]))
      | inr e => inr e
      end
  end.

(** [Marshal(info)]: the fields in the order of the struct, under the
    names of their tags; a nil slice is [null], and the [omitempty] pointer
    [CgroupV1] has no member when it is nil. *)
Definition Marshal (info : SysInfo) : value + error :=
  let members :=
    [("fd_count", Number (Int (FDCount info)));
     ("vmrss_bytes", Number (Int (VmRSS info)));
     ("exe_path", String_ (coerce (ExePath info)));
     ("cpu_model", String_ (coerce (CPUModel info)));
     ("cpu_cores", Number (Int (CPUCores info)));
     ("mem_total_kb", Number (Int (MemTotal info)));
     ("mounts", marshalMounts (Mounts info))] in
  match CgroupV1_ info with
  | None => inl (Object members)
  | Some c =>
      match marshalCgroupV1 c with
      | inl v => inl (Object (members ++ [("cgroup_v1", v)]))
      | inr e => inr e
      end
  end.

(** The names of the members of an object. *)
Definition keys (v : value) : list string :=
  match v with
  | Object m => map fst m
  | _ => []
  end.

Definition member (k : string) (v : value) : option value :=
  match v with
  | Object m =>
      match find (fun kv => String.eqb (fst kv) k) m with
      | Some kv => Some (snd kv)
      | None => None
      end
  | _ => None
  end.

(** *** Reading a tree back *)

Definition lower (c : ascii) : ascii :=
  if (65 <=? code c) && (code c <=? 90) then chr (code c + 32) else c.

Fixpoint equalFold (a b : string) : bool :=
  match a, b with
  | EmptyString, EmptyString => true
  | String x a', String y b' => Ascii.eqb (lower x) (lower y) && equalFold a' b'
  | _, _ => false
  end.

Fixpoint index (p : string -> bool) (names : list string) : option nat :=
  match names with
  | [] => None
  | n :: rest =>
      if p n then Some O
      else match index p rest with Some i => Some (S i) | None => None end
  end.

(** The field a key names: the one spelled like the key, else the first
    one equal to it when the case of ASCII letters is ignored. *)
Definition field (names : list string) (key : string) : option nat :=
  match index (String.eqb key) names with
  | Some i => Some i
  | None => index (equalFold key) names
  end.

Definition decInt (lo hi : Z) (v : value) (old : Z) : Z + error :=
  match v with
  | Null => inl old
  | Number (Int i) =>
      if (lo <=? i) && (i <=? hi) then inl i else inr UnmarshalTypeError
  | _ => inr UnmarshalTypeError
  end.

Definition decString (v : value) (old : string) : string + error :=
  match v with
  | Null => inl old
  | String_ s => inl s
  | _ => inr UnmarshalTypeError
  end.

Definition decUintPtr (v : value) (old : option Z) : option Z + error :=
  match v with
  | Null => inl None
  | _ =>
      match decInt 0 (2 ^ 64 - 1) v 0 with
      | inl i => inl (Some i)
      | inr e => inr e
      end
  end.

Definition decFloatPtr (v : value) (old : option float64)
  : option float64 + error :=
  match v with
  | Null => inl None
  | Number (Float f) => inl (Some f)
  | Number (Int i) => inl (Some (binary_normalize prec emax i 0 false))
  | _ => inr UnmarshalTypeError
  end.

(** The members of an object are read in order into the struct [x],
    [step] reading one of them. *)
Fixpoint members {A : Type} (step : A -> string -> value -> A + error)
         (m : list (string * value)) (x : A) : A + error :=
  match m with
  | [] => inl x
  | (k, v) :: rest =>
      match step x k v with
      | inl x' => members step rest x'
      | inr e => inr e
      end
  end.

Definition withField {A B : Type} (r : B + error) (set : B -> A) : A + error :=
  match r with
  | inl b => inl (set b)
  | inr e => inr e
  end.

Definition int64 (v : value) (old : Z) : Z + error :=
  decInt (- 2 ^ 63) (2 ^ 63 - 1) v old.

Definition uint64_ (v : value) (old : Z) : Z + error :=
  decInt 0 (2 ^ 64 - 1) v old.

Definition stepDiskInfo (d : DiskInfo) (k : string) (v : value)
  : DiskInfo + error :=
  match field ["Mountpoint"; "FSType"; "Total"; "Free"] k with
  | Some 0%nat =>
      withField (decString v (Mountpoint d))
        (fun s => {| Mountpoint := s; FSType := FSType d;
                     Total := Total d; Free := Free d |})
  | Some 1%nat =>
      withField (decString v (FSType d))
        (fun s => {| Mountpoint := Mountpoint d; FSType := s;
                     Total := Total d; Free := Free d |})
  | Some 2%nat =>
      withField (uint64_ v (Total d))
        (fun n => {| Mountpoint := Mountpoint d; FSType := FSType d;
                     Total := n; Free := Free d |})
  | Some 3%nat =>
      withField (uint64_ v (Free d))
        (fun n => {| Mountpoint := Mountpoint d; FSType := FSType d;
                     Total := Total d; Free := n |})
  | _ => inl d
  end.

Definition zeroDiskInfo : DiskInfo :=
  {| Mountpoint := ""; FSType := ""; Total := 0; Free := 0 |}.

Definition decDiskInfo (v : value) : DiskInfo + error :=
  match v with
  | Null => inl zeroDiskInfo
  | Object m => members stepDiskInfo m zeroDiskInfo
  | _ => inr UnmarshalTypeError
  end.

Fixpoint decElements (l : list value) : list DiskInfo + error :=
  match l with
  | [] => inl []
  | v :: rest =>
      match decDiskInfo v with
      | inr e => inr e
      | inl d => withField (decElements rest) (fun ds => d :: ds)
      end
  end.

Definition decMounts (v : value) (old : list DiskInfo)
  : list DiskInfo + error :=
  match v with
  | Null => inl []
  | Array l => decElements l
  | _ => inr UnmarshalTypeError
  end.

Definition stepCgroupV1 (c : CgroupV1) (k : string) (v : value)
  : CgroupV1 + error :=
  match field ["memory_limit_bytes"; "cpu_limit_cores"] k with
  | Some 0%nat =>
      withField (decUintPtr v (MemoryLimitBytes c))
        (fun m => {| MemoryLimitBytes := m;
                     CPULimitCores := CPULimitCores c |})
  | Some 1%nat =>
      withField (decFloatPtr v (CPULimitCores c))
        (fun f => {| MemoryLimitBytes := MemoryLimitBytes c;
                     CPULimitCores := f |})
  | _ => inl c
  end.

Definition zeroCgroupV1 : CgroupV1 :=
  {| MemoryLimitBytes := None; CPULimitCores := None |}.

Definition decCgroupV1Ptr (v : value) (old : option CgroupV1)
  : option CgroupV1 + error :=
  match v with
  | Null => inl None
  | Object m =>
      withField
        (members stepCgroupV1 m
           (match old with Some c => c | None => zeroCgroupV1 end))
        Some
  | _ => inr UnmarshalTypeError
  end.

Definition setFDCount (i : SysInfo) (x : Z) : SysInfo :=
  {| FDCount := x; VmRSS := VmRSS i; ExePath := ExePath i;
     CPUModel := CPUModel i; CPUCores := CPUCores i; MemTotal := MemTotal i;
     Mounts := Mounts i; CgroupV1_ := CgroupV1_ i |}.

Definition setVmRSS (i : SysInfo) (x : Z) : SysInfo :=
  {| FDCount := FDCount i; VmRSS := x; ExePath := ExePath i;
     CPUModel := CPUModel i; CPUCores := CPUCores i; MemTotal := MemTotal i;
     Mounts := Mounts i; CgroupV1_ := CgroupV1_ i |}.

Definition setExePath (i : SysInfo) (x : string) : SysInfo :=
  {| FDCount := FDCount i; VmRSS := VmRSS i; ExePath := x;
     CPUModel := CPUModel i; CPUCores := CPUCores i; MemTotal := MemTotal i;
     Mounts := Mounts i; CgroupV1_ := CgroupV1_ i |}.

Definition setCPUModel (i : SysInfo) (x : string) : SysInfo :=
  {| FDCount := FDCount i; VmRSS := VmRSS i; ExePath := ExePath i;
     CPUModel := x; CPUCores := CPUCores i; MemTotal := MemTotal i;
     Mounts := Mounts i; CgroupV1_ := CgroupV1_ i |}.

Definition setCPUCores (i : SysInfo) (x : Z) : SysInfo :=
  {| FDCount := FDCount i; VmRSS := VmRSS i; ExePath := ExePath i;
     CPUModel := CPUModel i; CPUCores := x; MemTotal := MemTotal i;
     Mounts := Mounts i; CgroupV1_ := CgroupV1_ i |}.

Definition setMemTotal (i : SysInfo) (x : Z) : SysInfo :=
  {| FDCount := FDCount i; VmRSS := VmRSS i; ExePath := ExePath i;
     CPUModel := CPUModel i; CPUCores := CPUCores i; MemTotal := x;
     Mounts := Mounts i; CgroupV1_ := CgroupV1_ i |}.

Definition setMounts (i : SysInfo) (x : list DiskInfo) : SysInfo :=
  {| FDCount := FDCount i; VmRSS := VmRSS i; ExePath := ExePath i;
     CPUModel := CPUModel i; CPUCores := CPUCores i; MemTotal := MemTotal i;
     Mounts := x; CgroupV1_ := CgroupV1_ i |}.

Definition setCgroupV1 (i : SysInfo) (x : option CgroupV1) : SysInfo :=
  {| FDCount := FDCount i; VmRSS := VmRSS i; ExePath := ExePath i;
     CPUModel := CPUModel i; CPUCores := CPUCores i; MemTotal := MemTotal i;
     Mounts := Mounts i; CgroupV1_ := x |}.

Definition stepSysInfo (i : SysInfo) (k : string) (v : value)
  : SysInfo + error :=
  match field ["fd_count"; "vmrss_bytes"; "exe_path"; "cpu_model";
               "cpu_cores"; "mem_total_kb"; "mounts"; "cgroup_v1"] k with
  | Some 0%nat => withField (int64 v (FDCount i)) (setFDCount i)
  | Some 1%nat => withField (int64 v (VmRSS i)) (setVmRSS i)
  | Some 2%nat => withField (decString v (ExePath i)) (setExePath i)
  | Some 3%nat => withField (decString v (CPUModel i)) (setCPUModel i)
  | Some 4%nat => withField (int64 v (CPUCores i)) (setCPUCores i)
  | Some 5%nat => withField (int64 v (MemTotal i)) (setMemTotal i)
  | Some 6%nat => withField (decMounts v (Mounts i)) (setMounts i)
  | Some 7%nat => withField (decCgroupV1Ptr v (CgroupV1_ i)) (setCgroupV1 i)
  | _ => inl i
  end.

Definition zeroSysInfo : SysInfo :=
  {| FDCount := 0; VmRSS := 0; ExePath := ""; CPUModel := ""; CPUCores := 0;
     MemTotal := 0; Mounts := []; CgroupV1_ := None |}.

(** Modelled from the spec: the parse-back of the JSON round trip, which
    [main.go] does not contain, as [Unmarshal] into a zero [SysInfo] does
    it: a member is matched to a field by its key, a key naming no field
    is skipped, [null] clears a pointer or a slice and leaves other fields
    alone, and a value of the wrong kind or out of range is an error.  Keys
    are compared exactly and then without the case of ASCII letters. *)
Definition Unmarshal (v : value) : SysInfo + error :=
  match v with
  | Null => inl zeroSysInfo
  | Object m => members stepSysInfo m zeroSysInfo
  | _ => inr UnmarshalTypeError
  end.

End json.


(** ** The collector and the renderers: [main] *)

Inductive writer :=
| Stdout
| Stderr
| Tabwriter.

(** The operands of the print calls; [AJSON v] is the text
    [MarshalIndent] writes for the tree [v]. *)
Inductive arg :=
| AString (s : string)
| AInt (i : Z)
| AFloat (f : float64)
| AError (e : error)
| AJSON (v : json.value).

(** The calls a run makes on its output: [fmt.Println] is [Fprintln] on
    [Stdout], and [Tabwriter] is the [tabwriter.Writer] over [os.Stdout],
    whose text reaches it at [Flush]. *)
Inductive call :=
| Fprintln (w : writer) (a : list arg)
| Fprintf (w : writer) (format : string) (a : list arg)
| Flush
| Exit (status : Z).

Definition tab : string := String "009" EmptyString.
Definition nl : string := String "010" EmptyString.

(** ** Package [flag], with the one flag of the program

    [main] defines the boolean flag [json], of default [false], on the
    flag set of the command line, whose error handling is [ExitOnError]
    and whose output is standard error.  The package is the one of
    Go 1.15 and later, where asking for the help exits with 0. *)

Module flag.

(** What [parseOne] makes of the argument ahead: no flag (the parse is
    over), the flag with the value it is set to, [ErrHelp], or the error
    of [failf]. *)
Inductive step :=
| Done
| Seen (value : bool)
| Help
| Failf (format : string) (a : list arg).








End flag.

Section Main.

Variable ParseFloat : string -> float64 * option error.

(** The report of a probe that is not fatal. *)
Definition report (label : string) (err : option error) : list call :=
  match err with
  | Some e => [Fprintln Stdout [AString label; AError e]]
  | None => []
  end.

(** [main] from its first probe up to the assignment of [info.CgroupV1]:
    the calls made and the snapshot, which is [None] when the run
    returned early. *)
Definition collect (w : World) : list call * option SysInfo :=
  let '(fds, err) := countFDs w in
  match err with
  | Some e => ([Fprintln Stdout [AString ("FDs counting error:" ++ tab); AError e]],
               None)
  | None =>
  let '(vmrss, err) := getRSS w in
  match err with
  | Some e => ([Fprintln Stdout [AString ("VmRRS getting error:" ++ tab); AError e]],
               None)
  | None =>
  let '(path, err1) := getBinPath w in
  let '(model, cores, err2) := getCPUInfo w in
  let '(memTotal, err3) := getMemInfo w in
  let '(disks, err4) := getDisksInfo w in
  let '(memLimit, err5) := readCgroupMemoryLimit w in
  let '(cpuLimit, err6) := readCgroupCPULimit ParseFloat w in
  ((report ("Path getting error:" ++ tab) err1
    ++ report ("CPU info getting error:" ++ tab) err2
    ++ report ("Mem info getting error:" ++ tab) err3
    ++ report ("Disk info getting error:" ++ tab) err4
    ++ report ("cgroup memory limit error:" ++ tab) err5
    ++ report ("cgroup CPU limit error:" ++ tab) err6)%list,
   Some {| FDCount := fds;
           VmRSS := vmrss;
           ExePath := path;
           CPUModel := model;
           CPUCores := cores;
           MemTotal := memTotal;
           Mounts := disks;
           CgroupV1_ := Some {| MemoryLimitBytes := memLimit;
                                CPULimitCores := cpuLimit |} |})
  end
  end.

Definition renderJSON (info : SysInfo) : list call :=
  match json.Marshal info with
  | inr err => [Fprintln Stderr [AString "JSON marshal error:"; AError err];
                Exit 1]
  | inl out => [Fprintln Stdout [AJSON out]]
  end.

Definition renderCgroup (c : option CgroupV1) : list call :=
  match c with
  | None => []
  | Some c =>
      [match MemoryLimitBytes c with
       | None => Fprintln Tabwriter [AString ("Cgroup (v1) MemLimit:" ++ tab);
                                     AString "unlimited"]
       | Some m => Fprintln Tabwriter [AString ("Cgroup (v1) MemLimit:" ++ tab);
                                       AString (humanMB m)]
       end;
       match CPULimitCores c with
       | None => Fprintln Tabwriter [AString ("Cgroup (v1) CPULimit:" ++ tab);
                                     AString "unlimited"]
       | Some f => Fprintf Tabwriter
                     ("Cgroup (v1) CPULimit:" ++ tab ++ "%.2f cores" ++ nl)
                     [AFloat f]
       end;
       Fprintln Tabwriter []]
  end.

Definition renderMount (d : DiskInfo) : call :=
  Fprintf Tabwriter ("%s" ++ tab ++ "%s" ++ tab ++ "%s" ++ tab ++ "%s" ++ nl)
    [AString (Mountpoint d); AString (FSType d);
     AString (humanMB (Total d)); AString (humanMB (Free d))].

Definition renderTable (info : SysInfo) : list call :=
  ([Fprintln Tabwriter [AString ("FDs count:" ++ tab); AInt (FDCount info)];
   Fprintln Tabwriter [AString ("VmRSS:" ++ tab); AInt (VmRSS info); AString "B"];
   Fprintln Tabwriter [AString ("EXE path:" ++ tab); AString (ExePath info)];
   Fprintln Tabwriter [AString ("CPU model:" ++ tab); AString (CPUModel info)];
   Fprintln Tabwriter [AString ("CPU cores:" ++ tab); AInt (CPUCores info)];
   Fprintln Tabwriter [AString ("MemTotal:" ++ tab); AInt (MemTotal info);
                       AString "kB"]]
  ++ renderCgroup (CgroupV1_ info)
  ++ [Fprintln Tabwriter [AString ("Mounts count:" ++ tab);
                          AInt (Z.of_nat (List.length (Mounts info)))];
      Fprintln Tabwriter [];
      Fprintln Tabwriter
        [AString ("Mount:" ++ tab ++ "FS:" ++ tab ++ "Total:" ++ tab ++ "Free:")]]
  ++ map renderMount (Mounts info)
  ++ [Flush])%list.

(** The report: what [main] does from the test of [*jsonOutput] on. *)
Definition render (jsonOutput : bool) (info : SysInfo) : list call :=
  if jsonOutput then renderJSON info else renderTable info.

(** [main] from its first probe on: [flag.Parse] has returned and
    [jsonOutput] is the value it left in the flag.  The whole of [main],
    with the parse of the command line, is [run] below. *)
Definition main (w : World) (jsonOutput : bool) : list call :=
  match collect w with
  | (out, None) => out
  | (out, Some info) => (out ++ render jsonOutput info)%list
  end.


End Main.

(** A report is a call that writes the table or the JSON document. *)
Definition isReport (c : call) : bool :=
  match c with
  | Fprintln Tabwriter _ | Fprintf Tabwriter _ _ | Flush => true
  | Fprintln _ [AJSON _] => true
  | _ => false
  end.

Definition onStderr (c : call) : bool :=
  match c with
  | Fprintln Stderr _ | Fprintf Stderr _ _ => true
  | _ => false
  end.

(** ** Inputs and predicates of the statements *)

(** An instance of [ParseFloat] for running the probes on what the kernel
    writes in the cgroup files, a decimal integer: up to 15 digits are
    parsed to the [float64] of that value, which is exact, as
    [strconv.ParseFloat] does; other texts are refused. *)
Definition parseFloatDigits (s : string) : float64 * option error :=
  match s with
  | EmptyString => (S754_zero false, Some (NumError "ParseFloat" s ErrSyntax))
  | _ =>
      if (String.length s <=? 15)%nat then
        match strconv.parseDigits s 0 with
        | (n, None) => (binary_normalize prec emax n 0 false, None)
        | _ => (S754_zero false, Some (NumError "ParseFloat" s ErrSyntax))
        end
      else (S754_zero false, Some (NumError "ParseFloat" s ErrSyntax))
  end.

(** A system where nothing can be read. *)
Definition noFile : string -> string + error :=
  fun _ => inr (OSError "no such file or directory").

Definition emptyWorld : World :=
  {| ReadDir := fun _ => inr (OSError "no such file or directory");
     ReadFile := noFile;
     Readlink := fun _ => inr (OSError "no such file or directory");
     Statfs := fun _ => inr (OSError "no such file or directory");
     NumCPU := 1 |}.

(** [w] with the file [path] holding [data]. *)
Definition withFile (path data : string) (w : World) : World :=
  {| ReadDir := ReadDir w;
     ReadFile := fun p => if String.eqb p path then inl data else ReadFile w p;
     Readlink := Readlink w;
     Statfs := Statfs w;
     NumCPU := NumCPU w |}.

Definition memLimitFile (data : string) : World :=
  withFile "/sys/fs/cgroup/memory/memory.limit_in_bytes" data emptyWorld.

Definition cpuFiles (quota period : string) : World :=
  withFile "/sys/fs/cgroup/cpu/cpu.cfs_quota_us" quota
    (withFile "/sys/fs/cgroup/cpu/cpu.cfs_period_us" period emptyWorld).

(** The quota file holds ["-1"] and the period file cannot be read. *)
Definition quotaOnly : World :=
  withFile "/sys/fs/cgroup/cpu/cpu.cfs_quota_us" ("-1" ++ nl) emptyWorld.

(** What one line of the mounts table adds to the slice. *)
Definition mountOf (w : World) (line : string) : list DiskInfo :=
  getDisksInfo_lines w [line] [].

Definition pseudo (fsType : string) : Prop :=
  fsType = "proc" \/ fsType = "sysfs" \/ fsType = "cgroup".

Definition diskOf (mountpoint fsType : string) (stat : Statfs_t) : DiskInfo :=
  {| Mountpoint := mountpoint;
     FSType := fsType;
     Total := (Blocks stat * (Bsize stat mod 2 ^ 64)) mod 2 ^ 64;
     Free := (Bfree stat * (Bsize stat mod 2 ^ 64)) mod 2 ^ 64 |}.

(** A mounts table of five lines: a disk, a pseudo file system, a line
    of two fields, a type that only contains "sysfs", and a disk whose
    statistics cannot be read. *)
Definition mountsData : string :=
  "/dev/sda1 / ext4 rw 0 0" ++ nl ++
  "proc /proc proc rw 0 0" ++ nl ++
  "none /short" ++ nl ++
  "sysfs /sys sysfsx rw 0 0" ++ nl ++
  "/dev/sdb1 /gone ext4 rw 0 0" ++ nl.

Definition stat1M : Statfs_t :=
  {| Bsize := 4096; Blocks := 1000000; Bfree := 250000 |}.

Definition mountsWorld : World :=
  {| ReadDir := ReadDir emptyWorld;
     ReadFile := ReadFile (withFile "/proc/mounts" mountsData emptyWorld);
     Readlink := Readlink emptyWorld;
     Statfs := fun p => if String.eqb p "/gone"
                        then inr (OSError "no such file or directory")
                        else inl stat1M;
     NumCPU := 1 |}.

(** The mounts table holds one ext4 disk, whose statistics cannot be
    read. *)
Definition goneWorld : World :=
  {| ReadDir := ReadDir emptyWorld;
     ReadFile := ReadFile (withFile "/proc/mounts"
                             ("/dev/sdb1 /gone ext4 rw 0 0" ++ nl)
                             emptyWorld);
     Readlink := Readlink emptyWorld;
     Statfs := Statfs emptyWorld;
     NumCPU := 1 |}.

(** Three descriptors are open and the status file has its [VmRSS] line;
    nothing else can be read. *)
Definition bareWorld : World :=
  {| ReadDir := fun _ => inl ["0"; "1"; "2"];
     ReadFile := ReadFile (withFile "/proc/self/status"
                             ("Name:" ++ tab ++ "sysinfo" ++ nl ++
                              "VmRSS:" ++ tab ++ "    4096 kB" ++ nl)
                             emptyWorld);
     Readlink := Readlink emptyWorld;
     Statfs := Statfs emptyWorld;
     NumCPU := 8 |}.

Ltac break_match :=
  match goal with
  | |- context [match ?x with _ => _ end] => destruct x eqn:?
  end.

Definition int64Range (z : Z) : Prop := - 2 ^ 63 <= z < 2 ^ 63.

Definition uint64Range (z : Z) : Prop := 0 <= z < 2 ^ 64.

(** The values of a snapshot are in the ranges of their Go types. *)
Definition inRange (info : SysInfo) : Prop :=
  int64Range (FDCount info) /\ int64Range (VmRSS info)
  /\ int64Range (CPUCores info) /\ int64Range (MemTotal info)
  /\ Forall (fun d => uint64Range (Total d) /\ uint64Range (Free d))
            (Mounts info)
  /\ match CgroupV1_ info with
     | Some {| MemoryLimitBytes := Some m |} => uint64Range m
     | _ => True
     end.

(** The strings of a snapshot are valid UTF-8. *)
Definition validStrings (info : SysInfo) : Prop :=
  utf8.ValidString (ExePath info) = true
  /\ utf8.ValidString (CPUModel info) = true
  /\ Forall (fun d => utf8.ValidString (Mountpoint d) = true
                      /\ utf8.ValidString (FSType d) = true)
            (Mounts info).

Definition topKeys : list string :=
  ["fd_count"; "vmrss_bytes"; "exe_path"; "cpu_model"; "cpu_cores";
   "mem_total_kb"; "mounts"].

Definition sampleInfo : SysInfo :=
  {| FDCount := 3;
     VmRSS := 4096;
     ExePath := "/usr/local/bin/sysinfo";
     CPUModel := "Example CPU @ 3.00GHz";
     CPUCores := 8;
     MemTotal := 16384000;
     Mounts := [diskOf "/" "ext4" stat1M];
     CgroupV1_ :=
       Some {| MemoryLimitBytes := Some 536870912;
               CPULimitCores :=
                 Some (S754_finite false 4503599627370496 (-53)) |} |}.

Definition sampleTree : json.value :=
  json.Object
    [("fd_count", json.Number (json.Int 3));
     ("vmrss_bytes", json.Number (json.Int 4096));
     ("exe_path", json.String_ "/usr/local/bin/sysinfo");
     ("cpu_model", json.String_ "Example CPU @ 3.00GHz");
     ("cpu_cores", json.Number (json.Int 8));
     ("mem_total_kb", json.Number (json.Int 16384000));
     ("mounts",
      json.Array
        [json.Object
           [("Mountpoint", json.String_ "/");
            ("FSType", json.String_ "ext4");
            ("Total", json.Number (json.Int 4096000000));
            ("Free", json.Number (json.Int 1024000000))]]);
     ("cgroup_v1",
      json.Object
        [("memory_limit_bytes", json.Number (json.Int 536870912));
         ("cpu_limit_cores",
          json.Number
            (json.Float (S754_finite false 4503599627370496 (-53))))])].

(** The executable is at a path whose last byte, 255, is not UTF-8. *)
Definition oddPath : string := "/tmp/" ++ String (chr 255) EmptyString.

Definition oddPathWorld : World :=
  {| ReadDir := ReadDir bareWorld;
     ReadFile := ReadFile bareWorld;
     Readlink := fun _ => inl oddPath;
     Statfs := Statfs bareWorld;
     NumCPU := NumCPU bareWorld |}.

Fixpoint digitsOnly (s : string) : bool :=
  match s with
  | EmptyString => true
  | String c t => fmt.isDigit c && digitsOnly t
  end.

(** A text that does not go on with a digit. *)
Definition noDigitAhead (s : string) : Prop :=
  match s with
  | EmptyString => True
  | String c _ => fmt.isDigit c = false
  end.

(** A blank of the status file: a space or a tab. *)
Definition isBlank (c : ascii) : bool := (code c =? 32) || (code c =? 9).

Fixpoint blanksOnly (s : string) : bool :=
  match s with
  | EmptyString => true
  | String c t => isBlank c && blanksOnly t
  end.

(** A text that starts with a sign or a digit. *)
Definition numeralAhead (s : string) : Prop :=
  match s with
  | EmptyString => False
  | String c _ => fmt.isDigit c = true \/ c = "-"%char \/ c = "+"%char
  end.

(** A text that is over, or that goes on with an ASCII byte that is not
    white space. *)
Definition solid (s : string) : Prop :=
  match s with
  | EmptyString => True
  | String c _ => code c < 128 /\ fmt.isSpace (code c) = false
  end.

Definition noPrefix (lines : list string) : Prop :=
  forall l, In l lines -> strings.HasPrefix l "VmRSS:" = false.

(** The line ["VmRSS: N kB"]. *)
Definition rssLine (n : Z) : string :=
  "VmRSS: " ++ strconv.FormatInt n ++ " kB".

Definition statusFile (data : string) : World :=
  withFile "/proc/self/status" data emptyWorld.

Definition statusMalformed : string :=
  "Name:" ++ tab ++ "sysinfo" ++ nl ++ "VmRSS: abc kB" ++ nl.

Definition statusMissing : string := "VmRSS:" ++ nl.

Definition statusNoSpace : string := "VmRSS:4096 kB" ++ nl.

(** A line that leaves the memory total as it is: it has not the prefix,
    or [Sscanf] scans no integer from it. *)
Definition quietMem (line : string) : Prop :=
  strings.HasPrefix line "MemTotal:" = false
  \/ forall v, snd (fst (fmt.Sscanf line "MemTotal: %d kB" v)) = 0%nat.

Definition meminfoFile (data : string) : World :=
  withFile "/proc/meminfo" data emptyWorld.

(** A memory table with three lines of the prefix: a first value, the
    value of the kernel's layout, and a line without a number. *)
Definition meminfoData : string :=
  "MemTotal: 100 kB" ++ nl ++
  "MemFree:         5120000 kB" ++ nl ++
  "MemTotal:       16384000 kB" ++ nl ++
  "MemTotal: unknown" ++ nl.

(** No byte of the text is a colon. *)
Fixpoint noColon (s : string) : bool :=
  match s with
  | EmptyString => true
  | String c t => negb (Ascii.eqb c ":") && noColon t
  end.

(** A line the CPU probe passes over: it has not the prefix, or it has no
    colon. *)
Definition passedCPU (line : string) : Prop :=
  strings.HasPrefix line "model name" = false \/ noColon line = true.

Definition cpuinfoFile (data : string) : World :=
  withFile "/proc/cpuinfo" data emptyWorld.

Definition cpuinfoData : string :=
  "processor" ++ tab ++ ": 0" ++ nl ++
  "model name without colon" ++ nl ++
  "model name" ++ tab ++ ": Example CPU @ 3.00GHz: rev 2 " ++ nl ++
  "model name" ++ tab ++ ": Another CPU" ++ nl.

(** An ASCII byte that is white space, and one that is not. *)
Definition spaceByte (c : ascii) : bool :=
  (code c <? 128) && unicode.IsSpace (code c).

Definition solidByte (c : ascii) : bool :=
  (code c <? 128) && negb (unicode.IsSpace (code c)).

Fixpoint spacesOnly (s : string) : bool :=
  match s with
  | EmptyString => true
  | String c t => spaceByte c && spacesOnly t
  end.

(** The text starts with an ASCII byte that is not white space. *)
Definition solidFirst (t : string) : Prop :=
  match t with
  | EmptyString => False
  | String c _ => solidByte c = true
  end.

(** The text ends with an ASCII byte that is not white space. *)
Definition solidLast (t : string) : Prop :=
  exists pre b, t = pre ++ String b "" /\ solidByte b = true.

Definition crlf : string := String "013" (String "010" "").

Definition isExit (c : call) : bool :=
  match c with
  | Exit _ => true
  | _ => false
  end.

(** A call that neither writes on standard error, nor exits, nor writes
    the report. *)
Definition isNote (c : call) : bool :=
  negb (onStderr c) && negb (isExit c) && negb (isReport c).



(** The model line of a CPU whose name has a letter of two bytes. *)
Definition modelData : string :=
  "processor" ++ tab ++ ": 0" ++ nl ++
  "model name" ++ tab ++ ": Ex" ++ String (chr 195) (String (chr 164) "mple CPU")
    ++ " " ++ nl.

(** A system where every probe succeeds: three descriptors, the status
    file, the link of the executable, the CPU and memory tables, the
    mounts table with the statistics of its mountpoints, a memory limit
    of 512 MiB and a CPU limit of half a core. *)
Definition fullWorld : World :=
  {| ReadDir := ReadDir bareWorld;
     ReadFile :=
       ReadFile
         (withFile "/proc/cpuinfo" modelData
         (withFile "/proc/meminfo" meminfoData
         (withFile "/proc/mounts" mountsData
         (withFile "/sys/fs/cgroup/memory/memory.limit_in_bytes"
                   ("536870912" ++ nl)
         (withFile "/sys/fs/cgroup/cpu/cpu.cfs_quota_us" ("50000" ++ nl)
         (withFile "/sys/fs/cgroup/cpu/cpu.cfs_period_us" ("100000" ++ nl)
                   bareWorld))))));
     Readlink := fun _ => inl "/usr/local/bin/sysinfo";
     Statfs := Statfs mountsWorld;
     NumCPU := NumCPU bareWorld |}.

(** The snapshot of a run on [fullWorld]. *)
Definition fullInfo : SysInfo :=
  {| FDCount := 3;
     VmRSS := 4096;
     ExePath := "/usr/local/bin/sysinfo";
     CPUModel := "Ex" ++ String (chr 195) (String (chr 164) "mple CPU");
     CPUCores := 8;
     MemTotal := 16384000;
     Mounts := [diskOf "/" "ext4" stat1M; diskOf "/sys" "sysfsx" stat1M];
     CgroupV1_ :=
       Some {| MemoryLimitBytes := Some 536870912;
               CPULimitCores :=
                 Some (S754_finite false 4503599627370496 (-53)) |} |}.

(** The row of the table for a mount of [stat1M]. *)
Definition row1M (mountpoint fsType : string) : call :=
  Fprintf Tabwriter ("%s" ++ tab ++ "%s" ++ tab ++ "%s" ++ tab ++ "%s" ++ nl)
    [AString mountpoint; AString fsType; AString "3906 MB"; AString "976 MB"].

(** A file system of [2^62] blocks of 4096 bytes, a [uint64] count whose
    product by the block size is [2^74]. *)
Definition hugeStat : Statfs_t :=
  {| Bsize := 4096; Blocks := 2 ^ 62; Bfree := 0 |}.

Definition hugeWorld : World :=
  {| ReadDir := ReadDir bareWorld;
     ReadFile := ReadFile (withFile "/proc/mounts"
                             ("/dev/sda1 / ext4 rw 0 0" ++ nl) bareWorld);
     Readlink := Readlink bareWorld;
     Statfs := fun _ => inl hugeStat;
     NumCPU := NumCPU bareWorld |}.

(** A call on the tabwriter, and a print of the JSON document. *)
Definition onTabwriter (c : call) : bool :=
  match c with
  | Fprintln Tabwriter _ | Fprintf Tabwriter _ _ | Flush => true
  | _ => false
  end.

Definition isJSON (c : call) : bool :=
  match c with
  | Fprintln _ [AJSON _] => true
  | _ => false
  end.

(** The CPU limit of the run is a float that is not finite. *)
Definition limitNotFinite (ParseFloat : string -> float64 * option error)
           (w : World) : Prop :=
  exists f, fst (readCgroupCPULimit ParseFloat w) = Some f
            /\ isFinite f = false.

Ltac break_in H :=
  match type of H with
  | context [match ?x with _ => _ end] => destruct x eqn:?
  end.

(** * Properties *)

(** ** The cgroup probes *)

Lemma readTrim_ok (w : World) (path raw : string) :
  ReadFile w path = inl raw -> readTrim w path = (strings.TrimSpace raw, None).
Proof. intros H. unfold readTrim. rewrite H. reflexivity. Qed.

Lemma readTrim_err (w : World) (path : string) (e : error) :
  ReadFile w path = inr e -> readTrim w path = ("", Some e).
Proof. intros H. unfold readTrim. rewrite H. reflexivity. Qed.

(** C4. For a memory limit file that is read and parsed to [v]: at or
    above [2^63 - 4096] the probe returns the absent value and no error,
    below it returns [v]; an error of the read or of [ParseUint] is
    returned as it is. *)
Theorem readCgroupMemoryLimit_threshold (w : World) :
  (forall raw v,
      ReadFile w "/sys/fs/cgroup/memory/memory.limit_in_bytes" = inl raw ->
      strconv.ParseUint (strings.TrimSpace raw) = (v, None) ->
      (2 ^ 63 - 4096 <= v -> readCgroupMemoryLimit w = (None, None)) /\
      (v < 2 ^ 63 - 4096 -> readCgroupMemoryLimit w = (Some v, None))) /\
  (forall e,
      ReadFile w "/sys/fs/cgroup/memory/memory.limit_in_bytes" = inr e ->
      readCgroupMemoryLimit w = (None, Some e)) /\
  (forall raw x e,
      ReadFile w "/sys/fs/cgroup/memory/memory.limit_in_bytes" = inl raw ->
      strconv.ParseUint (strings.TrimSpace raw) = (x, Some e) ->
      readCgroupMemoryLimit w = (None, Some e)).
Proof.
  unfold readCgroupMemoryLimit, unlimitedThreshold.
  repeat split.
  - intros Hv. rewrite (readTrim_ok _ _ _ H), H0.
    destruct (Z.geb_spec v (2 ^ 63 - 4096)); [reflexivity | lia].
  - intros Hv. rewrite (readTrim_ok _ _ _ H), H0.
    destruct (Z.geb_spec v (2 ^ 63 - 4096)); [lia | reflexivity].
  - intros e H. rewrite (readTrim_err _ _ _ H). reflexivity.
  - intros raw x e H H0. rewrite (readTrim_ok _ _ _ H), H0. reflexivity.
Qed.

Lemma readCgroupMemoryLimit_threshold_witness :
  readCgroupMemoryLimit (memLimitFile ("9223372036854771712" ++ nl))
    = (None, None)
  /\ readCgroupMemoryLimit (memLimitFile ("9223372036854771711" ++ nl))
    = (Some 9223372036854771711, None)
  /\ readCgroupMemoryLimit emptyWorld
    = (None, Some (OSError "no such file or directory"))
  /\ readCgroupMemoryLimit (memLimitFile ("max" ++ nl))
    = (None, Some (NumError "ParseUint" "max" ErrSyntax)).
Proof.
  split; [| split; [| split]].
  - apply (proj1 (readCgroupMemoryLimit_threshold _)
             ("9223372036854771712" ++ nl) 9223372036854771712);
      [reflexivity | reflexivity | lia].
  - apply (proj1 (readCgroupMemoryLimit_threshold _)
             ("9223372036854771711" ++ nl) 9223372036854771711);
      [reflexivity | reflexivity | lia].
  - apply (proj1 (proj2 (readCgroupMemoryLimit_threshold _))). reflexivity.
  - apply (proj2 (proj2 (readCgroupMemoryLimit_threshold _)) ("max" ++ nl) 0);
      reflexivity.
Defined.

Section CPULimit.

Variable ParseFloat : string -> float64 * option error.

(** C3. When the trimmed quota is exactly ["-1"], the probe returns the
    absent value and no error, whatever value the period file holds, zero
    and text that is no number included: the quota is compared with
    ["-1"] before anything is parsed. *)
Theorem readCgroupCPULimit_unlimited (w : World) (quota period : string) :
  ReadFile w "/sys/fs/cgroup/cpu/cpu.cfs_quota_us" = inl quota ->
  ReadFile w "/sys/fs/cgroup/cpu/cpu.cfs_period_us" = inl period ->
  strings.TrimSpace quota = "-1" ->
  readCgroupCPULimit ParseFloat w = (None, None).
Proof.
  intros Hq Hp Ht. unfold readCgroupCPULimit.
  rewrite (readTrim_ok _ _ _ Hq), (readTrim_ok _ _ _ Hp), Ht.
  reflexivity.
Qed.

(** C9. When the period file cannot be read the probe returns an error,
    and with a readable quota file it is the error of that read, also
    when the trimmed quota is ["-1"]: the period file is read before the
    quota is looked at. *)
Theorem readCgroupCPULimit_period_unreadable (w : World) (e : error) :
  ReadFile w "/sys/fs/cgroup/cpu/cpu.cfs_period_us" = inr e ->
  (exists e', readCgroupCPULimit ParseFloat w = (None, Some e')) /\
  (forall quota,
      ReadFile w "/sys/fs/cgroup/cpu/cpu.cfs_quota_us" = inl quota ->
      strings.TrimSpace quota = "-1" ->
      readCgroupCPULimit ParseFloat w = (None, Some e)).
Proof.
  intros Hp. unfold readCgroupCPULimit. split.
  - destruct (ReadFile w "/sys/fs/cgroup/cpu/cpu.cfs_quota_us") as [q | e'] eqn:Hq.
    + rewrite (readTrim_ok _ _ _ Hq), (readTrim_err _ _ _ Hp). eauto.
    + rewrite (readTrim_err _ _ _ Hq). eauto.
  - intros quota Hq _.
    rewrite (readTrim_ok _ _ _ Hq), (readTrim_err _ _ _ Hp). reflexivity.
Qed.

(** C8. When the trimmed quota is not ["-1"] and both texts parse, a
    period equal to zero makes the probe fail with the error
    "cpu.cfs_period_us is zero" and no value; and whenever the probe
    returns a value, it is the quotient of the parsed quota by a parsed
    period that is not zero. *)
Theorem readCgroupCPULimit_zero_period (w : World) (quota period : string) :
  ReadFile w "/sys/fs/cgroup/cpu/cpu.cfs_quota_us" = inl quota ->
  ReadFile w "/sys/fs/cgroup/cpu/cpu.cfs_period_us" = inl period ->
  strings.TrimSpace quota <> "-1" ->
  forall q p,
    ParseFloat (strings.TrimSpace quota) = (q, None) ->
    ParseFloat (strings.TrimSpace period) = (p, None) ->
    (isZero p = true ->
     readCgroupCPULimit ParseFloat w
       = (None, Some (Errorf "cpu.cfs_period_us is zero"))) /\
    (forall cores err,
        readCgroupCPULimit ParseFloat w = (Some cores, err) ->
        isZero p = false /\ cores = SFdiv prec emax q p /\ err = None).
Proof.
  intros Hq Hp Hne q p Pq Pp. unfold readCgroupCPULimit.
  rewrite (readTrim_ok _ _ _ Hq), (readTrim_ok _ _ _ Hp).
  apply String.eqb_neq in Hne. rewrite Hne, Pq, Pp.
  split.
  - intros Hz. rewrite Hz. reflexivity.
  - intros cores err. destruct (isZero p); intros H; inversion H; auto.
Qed.

End CPULimit.

Lemma readCgroupCPULimit_unlimited_witness :
  readCgroupCPULimit parseFloatDigits (cpuFiles ("-1" ++ nl) ("0" ++ nl))
    = (None, None)
  /\ readCgroupCPULimit parseFloatDigits (cpuFiles ("-1" ++ nl) ("abc" ++ nl))
    = (None, None).
Proof.
  split.
  - apply (readCgroupCPULimit_unlimited parseFloatDigits _
             ("-1" ++ nl) ("0" ++ nl)); reflexivity.
  - apply (readCgroupCPULimit_unlimited parseFloatDigits _
             ("-1" ++ nl) ("abc" ++ nl)); reflexivity.
Defined.

Lemma readCgroupCPULimit_period_unreadable_witness :
  readCgroupCPULimit parseFloatDigits quotaOnly
    = (None, Some (OSError "no such file or directory")).
Proof.
  apply (proj2 (readCgroupCPULimit_period_unreadable parseFloatDigits
                  quotaOnly (OSError "no such file or directory") eq_refl)
           ("-1" ++ nl)); reflexivity.
Defined.

Lemma readCgroupCPULimit_zero_period_witness :
  readCgroupCPULimit parseFloatDigits (cpuFiles ("50000" ++ nl) ("0" ++ nl))
    = (None, Some (Errorf "cpu.cfs_period_us is zero")).
Proof.
  apply (proj1 (readCgroupCPULimit_zero_period parseFloatDigits
                  (cpuFiles ("50000" ++ nl) ("0" ++ nl))
                  ("50000" ++ nl) ("0" ++ nl) eq_refl eq_refl
                  ltac:(vm_compute; discriminate)
                  (binary_normalize prec emax 50000 0 false) (S754_zero false)
                  eq_refl eq_refl)).
  reflexivity.
Defined.

(** The quota 50000 over the period 100000 is the float64 0.5, that is
    [2^52 * 2^-53]. *)
Example readCgroupCPULimit_half :
  readCgroupCPULimit parseFloatDigits
    (cpuFiles ("50000" ++ nl) ("100000" ++ nl))
  = (Some (S754_finite false 4503599627370496 (-53)), None).
Proof. vm_compute. reflexivity. Qed.

(** ** The disk probe *)

Lemma getDisksInfo_lines_step (w : World) (line : string)
      (rest : list string) (disks : list DiskInfo) :
  getDisksInfo_lines w (line :: rest) disks
  = getDisksInfo_lines w rest (disks ++ mountOf w line)%list.
Proof.
  unfold mountOf. simpl.
  destruct (String.eqb line ""); [now rewrite app_nil_r |].
  destruct (List.length (strings.Fields line) <? 3)%nat;
    [now rewrite app_nil_r |].
  destruct (Statfs w (nth 1 (strings.Fields line) "")) as [st | e];
    [| now rewrite app_nil_r].
  destruct (String.eqb (nth 2 (strings.Fields line) "") "proc"
            || String.eqb (nth 2 (strings.Fields line) "") "sysfs"
            || String.eqb (nth 2 (strings.Fields line) "") "cgroup");
    [now rewrite app_nil_r | reflexivity].
Qed.

(** The loop appends, in the order of the lines, what each line adds. *)
Lemma getDisksInfo_lines_flat_map (w : World) (lines : list string) :
  forall disks,
    getDisksInfo_lines w lines disks
    = (disks ++ flat_map (mountOf w) lines)%list.
Proof.
  induction lines as [| line rest IH]; intros disks.
  - simpl. now rewrite app_nil_r.
  - rewrite getDisksInfo_lines_step, IH. simpl. now rewrite app_assoc.
Qed.

Lemma getDisksInfo_flat_map (w : World) (data : string) :
  ReadFile w "/proc/mounts" = inl data ->
  getDisksInfo w = (flat_map (mountOf w) (strings.Split data "010"), None).
Proof.
  intros H. unfold getDisksInfo. rewrite H.
  now rewrite getDisksInfo_lines_flat_map.
Qed.

Lemma Fields_empty : strings.Fields "" = [].
Proof. reflexivity. Qed.

Lemma pseudo_eqb (fsType : string) :
  (String.eqb fsType "proc" || String.eqb fsType "sysfs"
   || String.eqb fsType "cgroup") = true <-> pseudo fsType.
Proof.
  unfold pseudo. rewrite !orb_true_iff, !String.eqb_eq. tauto.
Qed.

Lemma mountOf_short (w : World) (line : string) :
  (List.length (strings.Fields line) < 3)%nat -> mountOf w line = [].
Proof.
  intros H. unfold mountOf. simpl.
  destruct (String.eqb line ""); [reflexivity |].
  apply Nat.ltb_lt in H. now rewrite H.
Qed.

Lemma mountOf_long (w : World) (line : string) :
  (3 <= List.length (strings.Fields line))%nat ->
  mountOf w line =
  match Statfs w (nth 1 (strings.Fields line) "") with
  | inr _ => []
  | inl stat =>
      if String.eqb (nth 2 (strings.Fields line) "") "proc"
         || String.eqb (nth 2 (strings.Fields line) "") "sysfs"
         || String.eqb (nth 2 (strings.Fields line) "") "cgroup"
      then []
      else [diskOf (nth 1 (strings.Fields line) "")
                   (nth 2 (strings.Fields line) "") stat]
  end.
Proof.
  intros H. unfold mountOf. simpl.
  destruct (String.eqb_spec line "") as [-> | _].
  - rewrite Fields_empty in H. simpl in H. lia.
  - apply Nat.ltb_ge in H. rewrite H. reflexivity.
Qed.

(** C6, as amended. The probe never fails on a mounts table it could
    read, and its result is made, in the order of the lines, of what each
    line adds: nothing for a line of fewer than 3 fields; for a line of
    at least 3 fields nothing if and only if the statistics call on field
    1 fails or field 2 is exactly "proc", "sysfs" or "cgroup", and else
    the one entry of that mount. *)
Theorem getDisksInfo_filter (w : World) (data : string) :
  ReadFile w "/proc/mounts" = inl data ->
  getDisksInfo w = (flat_map (mountOf w) (strings.Split data "010"), None)
  /\ forall line,
      let fields := strings.Fields line in
      let mountpoint := nth 1 fields "" in
      let fsType := nth 2 fields "" in
      ((List.length fields < 3)%nat -> mountOf w line = [])
      /\ ((3 <= List.length fields)%nat ->
          (mountOf w line = [] <->
           (exists e, Statfs w mountpoint = inr e) \/ fsType = "proc"
           \/ fsType = "sysfs" \/ fsType = "cgroup")
          /\ (forall stat,
                 Statfs w mountpoint = inl stat ->
                 fsType <> "proc" -> fsType <> "sysfs" ->
                 fsType <> "cgroup" ->
                 mountOf w line = [diskOf mountpoint fsType stat])).
Proof.
  intros H. split; [now apply getDisksInfo_flat_map |].
  intros line fields mountpoint fsType. split; [apply mountOf_short |].
  intros Hlen. rewrite (mountOf_long w line Hlen).
  fold fields. fold mountpoint. fold fsType.
  destruct (Statfs w mountpoint) as [st | e]; split.
  - destruct (String.eqb fsType "proc" || String.eqb fsType "sysfs"
              || String.eqb fsType "cgroup") eqn:E.
    + apply pseudo_eqb in E. unfold pseudo in E. tauto.
    + split; [discriminate |].
      intros [[e He] | Hp]; [discriminate |].
      assert (pseudo fsType) as Hp' by (unfold pseudo; tauto).
      apply pseudo_eqb in Hp'. congruence.
  - intros stat Hst H1 H2 H3. inversion Hst; subst stat.
    destruct (String.eqb fsType "proc" || String.eqb fsType "sysfs"
              || String.eqb fsType "cgroup") eqn:E; [| reflexivity].
    apply pseudo_eqb in E. unfold pseudo in E. tauto.
  - split; [eauto | reflexivity].
  - intros stat Hst. discriminate.
Qed.

Lemma getDisksInfo_filter_witness :
  getDisksInfo mountsWorld
  = ([diskOf "/" "ext4" stat1M; diskOf "/sys" "sysfsx" stat1M], None)
  /\ mountOf mountsWorld "none /short" = []
  /\ mountOf mountsWorld "sysfs /sys sysfsx rw 0 0"
     = [diskOf "/sys" "sysfsx" stat1M].
Proof.
  pose proof (getDisksInfo_filter mountsWorld mountsData eq_refl) as [H1 H2].
  split; [| split].
  - rewrite H1. reflexivity.
  - apply (proj1 (H2 "none /short")). vm_compute. lia.
  - apply (proj2 (H2 "sysfs /sys sysfsx rw 0 0")).
    + vm_compute. lia.
    + reflexivity.
    + vm_compute. discriminate.
    + vm_compute. discriminate.
    + vm_compute. discriminate.
Defined.

(** C6 as it is written fails: a mount of type "ext4", which is none of
    the three types, is left out when its statistics call fails. *)
Lemma getDisksInfo_filter_counterexample :
  ReadFile goneWorld "/proc/mounts" = inl ("/dev/sdb1 /gone ext4 rw 0 0" ++ nl)
  /\ strings.Fields "/dev/sdb1 /gone ext4 rw 0 0"
     = ["/dev/sdb1"; "/gone"; "ext4"; "rw"; "0"; "0"]
  /\ "ext4" <> "proc" /\ "ext4" <> "sysfs" /\ "ext4" <> "cgroup"
  /\ getDisksInfo goneWorld = ([], None).
Proof. repeat split; discriminate. Qed.

Lemma mountOf_cases (w : World) (line : string) :
  mountOf w line = []
  \/ exists stat,
      (3 <= List.length (strings.Fields line))%nat
      /\ Statfs w (nth 1 (strings.Fields line) "") = inl stat
      /\ ~ pseudo (nth 2 (strings.Fields line) "")
      /\ mountOf w line = [diskOf (nth 1 (strings.Fields line) "")
                                  (nth 2 (strings.Fields line) "") stat].
Proof.
  destruct (Nat.lt_ge_cases (List.length (strings.Fields line)) 3) as [Hs | Hl].
  - left. now apply mountOf_short.
  - rewrite (mountOf_long w line Hl).
    destruct (Statfs w (nth 1 (strings.Fields line) "")) as [st | e];
      [| now left].
    destruct (String.eqb (nth 2 (strings.Fields line) "") "proc"
              || String.eqb (nth 2 (strings.Fields line) "") "sysfs"
              || String.eqb (nth 2 (strings.Fields line) "") "cgroup") eqn:E;
      [now left |].
    right. exists st. repeat split; auto.
    intros Hp. apply pseudo_eqb in Hp. congruence.
Qed.

Lemma humanMB_div (b : Z) :
  humanMB b = strconv.FormatInt (b / (1024 * 1024)) ++ " MB".
Proof.
  unfold humanMB. rewrite Z.div_div by lia. reflexivity.
Qed.

Section Sizes.

Variable ParseFloat : string -> float64 * option error.

(** A table run whose fatal probes succeed prints the row of every entry
    of the disk probe. *)
Lemma main_rows (w : World) (d : DiskInfo) :
  snd (countFDs w) = None -> snd (getRSS w) = None ->
  In d (fst (getDisksInfo w)) ->
  In (renderMount d) (main ParseFloat w false).
Proof.
  intros F R Hd. unfold main, collect.
  destruct (countFDs w) as [fds [e |]]; [discriminate |].
  destruct (getRSS w) as [rss [e |]]; [discriminate |].
  destruct (getBinPath w) as [path e1], (getCPUInfo w) as [[model cores] e2],
    (getMemInfo w) as [mem e3], (getDisksInfo w) as [disks e4],
    (readCgroupMemoryLimit w) as [ml e5],
    (readCgroupCPULimit ParseFloat w) as [cl e6].
  cbn [fst] in Hd. unfold render, renderTable. cbn [Mounts].
  rewrite !in_app_iff. do 4 right. left. now apply in_map.
Qed.

(** C7. Every entry the probe returns carries, for the statistics of its
    mountpoint, the product of the block count by the block size and of
    the free block count by the block size, both modulo [2^64], the
    arithmetic of [uint64]: the exact products when they fit in 64 bits.
    Every mount that is kept gets such an entry, and a table run whose
    fatal probes succeed prints its row, where each size is the decimal
    numeral of the quotient of the integer division by 1024 * 1024
    followed by " MB".  For 1,000,000 blocks of 4096 bytes the total is
    4,096,000,000 bytes and the row of the table shows "3906 MB". *)
Theorem getDisksInfo_sizes (w : World) (data : string) :
  ReadFile w "/proc/mounts" = inl data ->
  (forall d,
      In d (fst (getDisksInfo w)) ->
      exists stat,
        Statfs w (Mountpoint d) = inl stat
        /\ Total d = (Blocks stat * (Bsize stat mod 2 ^ 64)) mod 2 ^ 64
        /\ Free d = (Bfree stat * (Bsize stat mod 2 ^ 64)) mod 2 ^ 64
        /\ (0 <= Bsize stat < 2 ^ 63 -> 0 <= Blocks stat ->
            Blocks stat * Bsize stat < 2 ^ 64 ->
            Total d = Blocks stat * Bsize stat)
        /\ (0 <= Bsize stat < 2 ^ 63 -> 0 <= Bfree stat ->
            Bfree stat * Bsize stat < 2 ^ 64 ->
            Free d = Bfree stat * Bsize stat))
  /\ (forall line stat,
         In line (strings.Split data "010") ->
         (3 <= List.length (strings.Fields line))%nat ->
         Statfs w (nth 1 (strings.Fields line) "") = inl stat ->
         ~ pseudo (nth 2 (strings.Fields line) "") ->
         exists d,
           In d (fst (getDisksInfo w))
           /\ Mountpoint d = nth 1 (strings.Fields line) ""
           /\ FSType d = nth 2 (strings.Fields line) ""
           /\ Total d = (Blocks stat * (Bsize stat mod 2 ^ 64)) mod 2 ^ 64
           /\ Free d = (Bfree stat * (Bsize stat mod 2 ^ 64)) mod 2 ^ 64
           /\ (snd (countFDs w) = None -> snd (getRSS w) = None ->
               In (Fprintf Tabwriter
                     ("%s" ++ tab ++ "%s" ++ tab ++ "%s" ++ tab ++ "%s" ++ nl)
                     [AString (Mountpoint d); AString (FSType d);
                      AString (strconv.FormatInt (Total d / (1024 * 1024))
                               ++ " MB");
                      AString (strconv.FormatInt (Free d / (1024 * 1024))
                               ++ " MB")])
                  (main ParseFloat w false))
           /\ (Blocks stat = 1000000 -> Bsize stat = 4096 ->
               Total d = 4096000000
               /\ humanMB (Total d) = "3906 MB"
               /\ (snd (countFDs w) = None -> snd (getRSS w) = None ->
                   In (Fprintf Tabwriter
                         ("%s" ++ tab ++ "%s" ++ tab ++ "%s" ++ tab ++ "%s"
                          ++ nl)
                         [AString (Mountpoint d); AString (FSType d);
                          AString "3906 MB"; AString (humanMB (Free d))])
                      (main ParseFloat w false))))
  /\ (forall b, humanMB b = strconv.FormatInt (b / (1024 * 1024)) ++ " MB").
Proof.
  intros H.
  assert (forall line stat,
             In line (strings.Split data "010") ->
             (3 <= List.length (strings.Fields line))%nat ->
             Statfs w (nth 1 (strings.Fields line) "") = inl stat ->
             ~ pseudo (nth 2 (strings.Fields line) "") ->
             In (diskOf (nth 1 (strings.Fields line) "")
                        (nth 2 (strings.Fields line) "") stat)
                (fst (getDisksInfo w))) as K.
  { intros line stat Hin Hlen Hst Hp.
    rewrite (getDisksInfo_flat_map w data H). cbn [fst].
    apply in_flat_map. exists line. split; [assumption |].
    destruct (mountOf_cases w line) as [E | [stat' [_ [Hst' [_ E]]]]].
    - rewrite (mountOf_long w line Hlen), Hst in E.
      destruct (String.eqb (nth 2 (strings.Fields line) "") "proc"
                || String.eqb (nth 2 (strings.Fields line) "") "sysfs"
                || String.eqb (nth 2 (strings.Fields line) "") "cgroup") eqn:F;
        [| discriminate].
      apply pseudo_eqb in F. contradiction.
    - rewrite E. rewrite Hst in Hst'. inversion Hst'. now left. }
  split; [| split; [| exact humanMB_div]].
  - rewrite (getDisksInfo_flat_map w data H). cbn [fst].
    intros d Hd. apply in_flat_map in Hd. destruct Hd as [line [_ Hd]].
    destruct (mountOf_cases w line) as [E | [stat [_ [Hst [_ E]]]]];
      rewrite E in Hd; simpl in Hd; [tauto |].
    destruct Hd as [<- | []]. exists stat. simpl.
    repeat split; auto; intros.
    + rewrite (Z.mod_small (Bsize stat)) by lia.
      apply Z.mod_small. nia.
    + rewrite (Z.mod_small (Bsize stat)) by lia.
      apply Z.mod_small. nia.
  - intros line stat Hin Hlen Hst Hp.
    pose proof (K line stat Hin Hlen Hst Hp) as Hd.
    exists (diskOf (nth 1 (strings.Fields line) "")
                   (nth 2 (strings.Fields line) "") stat).
    split; [exact Hd |].
    do 4 (split; [reflexivity |]).
    split.
    + intros F R. pose proof (main_rows w _ F R Hd) as M.
      unfold renderMount in M. rewrite !humanMB_div in M. exact M.
    + intros Hb Hs. cbn [Total Free Mountpoint FSType diskOf].
      rewrite Hb, Hs.
      split; [reflexivity |]. split; [reflexivity |].
      intros F R. pose proof (main_rows w _ F R Hd) as M.
      unfold renderMount in M. cbn [Total Free Mountpoint FSType diskOf] in M.
      rewrite Hb, Hs in M. exact M.
Qed.

End Sizes.

Lemma getDisksInfo_sizes_witness :
  getDisksInfo fullWorld
  = ([diskOf "/" "ext4" stat1M; diskOf "/sys" "sysfsx" stat1M], None)
  /\ Total (diskOf "/" "ext4" stat1M) = 4096000000
  /\ In (row1M "/" "ext4") (main parseFloatDigits fullWorld false)
  /\ In (row1M "/sys" "sysfsx") (main parseFloatDigits fullWorld false).
Proof.
  pose proof (proj1 (proj2 (getDisksInfo_sizes parseFloatDigits fullWorld
                              mountsData eq_refl))) as H.
  split; [reflexivity |]. split; [reflexivity |]. split.
  - destruct (H "/dev/sda1 / ext4 rw 0 0" stat1M)
      as [d [_ [Hm [Hf [_ [Hfree [_ Hex]]]]]]].
    + vm_compute. tauto.
    + vm_compute. lia.
    + reflexivity.
    + vm_compute. intros [E | [E | E]]; discriminate.
    + destruct (Hex eq_refl eq_refl) as [_ [_ Hrow]].
      rewrite Hm, Hf, Hfree in Hrow. exact (Hrow eq_refl eq_refl).
  - destruct (H "sysfs /sys sysfsx rw 0 0" stat1M)
      as [d [_ [Hm [Hf [_ [Hfree [_ Hex]]]]]]].
    + vm_compute. tauto.
    + vm_compute. lia.
    + reflexivity.
    + vm_compute. intros [E | [E | E]]; discriminate.
    + destruct (Hex eq_refl eq_refl) as [_ [_ Hrow]].
      rewrite Hm, Hf, Hfree in Hrow. exact (Hrow eq_refl eq_refl).
Defined.

(** C7 as it is written fails: for [2^62] blocks of 4096 bytes, whose
    product is [2^74], the total of the entry is 0 and the table shows
    "0 MB". *)
Lemma getDisksInfo_sizes_counterexample :
  ReadFile hugeWorld "/proc/mounts" = inl ("/dev/sda1 / ext4 rw 0 0" ++ nl)
  /\ Statfs hugeWorld "/" = inl hugeStat
  /\ Blocks hugeStat * Bsize hugeStat = 2 ^ 74
  /\ getDisksInfo hugeWorld
     = ([{| Mountpoint := "/"; FSType := "ext4"; Total := 0; Free := 0 |}],
        None)
  /\ 0 <> Blocks hugeStat * Bsize hugeStat
  /\ In (Fprintf Tabwriter
           ("%s" ++ tab ++ "%s" ++ tab ++ "%s" ++ tab ++ "%s" ++ nl)
           [AString "/"; AString "ext4"; AString "0 MB"; AString "0 MB"])
        (main parseFloatDigits hugeWorld false).
Proof.
  split; [reflexivity |]. split; [reflexivity |]. split; [reflexivity |].
  split; [reflexivity |]. split; [discriminate |].
  vm_compute. tauto.
Qed.

(** ** The collector *)

(** A probe that fails returns the zero value of its result. *)
Lemma getBinPath_default (w : World) (e : error) :
  snd (getBinPath w) = Some e -> fst (getBinPath w) = "".
Proof. unfold getBinPath. destruct (Readlink w _); [discriminate | auto]. Qed.

Lemma getCPUInfo_default (w : World) (e : error) :
  snd (getCPUInfo w) = Some e -> fst (getCPUInfo w) = ("", 0).
Proof. unfold getCPUInfo. destruct (ReadFile w _); [discriminate | auto]. Qed.

Lemma getMemInfo_default (w : World) (e : error) :
  snd (getMemInfo w) = Some e -> fst (getMemInfo w) = 0.
Proof. unfold getMemInfo. destruct (ReadFile w _); [discriminate | auto]. Qed.

Lemma getDisksInfo_default (w : World) (e : error) :
  snd (getDisksInfo w) = Some e -> fst (getDisksInfo w) = [].
Proof. unfold getDisksInfo. destruct (ReadFile w _); [discriminate | auto]. Qed.

Lemma readCgroupMemoryLimit_default (w : World) (e : error) :
  snd (readCgroupMemoryLimit w) = Some e ->
  fst (readCgroupMemoryLimit w) = None.
Proof.
  unfold readCgroupMemoryLimit.
  destruct (readTrim w _) as [value [err |]]; [auto |].
  destruct (strconv.ParseUint value) as [num [err |]]; [auto |].
  destruct (num >=? unlimitedThreshold); [auto | discriminate].
Qed.

Section MainProperties.

Variable ParseFloat : string -> float64 * option error.

Lemma readCgroupCPULimit_default (w : World) (e : error) :
  snd (readCgroupCPULimit ParseFloat w) = Some e ->
  fst (readCgroupCPULimit ParseFloat w) = None.
Proof.
  unfold readCgroupCPULimit.
  destruct (readTrim w _) as [quotaStr [err |]]; [auto |].
  destruct (readTrim w _) as [periodStr [err |]]; [auto |].
  destruct (String.eqb quotaStr "-1"); [auto |].
  destruct (ParseFloat quotaStr) as [quota [err |]]; [auto |].
  destruct (ParseFloat periodStr) as [period [err |]]; [auto |].
  destruct (isZero period); [auto | discriminate].
Qed.

Lemma report_stdout (label : string) (err : option error) :
  Forall (fun c => exists l e, c = Fprintln Stdout [AString l; AError e])
         (report label err).
Proof. destruct err; simpl; repeat constructor; eauto. Qed.

Lemma renderTable_flush (info : SysInfo) : In Flush (renderTable info).
Proof.
  unfold renderTable. rewrite !in_app_iff. do 4 right. now left.
Qed.

Lemma report_in (label : string) (e : error) :
  In (Fprintln Stdout [AString label; AError e]) (report label (Some e)).
Proof. now left. Qed.

(** C2, as amended. A failure of the descriptor count, or else of the
    RSS probe, leaves the run with one call, the print of the error on
    standard output, and no report.  Otherwise the snapshot is built and
    rendered, and before the report the run has only printed, on standard
    output, the errors of the probes that failed; each of the six other
    probes that fails has its error among them and its field of the
    snapshot at the zero, empty or absent value. *)
Theorem main_probe_failures (w : World) (jsonOutput : bool) :
  (forall e,
      snd (countFDs w) = Some e ->
      main ParseFloat w jsonOutput
      = [Fprintln Stdout [AString ("FDs counting error:" ++ tab); AError e]]
      /\ existsb isReport (main ParseFloat w jsonOutput) = false)
  /\ (forall e,
         snd (countFDs w) = None -> snd (getRSS w) = Some e ->
         main ParseFloat w jsonOutput
         = [Fprintln Stdout [AString ("VmRRS getting error:" ++ tab); AError e]]
         /\ existsb isReport (main ParseFloat w jsonOutput) = false)
  /\ (snd (countFDs w) = None -> snd (getRSS w) = None ->
      exists out info cg,
        collect ParseFloat w = (out, Some info)
        /\ CgroupV1_ info = Some cg
        /\ main ParseFloat w jsonOutput = (out ++ render jsonOutput info)%list
        /\ (jsonOutput = false -> In Flush (render jsonOutput info))
        /\ (forall v, jsonOutput = true -> json.Marshal info = inl v ->
                      render jsonOutput info = [Fprintln Stdout [AJSON v]])
        /\ Forall (fun c => exists l e,
                       c = Fprintln Stdout [AString l; AError e]) out
        /\ (forall e,
               snd (getBinPath w) = Some e ->
               In (Fprintln Stdout
                     [AString ("Path getting error:" ++ tab); AError e]) out
               /\ ExePath info = "")
        /\ (forall e,
               snd (getCPUInfo w) = Some e ->
               In (Fprintln Stdout
                     [AString ("CPU info getting error:" ++ tab); AError e]) out
               /\ CPUModel info = "" /\ CPUCores info = 0)
        /\ (forall e,
               snd (getMemInfo w) = Some e ->
               In (Fprintln Stdout
                     [AString ("Mem info getting error:" ++ tab); AError e]) out
               /\ MemTotal info = 0)
        /\ (forall e,
               snd (getDisksInfo w) = Some e ->
               In (Fprintln Stdout
                     [AString ("Disk info getting error:" ++ tab); AError e]) out
               /\ Mounts info = [])
        /\ (forall e,
               snd (readCgroupMemoryLimit w) = Some e ->
               In (Fprintln Stdout
                     [AString ("cgroup memory limit error:" ++ tab); AError e])
                  out
               /\ MemoryLimitBytes cg = None)
        /\ (forall e,
               snd (readCgroupCPULimit ParseFloat w) = Some e ->
               In (Fprintln Stdout
                     [AString ("cgroup CPU limit error:" ++ tab); AError e]) out
               /\ CPULimitCores cg = None)).
Proof.
  unfold main, collect.
  destruct (countFDs w) as [fds errF].
  destruct (getRSS w) as [vmrss errR].
  split; [| split].
  - simpl. intros e ->. split; reflexivity.
  - simpl. intros e -> ->. split; reflexivity.
  - simpl. intros -> ->.
    pose proof (getBinPath_default w) as D1.
    pose proof (getCPUInfo_default w) as D2.
    pose proof (getMemInfo_default w) as D3.
    pose proof (getDisksInfo_default w) as D4.
    pose proof (readCgroupMemoryLimit_default w) as D5.
    pose proof (readCgroupCPULimit_default w) as D6.
    destruct (getBinPath w) as [path err1].
    destruct (getCPUInfo w) as [[model cores] err2].
    destruct (getMemInfo w) as [memTotal err3].
    destruct (getDisksInfo w) as [disks err4].
    destruct (readCgroupMemoryLimit w) as [memLimit err5].
    destruct (readCgroupCPULimit ParseFloat w) as [cpuLimit err6].
    simpl in *.
    eexists. eexists. eexists.
    split; [reflexivity |]. split; [reflexivity |]. split; [reflexivity |].
    split.
    { intros ->. apply renderTable_flush. }
    split.
    { intros v -> Hv. unfold render, renderJSON. rewrite Hv. reflexivity. }
    split.
    { repeat (apply Forall_app; split); apply report_stdout. }
    repeat split.
    all: try (match goal with
              | H : _ = Some ?e |- In _ _ =>
                  rewrite H; rewrite !in_app_iff; simpl; tauto
              end).
    all: simpl;
      match goal with
      | D : forall e, ?err = Some e -> _, H : ?err = Some _ |- _ =>
          specialize (D _ H); congruence
      end.
Qed.

End MainProperties.

Lemma main_probe_failures_witness :
  main parseFloatDigits emptyWorld true
  = [Fprintln Stdout [AString ("FDs counting error:" ++ tab);
                      AError (OSError "no such file or directory")]]
  /\ exists out info,
      collect parseFloatDigits bareWorld = (out, Some info)
      /\ In (Fprintln Stdout
               [AString ("Path getting error:" ++ tab);
                AError (OSError "no such file or directory")]) out
      /\ ExePath info = "".
Proof.
  split.
  - apply (proj1 (main_probe_failures parseFloatDigits emptyWorld true)).
    reflexivity.
  - destruct (proj2 (proj2 (main_probe_failures parseFloatDigits bareWorld
                              true)) eq_refl eq_refl)
      as [out [info [cg [Hc [_ [_ [_ [_ [_ [Hp _]]]]]]]]]].
    exists out, info. split; [exact Hc |].
    apply Hp. reflexivity.
Defined.

(** C2 as it is written fails: the error of a probe that is not fatal is
    printed on standard output, where the report goes, and the run writes
    nothing on standard error. *)
Lemma main_probe_failures_counterexample :
  snd (countFDs bareWorld) = None
  /\ snd (getRSS bareWorld) = None
  /\ snd (getBinPath bareWorld) = Some (OSError "no such file or directory")
  /\ In (Fprintln Stdout
           [AString ("Path getting error:" ++ tab);
            AError (OSError "no such file or directory")])
        (main parseFloatDigits bareWorld true)
  /\ existsb onStderr (main parseFloatDigits bareWorld true) = false
  /\ existsb onStderr (main parseFloatDigits bareWorld false) = false.
Proof. repeat split. vm_compute. tauto. Qed.

(** ** The JSON document *)

Lemma take_drop (n : nat) (s : string) : take n s ++ drop n s = s.
Proof.
  unfold take. revert s.
  induction n as [| n IH]; intros [| c t]; simpl; try reflexivity.
  f_equal. apply IH.
Qed.

Lemma drop_length (n : nat) (s : string) :
  (String.length (drop n s) <= String.length s)%nat.
Proof.
  revert s. induction n as [| n IH]; intros [| c t]; simpl; try lia.
  specialize (IH t). lia.
Qed.

(** A rune of a string that is not empty takes at least one byte. *)
Lemma DecodeRuneInString_size (c : ascii) (t : string) :
  (1 <= snd (utf8.DecodeRuneInString (String c t)))%nat.
Proof.
  unfold utf8.DecodeRuneInString.
  repeat break_match; simpl; lia.
Qed.

Lemma concat_cons (x : string) (xs : list string) :
  String.concat "" (x :: xs) = x ++ String.concat "" xs.
Proof.
  simpl. destruct xs; [| reflexivity].
  simpl. induction x; simpl; congruence.
Qed.

(** The bytes of the runes of a string, put together, are the string. *)
Lemma runes_fuel_concat (fuel : nat) :
  forall s,
    (String.length s <= fuel)%nat ->
    String.concat "" (map snd (utf8.runes_fuel fuel s)) = s.
Proof.
  induction fuel as [| k IH]; intros s Hlen.
  - destruct s; [reflexivity | simpl in Hlen; lia].
  - destruct s as [| c t]; [reflexivity |].
    cbn [utf8.runes_fuel].
    pose proof (DecodeRuneInString_size c t) as Hsz.
    destruct (utf8.DecodeRuneInString (String c t)) as [r size].
    cbn [map snd]. rewrite concat_cons, IH; [apply take_drop |].
    simpl in Hsz. destruct size as [| size]; [lia |].
    simpl in *. pose proof (drop_length size t). lia.
Qed.

Lemma coerce_valid (s : string) :
  utf8.ValidString s = true -> json.coerce s = s.
Proof.
  unfold utf8.ValidString, json.coerce. intros H.
  transitivity (String.concat "" (map snd (utf8.runes s)));
    [| apply runes_fuel_concat, le_n].
  f_equal.
  induction (utf8.runes s) as [| rt l IH]; [reflexivity |].
  simpl in *. apply andb_true_iff in H. destruct H as [H1 H2].
  apply negb_true_iff in H1. rewrite H1. f_equal. now apply IH.
Qed.

Lemma int64_roundtrip (i old : Z) :
  int64Range i -> json.int64 (json.Number (json.Int i)) old = inl i.
Proof.
  unfold int64Range, json.int64, json.decInt. intros H.
  destruct (Z.leb_spec (- 2 ^ 63) i); [| lia].
  destruct (Z.leb_spec i (2 ^ 63 - 1)); [reflexivity | lia].
Qed.

Lemma uint64_roundtrip (i old : Z) :
  uint64Range i -> json.uint64_ (json.Number (json.Int i)) old = inl i.
Proof.
  unfold uint64Range, json.uint64_, json.decInt. intros H.
  destruct (Z.leb_spec 0 i); [| lia].
  destruct (Z.leb_spec i (2 ^ 64 - 1)); [reflexivity | lia].
Qed.

Lemma string_roundtrip (s old : string) :
  utf8.ValidString s = true ->
  json.decString (json.String_ (json.coerce s)) old = inl s.
Proof. intros H. simpl. now rewrite coerce_valid. Qed.

Lemma stepDiskInfo_keys (d : DiskInfo) (v : json.value) :
  json.stepDiskInfo d "Mountpoint" v
  = json.withField (json.decString v (Mountpoint d))
      (fun s => {| Mountpoint := s; FSType := FSType d;
                   Total := Total d; Free := Free d |})
  /\ json.stepDiskInfo d "FSType" v
    = json.withField (json.decString v (FSType d))
        (fun s => {| Mountpoint := Mountpoint d; FSType := s;
                     Total := Total d; Free := Free d |})
  /\ json.stepDiskInfo d "Total" v
    = json.withField (json.uint64_ v (Total d))
        (fun n => {| Mountpoint := Mountpoint d; FSType := FSType d;
                     Total := n; Free := Free d |})
  /\ json.stepDiskInfo d "Free" v
    = json.withField (json.uint64_ v (Free d))
        (fun n => {| Mountpoint := Mountpoint d; FSType := FSType d;
                     Total := Total d; Free := n |}).
Proof. repeat split. Qed.

Lemma decDiskInfo_roundtrip (d : DiskInfo) :
  uint64Range (Total d) /\ uint64Range (Free d) ->
  utf8.ValidString (Mountpoint d) = true
  /\ utf8.ValidString (FSType d) = true ->
  json.decDiskInfo (json.marshalDiskInfo d) = inl d.
Proof.
  intros [Ht Hf] [Hm Hy]. destruct d as [mp ty total free].
  cbn [Mountpoint FSType Total Free] in *.
  unfold json.decDiskInfo, json.marshalDiskInfo.
  cbn [json.members Mountpoint FSType Total Free].
  rewrite (proj1 (stepDiskInfo_keys _ _)), string_roundtrip by assumption.
  cbn [json.withField].
  rewrite (proj1 (proj2 (stepDiskInfo_keys _ _))), string_roundtrip
    by assumption.
  cbn [json.withField].
  rewrite (proj1 (proj2 (proj2 (stepDiskInfo_keys _ _)))), uint64_roundtrip
    by assumption.
  cbn [json.withField].
  rewrite (proj2 (proj2 (proj2 (stepDiskInfo_keys _ _)))), uint64_roundtrip
    by assumption.
  reflexivity.
Qed.

Lemma decElements_roundtrip (l : list DiskInfo) :
  Forall (fun d => uint64Range (Total d) /\ uint64Range (Free d)) l ->
  Forall (fun d => utf8.ValidString (Mountpoint d) = true
                   /\ utf8.ValidString (FSType d) = true) l ->
  json.decElements (map json.marshalDiskInfo l) = inl l.
Proof.
  induction l as [| d l IH]; intros Hr Hv; [reflexivity |].
  inversion Hr; inversion Hv; subst.
  cbn [map json.decElements].
  rewrite decDiskInfo_roundtrip, IH by assumption. reflexivity.
Qed.

Lemma decMounts_roundtrip (l old : list DiskInfo) :
  Forall (fun d => uint64Range (Total d) /\ uint64Range (Free d)) l ->
  Forall (fun d => utf8.ValidString (Mountpoint d) = true
                   /\ utf8.ValidString (FSType d) = true) l ->
  json.decMounts (json.marshalMounts l) old = inl l.
Proof.
  intros Hr Hv. destruct l as [| d l]; [reflexivity |].
  unfold json.decMounts, json.marshalMounts.
  now apply decElements_roundtrip.
Qed.

Lemma decCgroupV1Ptr_roundtrip (c : CgroupV1) (v : json.value) :
  match MemoryLimitBytes c with Some m => uint64Range m | None => True end ->
  json.marshalCgroupV1 c = inl v ->
  json.decCgroupV1Ptr v None = inl (Some c).
Proof.
  destruct c as [[m |] [f |]]; cbn [MemoryLimitBytes]; intros Hm;
    unfold json.marshalCgroupV1, json.marshalFloat;
    cbn [MemoryLimitBytes CPULimitCores];
    try destruct (isFinite f); intros Hv; inversion Hv; subst v; clear Hv;
    unfold json.decCgroupV1Ptr, json.stepCgroupV1, json.decUintPtr;
    cbn [json.members app]; try reflexivity.
  - change (json.field ["memory_limit_bytes"; "cpu_limit_cores"]
              "memory_limit_bytes") with (Some 0%nat).
    change (json.field ["memory_limit_bytes"; "cpu_limit_cores"]
              "cpu_limit_cores") with (Some 1%nat).
    cbv iota. fold (json.uint64_ (json.Number (json.Int m)) 0).
    rewrite uint64_roundtrip by assumption. reflexivity.
  - change (json.field ["memory_limit_bytes"; "cpu_limit_cores"]
              "memory_limit_bytes") with (Some 0%nat).
    cbv iota. fold (json.uint64_ (json.Number (json.Int m)) 0).
    rewrite uint64_roundtrip by assumption. reflexivity.
Qed.

Lemma stepSysInfo_keys (i : SysInfo) (v : json.value) :
  json.stepSysInfo i "fd_count" v
  = json.withField (json.int64 v (FDCount i)) (json.setFDCount i)
  /\ json.stepSysInfo i "vmrss_bytes" v
    = json.withField (json.int64 v (VmRSS i)) (json.setVmRSS i)
  /\ json.stepSysInfo i "exe_path" v
    = json.withField (json.decString v (ExePath i)) (json.setExePath i)
  /\ json.stepSysInfo i "cpu_model" v
    = json.withField (json.decString v (CPUModel i)) (json.setCPUModel i)
  /\ json.stepSysInfo i "cpu_cores" v
    = json.withField (json.int64 v (CPUCores i)) (json.setCPUCores i)
  /\ json.stepSysInfo i "mem_total_kb" v
    = json.withField (json.int64 v (MemTotal i)) (json.setMemTotal i)
  /\ json.stepSysInfo i "mounts" v
    = json.withField (json.decMounts v (Mounts i)) (json.setMounts i)
  /\ json.stepSysInfo i "cgroup_v1" v
    = json.withField (json.decCgroupV1Ptr v (CgroupV1_ i))
        (json.setCgroupV1 i).
Proof. repeat split. Qed.

(** The seven members every document has, read back into a zero
    snapshot. *)
Lemma members_roundtrip (info : SysInfo) (rest : list (string * json.value)) :
  inRange info -> validStrings info ->
  json.members json.stepSysInfo
    ([("fd_count", json.Number (json.Int (FDCount info)));
      ("vmrss_bytes", json.Number (json.Int (VmRSS info)));
      ("exe_path", json.String_ (json.coerce (ExePath info)));
      ("cpu_model", json.String_ (json.coerce (CPUModel info)));
      ("cpu_cores", json.Number (json.Int (CPUCores info)));
      ("mem_total_kb", json.Number (json.Int (MemTotal info)));
      ("mounts", json.marshalMounts (Mounts info))] ++ rest)%list
    json.zeroSysInfo
  = json.members json.stepSysInfo rest
      {| FDCount := FDCount info; VmRSS := VmRSS info;
         ExePath := ExePath info; CPUModel := CPUModel info;
         CPUCores := CPUCores info; MemTotal := MemTotal info;
         Mounts := Mounts info; CgroupV1_ := None |}.
Proof.
  intros [R1 [R2 [R3 [R4 [R5 _]]]]] [V1 [V2 V3]].
  pose proof stepSysInfo_keys as K.
  cbn [app json.members].
  rewrite (proj1 (K _ _)), int64_roundtrip by assumption.
  cbn [json.withField].
  rewrite (proj1 (proj2 (K _ _))), int64_roundtrip by assumption.
  cbn [json.withField].
  rewrite (proj1 (proj2 (proj2 (K _ _)))), string_roundtrip by assumption.
  cbn [json.withField].
  rewrite (proj1 (proj2 (proj2 (proj2 (K _ _))))), string_roundtrip
    by assumption.
  cbn [json.withField].
  rewrite (proj1 (proj2 (proj2 (proj2 (proj2 (K _ _)))))), int64_roundtrip
    by assumption.
  cbn [json.withField].
  rewrite (proj1 (proj2 (proj2 (proj2 (proj2 (proj2 (K _ _))))))),
    int64_roundtrip by assumption.
  cbn [json.withField].
  rewrite (proj1 (proj2 (proj2 (proj2 (proj2 (proj2 (proj2 (K _ _)))))))),
    decMounts_roundtrip by assumption.
  reflexivity.
Qed.

(** C1, as amended. In the document of a snapshot the members are
    [fd_count], [vmrss_bytes], [exe_path], [cpu_model], [cpu_cores],
    [mem_total_kb] and [mounts], followed by [cgroup_v1] exactly when the
    pointer is not nil; the [cgroup_v1] object has the member
    [memory_limit_bytes], and the member [cpu_limit_cores], exactly when
    that limit is present, with its value and never [null]; and when the
    strings of the snapshot are valid UTF-8, reading the document back
    gives the snapshot. *)
Theorem Marshal_roundtrip (info : SysInfo) (v : json.value) :
  json.Marshal info = inl v ->
  json.keys v
  = (topKeys ++ match CgroupV1_ info with
                | Some _ => ["cgroup_v1"]
                | None => []
                end)%list
  /\ (CgroupV1_ info = None -> json.member "cgroup_v1" v = None)
  /\ (forall c,
         CgroupV1_ info = Some c ->
         exists cv,
           json.member "cgroup_v1" v = Some cv
           /\ json.keys cv
              = (match MemoryLimitBytes c with
                 | Some _ => ["memory_limit_bytes"]
                 | None => []
                 end ++
                 match CPULimitCores c with
                 | Some _ => ["cpu_limit_cores"]
                 | None => []
                 end)%list
           /\ json.member "memory_limit_bytes" cv
              = match MemoryLimitBytes c with
                | Some m => Some (json.Number (json.Int m))
                | None => None
                end
           /\ json.member "cpu_limit_cores" cv
              = match CPULimitCores c with
                | Some f => Some (json.Number (json.Float f))
                | None => None
                end)
  /\ (inRange info -> validStrings info -> json.Unmarshal v = inl info).
Proof.
  unfold json.Marshal. destruct (CgroupV1_ info) as [c |] eqn:Hc.
  - destruct (json.marshalCgroupV1 c) as [cv | e] eqn:Hcv; [| discriminate].
    intros Hv. inversion Hv; subst v; clear Hv.
    split; [reflexivity |]. split; [discriminate |]. split.
    + intros c' Hc'. inversion Hc'; subst c'. exists cv.
      split; [reflexivity |].
      unfold json.marshalCgroupV1, json.marshalFloat in Hcv.
      destruct (MemoryLimitBytes c) as [m |], (CPULimitCores c) as [f |];
        try destruct (isFinite f); inversion Hcv; subst cv;
        repeat split.
    + intros HR HV. unfold json.Unmarshal.
      etransitivity;
        [exact (members_roundtrip info [("cgroup_v1", cv)] HR HV) |].
      cbn [json.members].
      rewrite (proj2 (proj2 (proj2 (proj2 (proj2 (proj2 (proj2
                 (stepSysInfo_keys _ _)))))))).
      cbn [CgroupV1_].
      rewrite (decCgroupV1Ptr_roundtrip c cv); [| | assumption].
      * destruct info; simpl in *; subst; reflexivity.
      * destruct HR as [_ [_ [_ [_ [_ HR]]]]]. rewrite Hc in HR.
        destruct c as [[m |] f]; simpl; auto.
  - intros Hv. inversion Hv; subst v; clear Hv.
    split; [reflexivity |]. split; [reflexivity |]. split; [discriminate |].
    intros HR HV. unfold json.Unmarshal.
    etransitivity; [exact (members_roundtrip info [] HR HV) |].
    cbn [json.members].
    destruct info; simpl in *; subst; reflexivity.
Qed.

Lemma sampleInfo_inRange : inRange sampleInfo.
Proof.
  unfold inRange, int64Range, uint64Range. simpl.
  repeat split; try lia; repeat constructor; simpl; try lia;
    vm_compute; intros; discriminate.
Qed.

Lemma sampleInfo_validStrings : validStrings sampleInfo.
Proof. repeat split; repeat constructor; reflexivity. Qed.

Lemma Marshal_roundtrip_witness :
  json.keys sampleTree = (topKeys ++ ["cgroup_v1"])%list
  /\ json.Unmarshal sampleTree = inl sampleInfo.
Proof.
  pose proof (Marshal_roundtrip sampleInfo sampleTree eq_refl)
    as [Hk [_ [_ Hr]]].
  split; [exact Hk |].
  exact (Hr sampleInfo_inRange sampleInfo_validStrings).
Defined.

(** C1 as it is written fails: of a snapshot whose executable path is not
    valid UTF-8, which the collector builds when the link reads so, the
    document holds the path with U+FFFD in place of the byte, and reading
    it back gives that other path. *)
Lemma Marshal_roundtrip_counterexample :
  exists out info v info',
    collect parseFloatDigits oddPathWorld = (out, Some info)
    /\ json.Marshal info = inl v
    /\ json.Unmarshal v = inl info'
    /\ ExePath info = oddPath
    /\ ExePath info' = "/tmp/" ++ json.replacement
    /\ info' <> info.
Proof.
  do 4 eexists.
  split; [vm_compute; reflexivity |].
  split; [vm_compute; reflexivity |].
  split; [vm_compute; reflexivity |].
  split; [reflexivity |]. split; [reflexivity |].
  intros H. apply (f_equal ExePath) in H. vm_compute in H. discriminate.
Qed.

(** ** Decimal numerals *)

Lemma code_chr (z : Z) : 0 <= z < 256 -> code (chr z) = z.
Proof.
  intros H. unfold code, chr. rewrite N_ascii_embedding; lia.
Qed.

Lemma isDigit_chr (d : Z) : 0 <= d < 10 -> fmt.isDigit (chr (48 + d)) = true.
Proof.
  intros H. unfold fmt.isDigit. rewrite code_chr by lia.
  apply andb_true_iff. split; apply Z.leb_le; lia.
Qed.

Lemma formatBits_digits (fuel : nat) :
  forall u acc,
    0 <= u -> digitsOnly acc = true ->
    digitsOnly (strconv.formatBits fuel u acc) = true.
Proof.
  induction fuel as [| k IH]; intros u acc Hu Ha; [exact Ha |].
  cbn [strconv.formatBits].
  assert (digitsOnly (String (chr (48 + u mod 10)) acc) = true) as Hd.
  { cbn [digitsOnly]. rewrite isDigit_chr, Ha; [reflexivity |].
    apply Z.mod_pos_bound. lia. }
  destruct (u <? 10); [exact Hd |].
  apply IH; [apply Z.div_pos; lia | exact Hd].
Qed.

Lemma formatBits_cons (fuel : nat) :
  forall u acc,
    exists c t, strconv.formatBits (S fuel) u acc = String c t.
Proof.
  induction fuel as [| k IH]; intros u acc.
  - cbn [strconv.formatBits]. destruct (u <? 10); eauto.
  - change (strconv.formatBits (S (S k)) u acc)
      with (let acc' := String (chr (48 + u mod 10)) acc in
            if u <? 10 then acc' else strconv.formatBits (S k) (u / 10) acc').
    cbv zeta. destruct (u <? 10); [eauto | apply IH].
Qed.

Lemma FormatUint_digits (u : Z) :
  0 <= u -> digitsOnly (strconv.FormatUint u) = true.
Proof. intros H. now apply formatBits_digits. Qed.

Lemma FormatUint_cons (u : Z) :
  0 <= u ->
  exists c t, strconv.FormatUint u = String c t /\ fmt.isDigit c = true.
Proof.
  intros H. destruct (formatBits_cons (Z.to_nat (Z.log2 u)) u "") as [c [t E]].
  exists c, t. split; [exact E |].
  pose proof (FormatUint_digits u H) as D. unfold strconv.FormatUint in D.
  rewrite E in D. cbn [digitsOnly] in D. now apply andb_true_iff in D.
Qed.

(** One step of the digit loop that does not overflow. *)
Lemma parseDigits_step (d n : Z) (t : string) :
  0 <= d < 10 -> 0 <= n -> n * 10 + d < 2 ^ 64 ->
  strconv.parseDigits (String (chr (48 + d)) t) n
  = strconv.parseDigits t (n * 10 + d).
Proof.
  intros Hd Hn Hm. cbn [strconv.parseDigits]. rewrite code_chr by lia.
  replace (48 + d - 48) with d by lia.
  destruct (Z.leb_spec 48 (48 + d)); [| lia].
  destruct (Z.leb_spec (48 + d) 57); [| lia]. cbn [andb].
  unfold strconv.maxUint64.
  destruct (Z.geb_spec n ((2 ^ 64 - 1) / 10 + 1)) as [Hc | Hc].
  { change ((2 ^ 64 - 1) / 10 + 1) with 1844674407370955162 in Hc. lia. }
  rewrite (Z.mod_small (n * 10 + d)) by lia.
  destruct (Z.ltb_spec (n * 10 + d) (n * 10)); [lia |].
  destruct (Z.gtb_spec (n * 10 + d) (2 ^ 64 - 1)); [lia |].
  reflexivity.
Qed.

(** Parsing the numeral of [u] and then [acc] is parsing [acc] from
    [u]. *)
Lemma parseDigits_formatBits (fuel : nat) :
  forall u acc,
    0 <= u < 2 ^ 64 -> u < 2 ^ Z.of_nat fuel ->
    strconv.parseDigits (strconv.formatBits fuel u acc) 0
    = strconv.parseDigits acc u.
Proof.
  induction fuel as [| k IH]; intros u acc Hu Hf.
  - change (2 ^ Z.of_nat 0) with 1 in Hf.
    replace u with 0 by lia. reflexivity.
  - cbn [strconv.formatBits].
    destruct (Z.ltb_spec u 10) as [Hs | Hs].
    + rewrite Z.mod_small by lia.
      rewrite parseDigits_step by lia. f_equal.
    + rewrite IH.
      * rewrite parseDigits_step.
        -- f_equal. pose proof (Z.div_mod u 10). lia.
        -- apply Z.mod_pos_bound. lia.
        -- apply Z.div_pos; lia.
        -- pose proof (Z.div_mod u 10). lia.
      * split; [apply Z.div_pos; lia |].
        apply Z.div_lt_upper_bound; lia.
      * apply Z.div_lt_upper_bound; [lia |].
        rewrite Nat2Z.inj_succ, Z.pow_succ_r in Hf by lia. lia.
Qed.

Lemma ParseUint_FormatUint (u : Z) :
  0 <= u < 2 ^ 64 -> strconv.ParseUint (strconv.FormatUint u) = (u, None).
Proof.
  intros H. destruct (FormatUint_cons u (proj1 H)) as [c [t [E _]]].
  unfold strconv.ParseUint. rewrite E, <- E.
  unfold strconv.FormatUint. rewrite parseDigits_formatBits.
  - reflexivity.
  - exact H.
  - rewrite Nat2Z.inj_succ, Z2Nat.id by apply Z.log2_nonneg.
    destruct (Z.eq_dec u 0) as [-> | Hn]; [reflexivity |].
    apply Z.log2_spec. lia.
Qed.

Lemma ParseInt_FormatInt (n : Z) :
  - 2 ^ 63 <= n < 2 ^ 63 -> strconv.ParseInt (strconv.FormatInt n) = (n, None).
Proof.
  intros H. unfold strconv.FormatInt.
  destruct (Z.ltb_spec n 0) as [Hneg | Hpos].
  - unfold strconv.ParseInt.
    change (Ascii.eqb "-" "-") with true.
    change (Ascii.eqb "-" "+") with false. cbn [orb negb andb].
    rewrite ParseUint_FormatUint by lia.
    destruct (Z.gtb_spec (- n) (2 ^ 63)); [lia |].
    f_equal. lia.
  - destruct (FormatUint_cons n Hpos) as [c [t [E D]]].
    unfold strconv.ParseInt. rewrite E.
    assert (Ascii.eqb c "-" = false /\ Ascii.eqb c "+" = false) as [E1 E2].
    { split; apply Ascii.eqb_neq; intros ->; discriminate. }
    rewrite E1, E2. cbn [orb negb andb]. rewrite <- E.
    rewrite ParseUint_FormatUint by lia.
    destruct (Z.geb_spec n (2 ^ 63)); [lia | reflexivity].
Qed.

(** ** The scanner *)

Lemma getRune_ascii (c : ascii) (t : string) :
  code c < 128 -> fmt.getRune (String c t) = Some (code c, t).
Proof.
  intros H. unfold fmt.getRune, utf8.DecodeRuneInString, utf8.first.
  destruct (Z.ltb_spec (code c) 128); [reflexivity | lia].
Qed.

Lemma isDigit_code (c : ascii) :
  fmt.isDigit c = true -> 48 <= code c <= 57.
Proof.
  unfold fmt.isDigit. intros H. apply andb_true_iff in H.
  destruct H as [H1 H2]. apply Z.leb_le in H1, H2. lia.
Qed.

Lemma isBlank_space (c : ascii) :
  isBlank c = true ->
  code c < 128 /\ fmt.isSpace (code c) = true /\ (code c =? 10) = false.
Proof.
  unfold isBlank. intros H. apply orb_true_iff in H.
  destruct H as [H | H]; apply Z.eqb_eq in H; rewrite H; repeat split; lia.
Qed.

Lemma numeralAhead_rune (s : string) :
  numeralAhead s ->
  exists c t, s = String c t /\ code c < 128
              /\ fmt.isSpace (code c) = false.
Proof.
  destruct s as [| c t]; [intros [] |]. intros H. exists c, t.
  split; [reflexivity |].
  destruct H as [H | [-> | ->]]; [| split; reflexivity ..].
  apply isDigit_code in H. split; [lia |].
  unfold fmt.isSpace, unicode.IsSpace.
  destruct (Z.leb_spec 0 (code c)); [| lia].
  destruct (Z.leb_spec (code c) 255); [| lia]. cbn [andb].
  repeat (apply orb_false_iff; split);
    try (apply andb_false_iff; right); try apply Z.leb_gt;
    try apply Z.eqb_neq; lia.
Qed.

Lemma numeralAhead_solid (s : string) : numeralAhead s -> solid s.
Proof.
  intros H. destruct (numeralAhead_rune s H) as [c [t [-> [Hc Hs]]]].
  split; assumption.
Qed.

Lemma skipBlanks_stop (fuel : nat) (s : string) :
  solid s -> fmt.skipBlanks fuel s = s.
Proof.
  intros H. destruct fuel as [| k]; [reflexivity |].
  destruct s as [| c t]; [reflexivity |]. destruct H as [Hc Hs].
  cbn [fmt.skipBlanks]. rewrite getRune_ascii, Hs by assumption. reflexivity.
Qed.

(** The blanks are skipped up to such a text, and nothing more. *)
Lemma skipBlanks_blanks (ws tail : string) :
  blanksOnly ws = true -> solid tail ->
  forall fuel,
    (String.length ws <= fuel)%nat ->
    fmt.skipBlanks fuel (ws ++ tail) = tail.
Proof.
  intros Hws Htail. induction ws as [| c ws IH]; intros fuel Hf.
  - now apply skipBlanks_stop.
  - cbn [blanksOnly] in Hws. apply andb_true_iff in Hws.
    destruct Hws as [Hc Hws]. destruct (isBlank_space c Hc) as [H1 [H2 H3]].
    destruct fuel as [| k]; [simpl in Hf; lia |].
    cbn [fmt.skipBlanks append].
    rewrite getRune_ascii, H2, H3 by assumption. cbn [negb andb].
    apply IH; [assumption | simpl in Hf; lia].
Qed.

Lemma length_append (a b : string) :
  String.length (a ++ b) = (String.length a + String.length b)%nat.
Proof. induction a; simpl; congruence. Qed.

Lemma blanks_blanks (ws tail : string) :
  blanksOnly ws = true -> solid tail ->
  fmt.blanks (ws ++ tail) = tail.
Proof.
  intros Hws Htail. unfold fmt.blanks.
  apply skipBlanks_blanks; [assumption .. |].
  rewrite length_append. lia.
Qed.

Lemma SkipSpace_solid (s : string) : solid s -> fmt.SkipSpace s = inl s.
Proof.
  intros H. unfold fmt.SkipSpace, fmt.blanks.
  rewrite skipBlanks_stop by assumption.
  destruct s as [| c t]; [reflexivity |]. destruct H as [Hc Hs].
  rewrite getRune_ascii by assumption.
  destruct (Z.eqb_spec (code c) 10) as [E | _]; [| reflexivity].
  rewrite E in Hs. discriminate.
Qed.

Lemma SkipSpace_numeral (s : string) :
  numeralAhead s -> fmt.SkipSpace s = inl s.
Proof.
  intros H. apply SkipSpace_solid. now apply numeralAhead_solid.
Qed.

Lemma acceptDigits_append (ds rest : string) :
  digitsOnly ds = true -> noDigitAhead rest ->
  fmt.acceptDigits (ds ++ rest) = (ds, rest).
Proof.
  intros Hd Hr. induction ds as [| c ds IH].
  - destruct rest as [| c t]; [reflexivity |].
    simpl in *. now rewrite Hr.
  - cbn [digitsOnly] in Hd. apply andb_true_iff in Hd. destruct Hd as [Hc Hd].
    cbn [append fmt.acceptDigits]. rewrite Hc, IH by assumption. reflexivity.
Qed.

(** [scanInt] reads the numeral of an [int64] and stops after it. *)
Lemma scanInt_FormatInt (n : Z) (rest : string) :
  - 2 ^ 63 <= n < 2 ^ 63 -> noDigitAhead rest ->
  numeralAhead (strconv.FormatInt n ++ rest)
  /\ fmt.scanInt (strconv.FormatInt n ++ rest) = inl (n, rest).
Proof.
  intros Hn Hr. pose proof (ParseInt_FormatInt n Hn) as HP.
  unfold strconv.FormatInt in *.
  destruct (Z.ltb_spec n 0) as [Hneg | Hpos].
  - destruct (FormatUint_cons (- n) ltac:(lia)) as [c [t [E D]]].
    split; [right; left; reflexivity |].
    unfold fmt.scanInt. rewrite SkipSpace_numeral by (right; left; reflexivity).
    cbn [append]. change (Ascii.eqb "-" "+") with false.
    change (Ascii.eqb "-" "-") with true. cbn [orb].
    rewrite acceptDigits_append;
      [| apply FormatUint_digits; lia | assumption].
    rewrite E at 1. cbn [append]. rewrite D, HP. reflexivity.
  - destruct (FormatUint_cons n Hpos) as [c [t [E D]]].
    assert (numeralAhead (strconv.FormatUint n ++ rest)) as HA.
    { rewrite E. left. exact D. }
    split; [exact HA |].
    unfold fmt.scanInt. rewrite SkipSpace_numeral by assumption.
    assert (Ascii.eqb c "-" = false /\ Ascii.eqb c "+" = false) as [E1 E2].
    { split; apply Ascii.eqb_neq; intros ->; discriminate. }
    rewrite E at 1. cbn [append]. rewrite E1, E2. cbn [orb].
    rewrite acceptDigits_append;
      [| apply FormatUint_digits; lia | assumption].
    rewrite E at 1. cbn [append]. rewrite D, HP. reflexivity.
Qed.

(** The count of operands never goes down, and the operand keeps its
    value as long as the count does. *)
Lemma doScanf_count (ds : list fmt.directive) :
  forall inp v k,
    (k <= snd (fst (fmt.doScanf ds inp v k)))%nat
    /\ (snd (fst (fmt.doScanf ds inp v k)) = k ->
        fst (fst (fmt.doScanf ds inp v k)) = v).
Proof.
  induction ds as [| d ds IH]; intros inp v k; [simpl; auto |].
  destruct d; cbn [fmt.doScanf].
  - destruct (fmt.getRune inp) as [[r' rest] |]; [| simpl; auto].
    destruct (r =? r'); [apply IH | simpl; auto].
  - destruct (fmt.space newlines trailingSpace inp); [apply IH | simpl; auto].
  - destruct (fmt.SkipSpace inp) as [inp' | e]; [| simpl; auto].
    destruct (1 <=? k)%nat; [simpl; auto |].
    destruct (fmt.scanInt inp') as [[i rest] | e]; [| simpl; auto].
    destruct (IH rest i (S k)) as [H1 H2]. split; [lia |].
    intros H. lia.
  - simpl; auto.
Qed.

(** Once the operand is scanned its value stays. *)
Lemma doScanf_scanned (ds : list fmt.directive) :
  forall inp v k,
    (1 <= k)%nat -> fst (fst (fmt.doScanf ds inp v k)) = v.
Proof.
  induction ds as [| d ds IH]; intros inp v k Hk; [reflexivity |].
  destruct d; cbn [fmt.doScanf].
  - destruct (fmt.getRune inp) as [[r' rest] |]; [| reflexivity].
    destruct (r =? r'); [now apply IH | reflexivity].
  - destruct (fmt.space newlines trailingSpace inp);
      [now apply IH | reflexivity].
  - destruct (fmt.SkipSpace inp) as [inp' | e]; [| reflexivity].
    apply Nat.leb_le in Hk. rewrite Hk. reflexivity.
  - reflexivity.
Qed.

(** The white space of the format takes the blanks of the input, of
    which there must be one unless the input is over. *)
Lemma space_blanks (ws tail : string) :
  blanksOnly ws = true -> solid tail ->
  ws <> "" \/ tail = "" ->
  fmt.space 0 true (ws ++ tail) = inl tail.
Proof.
  intros Hws Htail Hne. unfold fmt.space. cbn [fmt.newlines].
  destruct ws as [| c ws].
  - destruct Hne as [Hne | ->]; [congruence | reflexivity].
  - cbn [blanksOnly] in Hws. pose proof Hws as Hws'.
    apply andb_true_iff in Hws. destruct Hws as [Hc _].
    destruct (isBlank_space c Hc) as [H1 [H2 H3]].
    cbn [append]. rewrite getRune_ascii by assumption.
    rewrite H2, H3. cbn [Nat.eqb negb andb].
    change (String c (ws ++ tail)) with (String c ws ++ tail).
    now rewrite blanks_blanks.
Qed.

(** What [Sscanf] does on a line with the prefix, up to the verb. *)
Lemma Sscanf_prefix (x : string) (v : Z) :
  fmt.Sscanf ("VmRSS:" ++ x) "VmRSS: %d kB" v
  = fmt.doScanf [fmt.DSpace 0 true; fmt.DInt; fmt.DSpace 0 true;
                 fmt.DLit 107; fmt.DLit 66] x v 0.
Proof. reflexivity. Qed.

(** After the prefix and at least one blank, the numeral of an [int64]
    that no digit follows is the value of the operand, whatever
    follows. *)
Lemma Sscanf_numeral (ws rest : string) (n v : Z) :
  blanksOnly ws = true -> ws <> "" ->
  - 2 ^ 63 <= n < 2 ^ 63 -> noDigitAhead rest ->
  fst (fmt.Sscanf ("VmRSS:" ++ ws ++ strconv.FormatInt n ++ rest)
         "VmRSS: %d kB" v)
  = (n, 1%nat).
Proof.
  intros Hws Hne Hn Hr. rewrite Sscanf_prefix.
  destruct (scanInt_FormatInt n rest Hn Hr) as [HA HS].
  cbn [fmt.doScanf].
  rewrite space_blanks; [| assumption | now apply numeralAhead_solid | tauto].
  rewrite SkipSpace_numeral by assumption.
  cbn [Nat.leb]. rewrite HS.
  repeat break_match; reflexivity.
Qed.

Lemma append_empty_r (s : string) : s ++ "" = s.
Proof. induction s; simpl; congruence. Qed.

(** Only blanks after the prefix: no operand is scanned. *)
Lemma Sscanf_missing (ws : string) (v : Z) :
  blanksOnly ws = true ->
  fst (fmt.Sscanf ("VmRSS:" ++ ws) "VmRSS: %d kB" v) = (v, 0%nat).
Proof.
  intros Hws. rewrite Sscanf_prefix. cbn [fmt.doScanf].
  rewrite <- (append_empty_r ws).
  rewrite space_blanks; [reflexivity | assumption | exact I | tauto].
Qed.

(** After the blanks, an ASCII byte that starts no numeral: no operand
    is scanned. *)
Lemma Sscanf_malformed (ws : string) (c : ascii) (t : string) (v : Z) :
  blanksOnly ws = true -> ws <> "" ->
  code c < 128 -> fmt.isSpace (code c) = false ->
  fmt.isDigit c = false -> c <> "-"%char -> c <> "+"%char ->
  fst (fmt.Sscanf ("VmRSS:" ++ ws ++ String c t) "VmRSS: %d kB" v)
  = (v, 0%nat).
Proof.
  intros Hws Hne Hc Hs Hd Hm Hp. rewrite Sscanf_prefix. cbn [fmt.doScanf].
  assert (solid (String c t)) as Hsolid by (split; assumption).
  rewrite space_blanks; [| assumption | assumption | tauto].
  rewrite SkipSpace_solid by assumption. cbn [Nat.leb].
  unfold fmt.scanInt. rewrite SkipSpace_solid by assumption.
  apply Ascii.eqb_neq in Hm, Hp. rewrite Hm, Hp. cbn [orb].
  rewrite Hd. reflexivity.
Qed.

(** No white space after the prefix: no operand is scanned. *)
Lemma Sscanf_nospace (c : ascii) (t : string) (v : Z) :
  code c < 128 -> fmt.isSpace (code c) = false ->
  fst (fmt.Sscanf ("VmRSS:" ++ String c t) "VmRSS: %d kB" v) = (v, 0%nat).
Proof.
  intros Hc Hs. rewrite Sscanf_prefix. cbn [fmt.doScanf].
  unfold fmt.space. cbn [fmt.newlines].
  rewrite getRune_ascii, Hs by assumption. reflexivity.
Qed.

(** ** The RSS probe *)

(** The loop stops at the first line with the prefix and returns what
    [Sscanf] left in the variable. *)
Lemma getRSS_lines_first (before after : list string) (line : string) :
  noPrefix before -> strings.HasPrefix line "VmRSS:" = true ->
  getRSS_lines (before ++ line :: after)
  = (fst (fst (fmt.Sscanf line "VmRSS: %d kB" 0)), None).
Proof.
  intros Hb Hl. induction before as [| l before IH].
  - cbn [app getRSS_lines]. rewrite Hl.
    destruct (fmt.Sscanf line "VmRSS: %d kB" 0) as [[rss k] e]. reflexivity.
  - cbn [app getRSS_lines]. rewrite (Hb l (or_introl eq_refl)).
    apply IH. intros l' Hl'. apply Hb. now right.
Qed.

Lemma getRSS_lines_none (lines : list string) :
  noPrefix lines -> getRSS_lines lines = (0, Some (Errorf "VmRSS not found")).
Proof.
  intros H. induction lines as [| l lines IH]; [reflexivity |].
  cbn [getRSS_lines]. rewrite (H l (or_introl eq_refl)).
  apply IH. intros l' Hl'. apply H. now right.
Qed.

Lemma HasPrefix_VmRSS (x : string) :
  strings.HasPrefix ("VmRSS:" ++ x) "VmRSS:" = true.
Proof. destruct x; reflexivity. Qed.

(** C5, as amended. When the first line with the prefix "VmRSS:" is
    "VmRSS: N kB" for an [int] N, the probe returns N, wherever the line
    is and whatever the other lines are; this also holds with any blanks
    between the colon and N and with any text after N that starts with no
    digit; and the probe fails with "VmRSS not found" when no line has the
    prefix. *)
Theorem getRSS_first_line (w : World) (data : string) :
  ReadFile w "/proc/self/status" = inl data ->
  (forall before after n,
      strings.Split data "010" = (before ++ rssLine n :: after)%list ->
      noPrefix before -> - 2 ^ 63 <= n < 2 ^ 63 ->
      getRSS w = (n, None))
  /\ (forall before after ws rest n,
         strings.Split data "010"
         = (before
            ++ ("VmRSS:" ++ ws ++ strconv.FormatInt n ++ rest)%string
            :: after)%list ->
         noPrefix before -> blanksOnly ws = true -> ws <> "" ->
         noDigitAhead rest -> - 2 ^ 63 <= n < 2 ^ 63 ->
         getRSS w = (n, None))
  /\ (noPrefix (strings.Split data "010") ->
      getRSS w = (0, Some (Errorf "VmRSS not found"))).
Proof.
  intros H. unfold getRSS. rewrite H.
  assert (forall before after ws rest n,
             strings.Split data "010"
             = (before
                ++ ("VmRSS:" ++ ws ++ strconv.FormatInt n ++ rest)%string
                :: after)%list ->
             noPrefix before -> blanksOnly ws = true -> ws <> "" ->
             noDigitAhead rest -> - 2 ^ 63 <= n < 2 ^ 63 ->
             getRSS_lines (strings.Split data "010") = (n, None)) as G.
  { intros before after ws rest n E Hb Hws Hne Hr Hn. rewrite E.
    rewrite getRSS_lines_first by (auto using HasPrefix_VmRSS).
    now rewrite Sscanf_numeral. }
  split; [| split].
  - intros before after n E Hb Hn.
    apply (G before after " " " kB" n);
      try assumption; try reflexivity; discriminate.
  - exact G.
  - apply getRSS_lines_none.
Qed.

Lemma getRSS_first_line_witness :
  getRSS (statusFile ("Name:" ++ tab ++ "sysinfo" ++ nl ++
                      "VmRSS: 4096 kB" ++ nl ++
                      "VmSwap: 0 kB" ++ nl)) = (4096, None)
  /\ getRSS (statusFile ("VmPeak:" ++ tab ++ "  9000 kB" ++ nl ++
                         "VmRSS:" ++ tab ++ "    4096 kB" ++ nl))
     = (4096, None)
  /\ getRSS (statusFile ("Name:" ++ tab ++ "sysinfo" ++ nl))
     = (0, Some (Errorf "VmRSS not found")).
Proof.
  split; [| split].
  - apply (proj1 (getRSS_first_line (statusFile _) _ eq_refl)
             ["Name:" ++ tab ++ "sysinfo"] ["VmSwap: 0 kB"; ""] 4096);
      [reflexivity | | lia].
    intros l [<- | []]. reflexivity.
  - apply (proj1 (proj2 (getRSS_first_line (statusFile _) _ eq_refl))
             ["VmPeak:" ++ tab ++ "  9000 kB"] [""] (tab ++ "    ") " kB" 4096);
      [reflexivity | | reflexivity | discriminate | reflexivity | lia].
    intros l [<- | []]. reflexivity.
  - apply (proj2 (proj2 (getRSS_first_line (statusFile _) _ eq_refl))).
    intros l [<- | [<- | []]]; reflexivity.
Defined.

(** C5 as it is written fails: the status file holds the line
    "VmRSS: 5 kB", but an earlier line has the prefix and no number, and
    the probe returns 0. *)
Lemma getRSS_first_line_counterexample :
  strings.Split ("VmRSS: x kB" ++ nl ++ "VmRSS: 5 kB" ++ nl) "010"
  = ["VmRSS: x kB"; rssLine 5; ""]
  /\ getRSS (statusFile ("VmRSS: x kB" ++ nl ++ "VmRSS: 5 kB" ++ nl))
     = (0, None).
Proof. split; reflexivity. Qed.

(** C10, as amended. At the first line with the prefix "VmRSS:" the
    probe never fails: it returns what [Sscanf] left in the variable,
    which is 0 when no integer was scanned, among others when only
    blanks follow the prefix, when no white space follows it, and when
    what follows the blanks starts no numeral. *)
Theorem getRSS_scan_ignored (w : World) (data : string)
        (before after : list string) (line : string) :
  ReadFile w "/proc/self/status" = inl data ->
  strings.Split data "010" = (before ++ line :: after)%list ->
  noPrefix before ->
  strings.HasPrefix line "VmRSS:" = true ->
  getRSS w = (fst (fst (fmt.Sscanf line "VmRSS: %d kB" 0)), None)
  /\ (snd (fst (fmt.Sscanf line "VmRSS: %d kB" 0)) = 0%nat ->
      getRSS w = (0, None))
  /\ (forall ws,
         line = "VmRSS:" ++ ws -> blanksOnly ws = true ->
         getRSS w = (0, None))
  /\ (forall c t,
         line = "VmRSS:" ++ String c t ->
         code c < 128 -> fmt.isSpace (code c) = false ->
         getRSS w = (0, None))
  /\ (forall ws c t,
         line = "VmRSS:" ++ ws ++ String c t ->
         blanksOnly ws = true -> ws <> "" ->
         code c < 128 -> fmt.isSpace (code c) = false ->
         fmt.isDigit c = false -> c <> "-"%char -> c <> "+"%char ->
         getRSS w = (0, None)).
Proof.
  intros H E Hb Hl. unfold getRSS. rewrite H, E.
  rewrite (getRSS_lines_first before after line Hb Hl).
  split; [reflexivity |]. split; [| split; [| split]].
  - intros Hk.
    pose proof (doScanf_count
                  (fmt.directives (map fst (utf8.runes "VmRSS: %d kB")) None)
                  line 0 0) as [_ Hv].
    unfold fmt.Sscanf in *. now rewrite (Hv Hk).
  - intros ws -> Hws. now rewrite Sscanf_missing.
  - intros c t -> Hc Hs. now rewrite Sscanf_nospace.
  - intros ws c t -> Hws Hne Hc Hs Hd Hm Hp. now rewrite Sscanf_malformed.
Qed.

Lemma getRSS_scan_ignored_witness :
  getRSS (statusFile statusMalformed) = (0, None)
  /\ getRSS (statusFile statusMissing) = (0, None)
  /\ getRSS (statusFile statusNoSpace) = (0, None).
Proof.
  split; [| split].
  - apply (proj2 (proj2 (proj2 (proj2
             (getRSS_scan_ignored (statusFile statusMalformed) statusMalformed
                ["Name:" ++ tab ++ "sysinfo"] [""] "VmRSS: abc kB"
                eq_refl eq_refl
                ltac:(intros l [<- | []]; reflexivity) eq_refl))))
             " " "a"%char "bc kB");
      try reflexivity; discriminate.
  - apply (proj1 (proj2 (proj2
             (getRSS_scan_ignored (statusFile statusMissing) statusMissing
                [] [""] "VmRSS:"
                eq_refl eq_refl ltac:(intros l []) eq_refl)))
             ""); reflexivity.
  - apply (proj1 (proj2 (proj2 (proj2
             (getRSS_scan_ignored (statusFile statusNoSpace) statusNoSpace
                [] [""] "VmRSS:4096 kB"
                eq_refl eq_refl ltac:(intros l []) eq_refl))))
             "4"%char "096 kB"); reflexivity.
Defined.

(** C10 as it is written fails: the line "VmRSS: 123 MB" does not match
    "VmRSS: <int> kB", and [Sscanf] reports so after it has scanned the
    integer, which the probe returns. *)
Lemma getRSS_scan_ignored_counterexample :
  fmt.Sscanf "VmRSS: 123 MB" "VmRSS: %d kB" 0
  = (123, 1%nat, Some (ScanError "input does not match format"))
  /\ getRSS (statusFile ("VmRSS: 123 MB" ++ nl)) = (123, None).
Proof. split; reflexivity. Qed.

(** * Further properties of the probes *)

(** ** Ranges of the parsed integers *)

Lemma parseDigits_cases (s : string) :
  forall n v e,
    strconv.parseDigits s n = (v, Some e) ->
    (v = strconv.maxUint64 /\ e = ErrRange) \/ (v = 0 /\ e = ErrSyntax).
Proof.
  induction s as [| c t IH]; intros n v e H; cbn [strconv.parseDigits] in H.
  - discriminate.
  - repeat break_in H; try (inversion H; subst; tauto).
    eapply IH; eassumption.
Qed.

Lemma parseDigits_range (s : string) :
  forall n v,
    0 <= n < 2 ^ 64 ->
    strconv.parseDigits s n = (v, None) -> 0 <= v < 2 ^ 64.
Proof.
  induction s as [| c t IH]; intros n v Hn H; cbn [strconv.parseDigits] in H.
  - inversion H; subst; assumption.
  - repeat break_in H; try discriminate.
    eapply IH; [| eassumption]. apply Z.mod_pos_bound. lia.
Qed.

Lemma ParseUint_range (s : string) (v : Z) :
  strconv.ParseUint s = (v, None) -> 0 <= v < 2 ^ 64.
Proof.
  unfold strconv.ParseUint. destruct s as [| c t]; [discriminate |].
  destruct (strconv.parseDigits (String c t) 0) as [n [e |]] eqn:E;
    [discriminate |].
  intros H. inversion H; subst. eapply parseDigits_range; [| exact E]. lia.
Qed.

Lemma ParseUint_error (s : string) (v : Z) (e : error) :
  strconv.ParseUint s = (v, Some e) ->
  (v = strconv.maxUint64 /\ e = NumError "ParseUint" s ErrRange)
  \/ (v = 0 /\ e = NumError "ParseUint" s ErrSyntax).
Proof.
  unfold strconv.ParseUint. destruct s as [| c t].
  - intros H. inversion H. tauto.
  - destruct (strconv.parseDigits (String c t) 0) as [n [e' |]] eqn:E;
      [| discriminate].
    intros H. inversion H; subst.
    destruct (parseDigits_cases _ _ _ _ E) as [[-> ->] | [-> ->]]; tauto.
Qed.

(** What [ParseInt] returns without an error is an [int64]. *)
Lemma ParseInt_range (s : string) (i : Z) :
  strconv.ParseInt s = (i, None) -> - 2 ^ 63 <= i < 2 ^ 63.
Proof.
  unfold strconv.ParseInt. destruct s as [| c t]; [discriminate |].
  set (s' := if (c =? "+")%char || (c =? "-")%char then t else String c t).
  destruct (strconv.ParseUint s') as [un [e |]] eqn:E.
  - destruct (ParseUint_error _ _ _ E) as [[-> ->] | [-> ->]];
      [| discriminate].
    unfold strconv.maxUint64.
    destruct (c =? "-")%char; cbn [negb andb]; intros H;
      repeat break_in H; try discriminate; lia.
  - pose proof (ParseUint_range _ _ E) as R.
    destruct (c =? "-")%char; cbn [negb andb]; intros H;
      repeat break_in H; try discriminate; inversion H; subst; lia.
Qed.

Lemma scanInt_range (inp rest : string) (i : Z) :
  fmt.scanInt inp = inl (i, rest) -> - 2 ^ 63 <= i < 2 ^ 63.
Proof.
  unfold fmt.scanInt. intros H.
  repeat break_in H; try discriminate;
    inversion H; subst; eapply ParseInt_range; eassumption.
Qed.

(** The operand of [Sscanf] stays an [int64]. *)
Lemma doScanf_range (ds : list fmt.directive) :
  forall inp v k,
    - 2 ^ 63 <= v < 2 ^ 63 ->
    - 2 ^ 63 <= fst (fst (fmt.doScanf ds inp v k)) < 2 ^ 63.
Proof.
  induction ds as [| d ds IH]; intros inp v k Hv; [exact Hv |].
  destruct d; cbn [fmt.doScanf].
  - destruct (fmt.getRune inp) as [[r' rest] |]; [| exact Hv].
    destruct (r =? r'); [now apply IH | exact Hv].
  - destruct (fmt.space newlines trailingSpace inp);
      [now apply IH | exact Hv].
  - destruct (fmt.SkipSpace inp) as [inp' | e]; [| exact Hv].
    destruct (1 <=? k)%nat; [exact Hv |].
    destruct (fmt.scanInt inp') as [[i rest] | e] eqn:E; [| exact Hv].
    apply IH. eapply scanInt_range; eassumption.
  - exact Hv.
Qed.

Lemma getRSS_lines_range (lines : list string) :
  - 2 ^ 63 <= fst (getRSS_lines lines) < 2 ^ 63.
Proof.
  induction lines as [| l lines IH]; [simpl; lia |].
  cbn [getRSS_lines]. destruct (strings.HasPrefix l "VmRSS:"); [| exact IH].
  pose proof (doScanf_range
                (fmt.directives (map fst (utf8.runes "VmRSS: %d kB")) None)
                l 0 0 ltac:(lia)) as R.
  unfold fmt.Sscanf.
  destruct (fmt.doScanf _ l 0 0) as [[rss k] e]. exact R.
Qed.

Lemma getMemInfo_lines_range (lines : list string) :
  forall v,
    - 2 ^ 63 <= v < 2 ^ 63 ->
    - 2 ^ 63 <= getMemInfo_lines lines v < 2 ^ 63.
Proof.
  induction lines as [| l lines IH]; intros v Hv; [exact Hv |].
  cbn [getMemInfo_lines].
  destruct (strings.HasPrefix l "MemTotal:"); [| now apply IH].
  pose proof (doScanf_range
                (fmt.directives (map fst (utf8.runes "MemTotal: %d kB")) None)
                l v 0 Hv) as R.
  unfold fmt.Sscanf.
  destruct (fmt.doScanf _ l v 0) as [[m k] e]. now apply IH.
Qed.

(** ** The memory total probe *)

Lemma Sscanf_mem_prefix (x : string) (v : Z) :
  fmt.Sscanf ("MemTotal:" ++ x) "MemTotal: %d kB" v
  = fmt.doScanf [fmt.DSpace 0 true; fmt.DInt; fmt.DSpace 0 true;
                 fmt.DLit 107; fmt.DLit 66] x v 0.
Proof. reflexivity. Qed.

(** After the blanks, the numeral of an [int64] that no digit follows is
    scanned into the operand, whatever follows. *)
Lemma doScanf_numeral (ws rest : string) (n v : Z) :
  blanksOnly ws = true -> ws <> "" ->
  - 2 ^ 63 <= n < 2 ^ 63 -> noDigitAhead rest ->
  fst (fmt.doScanf [fmt.DSpace 0 true; fmt.DInt; fmt.DSpace 0 true;
                    fmt.DLit 107; fmt.DLit 66]
         (ws ++ strconv.FormatInt n ++ rest) v 0)
  = (n, 1%nat).
Proof.
  intros Hws Hne Hn Hr.
  destruct (scanInt_FormatInt n rest Hn Hr) as [HA HS].
  cbn [fmt.doScanf].
  rewrite space_blanks; [| assumption | now apply numeralAhead_solid | tauto].
  rewrite SkipSpace_numeral by assumption.
  cbn [Nat.leb]. rewrite HS.
  repeat break_match; reflexivity.
Qed.

Lemma HasPrefix_MemTotal (x : string) :
  strings.HasPrefix ("MemTotal:" ++ x) "MemTotal:" = true.
Proof. destruct x; reflexivity. Qed.

Lemma getMemInfo_lines_app (l1 l2 : list string) :
  forall v,
    getMemInfo_lines (l1 ++ l2) v
    = getMemInfo_lines l2 (getMemInfo_lines l1 v).
Proof.
  induction l1 as [| l l1 IH]; intros v; [reflexivity |].
  cbn [app getMemInfo_lines].
  destruct (strings.HasPrefix l "MemTotal:"); [| apply IH].
  destruct (fmt.Sscanf l "MemTotal: %d kB" v) as [[m k] e]. apply IH.
Qed.

Lemma getMemInfo_lines_quiet (lines : list string) :
  Forall quietMem lines ->
  forall v, getMemInfo_lines lines v = v.
Proof.
  induction 1 as [| l lines Hl _ IH]; intros v; [reflexivity |].
  cbn [getMemInfo_lines].
  destruct (strings.HasPrefix l "MemTotal:") eqn:P; [| apply IH].
  destruct Hl as [Hl | Hl]; [congruence |]. specialize (Hl v).
  pose proof (doScanf_count
                (fmt.directives (map fst (utf8.runes "MemTotal: %d kB")) None)
                l v 0) as [_ Hk].
  unfold fmt.Sscanf in *.
  destruct (fmt.doScanf _ l v 0) as [[m k] e]. cbn [fst snd] in *.
  rewrite (Hk Hl). apply IH.
Qed.

(** X1. On a memory table that is read the probe never fails and returns
    an [int]: 0 when no line gives a number, and otherwise the number of
    the last line "MemTotal:", blanks, numeral from which one is scanned,
    whatever the earlier lines hold; a later line with the prefix and no
    number does not reset it. *)
Theorem getMemInfo_last_wins (w : World) (data : string) :
  ReadFile w "/proc/meminfo" = inl data ->
  snd (getMemInfo w) = None
  /\ - 2 ^ 63 <= fst (getMemInfo w) < 2 ^ 63
  /\ (Forall quietMem (strings.Split data "010") -> getMemInfo w = (0, None))
  /\ (forall before after ws rest n,
         strings.Split data "010"
         = (before
            ++ ("MemTotal:" ++ ws ++ strconv.FormatInt n ++ rest)%string
            :: after)%list ->
         blanksOnly ws = true -> ws <> "" -> noDigitAhead rest ->
         - 2 ^ 63 <= n < 2 ^ 63 -> Forall quietMem after ->
         getMemInfo w = (n, None)).
Proof.
  intros H. unfold getMemInfo. rewrite H. cbn [fst snd].
  split; [reflexivity |]. split; [apply getMemInfo_lines_range; lia |].
  split.
  - intros Q. now rewrite getMemInfo_lines_quiet.
  - intros before after ws rest n E Hws Hne Hr Hn Q.
    rewrite E, getMemInfo_lines_app. cbn [getMemInfo_lines].
    rewrite HasPrefix_MemTotal, Sscanf_mem_prefix.
    pose proof (doScanf_numeral ws rest n
                  (getMemInfo_lines before 0) Hws Hne Hn Hr) as S.
    destruct (fmt.doScanf _ (ws ++ strconv.FormatInt n ++ rest) _ 0)
      as [[m k] e].
    cbn [fst] in S. inversion S; subst.
    now rewrite getMemInfo_lines_quiet.
Qed.

Lemma getMemInfo_last_wins_witness :
  getMemInfo (meminfoFile meminfoData) = (16384000, None).
Proof.
  apply (proj2 (proj2 (proj2
           (getMemInfo_last_wins (meminfoFile meminfoData) meminfoData
              eq_refl)))
           ["MemTotal: 100 kB"; "MemFree:         5120000 kB"]
           ["MemTotal: unknown"; ""] "       " " kB" 16384000);
    try reflexivity; try discriminate; try lia.
  apply Forall_cons; [right; intros v; reflexivity |].
  apply Forall_cons; [left; reflexivity | apply Forall_nil].
Defined.

(** ** The CPU probe *)

Lemma Cut_found (a y : string) :
  noColon a = true -> strings.Cut (a ++ String ":" y) ":" = (a, y, true).
Proof.
  intros H. induction a as [| c a IH]; [reflexivity |].
  cbn [noColon] in H. apply andb_true_iff in H. destruct H as [Hc Ha].
  apply negb_true_iff in Hc. cbn [append strings.Cut].
  rewrite Hc, (IH Ha). reflexivity.
Qed.

Lemma Cut_none (s : string) :
  noColon s = true -> strings.Cut s ":" = (s, "", false).
Proof.
  intros H. induction s as [| c s IH]; [reflexivity |].
  cbn [noColon] in H. apply andb_true_iff in H. destruct H as [Hc Hs].
  apply negb_true_iff in Hc. cbn [strings.Cut].
  rewrite Hc, (IH Hs). reflexivity.
Qed.

Lemma prefix_append (p a b : string) :
  String.prefix p a = true -> String.prefix p (a ++ b) = true.
Proof.
  revert a. induction p as [| c p IH]; intros a H.
  - destruct (a ++ b); reflexivity.
  - destruct a as [| d a]; [discriminate |].
    cbn [append String.prefix] in *.
    destruct (ascii_dec c d); [now apply IH | discriminate].
Qed.

Lemma getCPUInfo_lines_passed (before rest : list string) :
  Forall passedCPU before ->
  getCPUInfo_lines (before ++ rest) = getCPUInfo_lines rest.
Proof.
  induction 1 as [| l before Hl _ IH]; [reflexivity |].
  cbn [app getCPUInfo_lines].
  destruct (strings.HasPrefix l "model name") eqn:P; [| exact IH].
  destruct Hl as [Hl | Hl]; [congruence |].
  rewrite (Cut_none l Hl). exact IH.
Qed.

(** X2. On a CPU table that is read the probe never fails and the core
    count is the runtime's, whatever the table holds.  The model is the
    trimmed text after the first colon of the first line that has the
    prefix "model name" and a colon: a line with the prefix and no colon
    is passed over, and later lines are not looked at; it is empty when
    there is no such line. *)
Theorem getCPUInfo_first_model (w : World) (data : string) :
  ReadFile w "/proc/cpuinfo" = inl data ->
  snd (getCPUInfo w) = None
  /\ snd (fst (getCPUInfo w)) = NumCPU w
  /\ (Forall passedCPU (strings.Split data "010") ->
      fst (fst (getCPUInfo w)) = "")
  /\ (forall before after key value,
         strings.Split data "010"
         = (before ++ (key ++ String ":" value)%string :: after)%list ->
         Forall passedCPU before ->
         strings.HasPrefix key "model name" = true -> noColon key = true ->
         fst (fst (getCPUInfo w)) = strings.TrimSpace value).
Proof.
  intros H. unfold getCPUInfo. rewrite H. cbn [fst snd].
  split; [reflexivity |]. split; [reflexivity |]. split.
  - intros P. rewrite <- (app_nil_r (strings.Split data "010")).
    now rewrite getCPUInfo_lines_passed.
  - intros before after key value E P Hk Hc.
    rewrite E, getCPUInfo_lines_passed by assumption.
    cbn [getCPUInfo_lines]. unfold strings.HasPrefix in *.
    rewrite (prefix_append _ _ _ Hk), (Cut_found key value Hc). reflexivity.
Qed.

Lemma getCPUInfo_first_model_witness :
  getCPUInfo (cpuinfoFile cpuinfoData)
  = ("Example CPU @ 3.00GHz: rev 2", 1, None).
Proof.
  pose proof (getCPUInfo_first_model (cpuinfoFile cpuinfoData) cpuinfoData
                eq_refl) as [He [Hn [_ Hm]]].
  specialize (Hm ["processor" ++ tab ++ ": 0"; "model name without colon"]
                 ["model name" ++ tab ++ ": Another CPU"; ""]
                 ("model name" ++ tab) " Example CPU @ 3.00GHz: rev 2 "
                 eq_refl).
  destruct (getCPUInfo (cpuinfoFile cpuinfoData)) as [[model cores] err].
  cbn [fst snd] in *. rewrite He, Hn, Hm; try reflexivity.
  apply Forall_cons; [left; reflexivity |].
  apply Forall_cons; [right; reflexivity | apply Forall_nil].
Defined.

(** ** Trimming *)

Lemma Decode_ascii (c : ascii) (t : string) :
  code c < 128 -> utf8.DecodeRuneInString (String c t) = (code c, 1%nat).
Proof.
  intros H. unfold utf8.DecodeRuneInString, utf8.first.
  destruct (Z.ltb_spec (code c) 128); [reflexivity | lia].
Qed.

Lemma spaceByte_spec (c : ascii) :
  spaceByte c = true -> code c < 128 /\ unicode.IsSpace (code c) = true.
Proof.
  unfold spaceByte. intros H. apply andb_true_iff in H.
  destruct H as [H1 H2]. apply Z.ltb_lt in H1. tauto.
Qed.

Lemma solidByte_spec (c : ascii) :
  solidByte c = true -> code c < 128 /\ unicode.IsSpace (code c) = false.
Proof.
  unfold solidByte. intros H. apply andb_true_iff in H.
  destruct H as [H1 H2]. apply Z.ltb_lt in H1.
  apply negb_true_iff in H2. tauto.
Qed.

(** The white space at the left is dropped, up to the first solid
    byte. *)
Lemma trimLeft_spaces (wl tail : string) :
  spacesOnly wl = true -> tail = "" \/ solidFirst tail ->
  forall fuel,
    (String.length wl <= fuel)%nat ->
    strings.trimLeft fuel unicode.IsSpace (wl ++ tail) = tail.
Proof.
  intros Hw Ht. induction wl as [| c wl IH]; intros fuel Hf.
  - cbn [append]. destruct fuel as [| k]; [reflexivity |].
    destruct tail as [| a tail]; [reflexivity |].
    destruct Ht as [Ht | Ht]; [discriminate |].
    destruct (solidByte_spec a Ht) as [H1 H2].
    cbn [strings.trimLeft]. rewrite Decode_ascii, H2 by assumption.
    reflexivity.
  - cbn [spacesOnly] in Hw. apply andb_true_iff in Hw.
    destruct Hw as [Hc Hw]. destruct (spaceByte_spec c Hc) as [H1 H2].
    destruct fuel as [| k]; [simpl in Hf; lia |].
    cbn [append strings.trimLeft]. rewrite Decode_ascii, H2 by assumption.
    cbn [drop]. apply IH; [assumption | simpl in Hf; lia].
Qed.

Lemma append_assoc (a b c : string) : (a ++ b) ++ c = a ++ b ++ c.
Proof. induction a; simpl; congruence. Qed.

Lemma substring_append (t ws : string) (k : nat) :
  String.substring 0 (String.length t + k) (t ++ ws)
  = t ++ String.substring 0 k ws.
Proof. induction t as [| c t IH]; simpl; [reflexivity | now rewrite IH]. Qed.

Lemma substring_snoc (ws : string) :
  forall k c,
    String.get k ws = Some c ->
    String.substring 0 (S k) ws = String.substring 0 k ws ++ String c "".
Proof.
  induction ws as [| d ws IH]; intros k c H; [discriminate |].
  destruct k as [| k].
  - simpl in H. inversion H; subst. simpl. now destruct ws.
  - simpl in H. cbn [String.substring append]. now rewrite (IH k c H).
Qed.

Lemma spacesOnly_get (ws : string) :
  spacesOnly ws = true ->
  forall k,
    (k < String.length ws)%nat ->
    exists c, String.get k ws = Some c /\ spaceByte c = true.
Proof.
  induction ws as [| d ws IH]; intros H k Hk; [simpl in Hk; lia |].
  cbn [spacesOnly] in H. apply andb_true_iff in H. destruct H as [Hd Hw].
  destruct k as [| k]; [exists d; auto |].
  simpl in Hk. apply (IH Hw k). lia.
Qed.

Lemma get_snoc (x : string) (c : ascii) (y : string) :
  String.get (String.length x) (x ++ String c y) = Some c.
Proof. induction x; simpl; auto. Qed.

Lemma length_snoc (x : string) (c : ascii) :
  String.length (x ++ String c "") = S (String.length x).
Proof. rewrite length_append. simpl. lia. Qed.

(** The last rune of a text that ends with an ASCII byte is that
    byte. *)
Lemma DecodeLast_ascii (x : string) (c : ascii) :
  code c < 128 ->
  utf8.DecodeLastRuneInString (x ++ String c "") = (code c, 1%nat).
Proof.
  intros H. unfold utf8.DecodeLastRuneInString, len, at_.
  rewrite length_snoc.
  destruct (Z.eqb_spec (Z.of_nat (S (String.length x))) 0); [lia |].
  replace (Z.to_nat (Z.of_nat (S (String.length x)) - 1))
    with (String.length x) by lia.
  rewrite get_snoc. unfold utf8.RuneSelf.
  destruct (Z.ltb_spec (code c) 128); [reflexivity | lia].
Qed.

Lemma slice_take (s : string) (m : nat) :
  slice s 0 (Z.of_nat m) = String.substring 0 m s.
Proof.
  unfold slice. rewrite Z.sub_0_r, Nat2Z.id. reflexivity.
Qed.

Lemma substring_none (s : string) : String.substring 0 0 s = "".
Proof. destruct s; reflexivity. Qed.

Lemma substring_all (t : string) : String.substring 0 (String.length t) t = t.
Proof. induction t; simpl; congruence. Qed.

(** Going back from the end over white space, the search stops at the
    solid byte [b]. *)
Lemma lastIndex_spaces (pre : string) (b : ascii) (ws : string) :
  solidByte b = true -> spacesOnly ws = true ->
  forall k fuel,
    (k <= String.length ws)%nat -> (k < fuel)%nat ->
    strings.lastIndex fuel unicode.IsSpace ((pre ++ String b "") ++ ws)
      (Z.of_nat (String.length (pre ++ String b "") + k))
    = Z.of_nat (String.length pre).
Proof.
  intros Hb Hw. destruct (solidByte_spec b Hb) as [B1 B2].
  induction k as [| k IH]; intros fuel Hk Hf.
  - destruct fuel as [| fuel]; [lia |]. cbn [strings.lastIndex].
    destruct (Z.leb_spec
                (Z.of_nat (String.length (pre ++ String b "") + 0)) 0);
      [rewrite length_snoc in *; lia |].
    rewrite slice_take, substring_append.
    rewrite substring_none, append_empty_r, DecodeLast_ascii, B2
      by assumption.
    rewrite length_snoc. lia.
  - destruct fuel as [| fuel]; [lia |]. cbn [strings.lastIndex].
    destruct (Z.leb_spec
                (Z.of_nat (String.length (pre ++ String b "") + S k)) 0);
      [rewrite length_snoc in *; lia |].
    destruct (spacesOnly_get ws Hw k ltac:(lia)) as [c [Hc Sc]].
    destruct (spaceByte_spec c Sc) as [C1 C2].
    rewrite slice_take, substring_append, (substring_snoc ws k c Hc).
    rewrite <- append_assoc, DecodeLast_ascii, C2 by assumption.
    replace (Z.of_nat (String.length (pre ++ String b "") + S k)
             - Z.of_nat 1)
      with (Z.of_nat (String.length (pre ++ String b "") + k)) by lia.
    apply IH; lia.
Qed.

(** A text with solid bytes at both ends, between ASCII white space, is
    what [TrimSpace] keeps. *)
Lemma TrimSpace_spaces (wl t wr : string) :
  spacesOnly wl = true -> spacesOnly wr = true ->
  solidFirst t -> solidLast t ->
  strings.TrimSpace (wl ++ t ++ wr) = t.
Proof.
  intros Hl Hr Hf [pre [b [-> Hb]]].
  unfold strings.TrimSpace, strings.TrimLeftFunc.
  rewrite trimLeft_spaces;
    [| assumption
     | right; destruct pre; exact Hf
     | rewrite length_append; lia].
  unfold strings.TrimRightFunc, len.
  rewrite (length_append (pre ++ String b "") wr).
  rewrite Nat2Z.inj_add, <- Nat2Z.inj_add.
  rewrite lastIndex_spaces;
    [| assumption | assumption | lia | rewrite length_snoc; lia].
  destruct (solidByte_spec b Hb) as [B1 B2].
  assert (at_ ((pre ++ String b "") ++ wr) (Z.of_nat (String.length pre))
          = code b) as A.
  { unfold at_. rewrite Nat2Z.id, append_assoc. cbn [append].
    now rewrite get_snoc. }
  rewrite A. unfold utf8.RuneSelf.
  destruct (Z.leb_spec 0 (Z.of_nat (String.length pre))); [| lia].
  destruct (Z.leb_spec 128 (code b)); [lia |]. cbn [andb].
  replace (Z.of_nat (String.length pre) + 1)
    with (Z.of_nat (String.length (pre ++ String b "") + 0))
    by (rewrite length_snoc; lia).
  rewrite slice_take, substring_append, substring_none.
  apply append_empty_r.
Qed.

(** White space alone is trimmed to the empty text. *)
Lemma TrimSpace_blank (ws : string) :
  spacesOnly ws = true -> strings.TrimSpace ws = "".
Proof.
  intros H. unfold strings.TrimSpace, strings.TrimLeftFunc.
  rewrite <- (append_empty_r ws) at 2.
  rewrite trimLeft_spaces; [reflexivity | assumption | tauto | lia].
Qed.

(** X3. [readTrim] returns the error of the read with the empty text;
    of a file that holds a text between ASCII white space, the text
    having solid bytes at both ends, it returns that text, the white
    space inside it included; and of a file of white space alone, the
    empty text with no error. *)
Theorem readTrim_spaces (w : World) (path : string) :
  (forall e, ReadFile w path = inr e -> readTrim w path = ("", Some e))
  /\ (forall wl t wr,
         ReadFile w path = inl (wl ++ t ++ wr) ->
         spacesOnly wl = true -> spacesOnly wr = true ->
         solidFirst t -> solidLast t ->
         readTrim w path = (t, None))
  /\ (forall ws,
         ReadFile w path = inl ws -> spacesOnly ws = true ->
         readTrim w path = ("", None)).
Proof.
  unfold readTrim. split; [| split].
  - intros e H. now rewrite H.
  - intros wl t wr H Hl Hr Hf Hb. rewrite H.
    now rewrite TrimSpace_spaces.
  - intros ws H Hw. rewrite H. now rewrite TrimSpace_blank.
Qed.

Lemma readTrim_spaces_witness :
  readTrim (withFile "/sys/fs/cgroup/cpu.max"
              (" " ++ tab ++ "max 100000 " ++ crlf) emptyWorld)
    "/sys/fs/cgroup/cpu.max"
  = ("max 100000", None).
Proof.
  apply (proj1 (proj2 (readTrim_spaces _ "/sys/fs/cgroup/cpu.max"))
           (" " ++ tab) "max 100000" (" " ++ crlf));
    try reflexivity.
  exists "max 10000", "0"%char. split; reflexivity.
Defined.

(** ** The cgroup probes on the text of the kernel *)

Lemma isDigit_solid (c : ascii) : fmt.isDigit c = true -> solidByte c = true.
Proof.
  intros H. apply isDigit_code in H. unfold solidByte, unicode.IsSpace.
  destruct (Z.ltb_spec (code c) 128); [| lia].
  destruct (Z.leb_spec 0 (code c)); [| lia].
  destruct (Z.leb_spec (code c) 255); [| lia]. cbn [andb].
  apply negb_true_iff.
  repeat (apply orb_false_iff; split);
    try (apply andb_false_iff; right); try apply Z.leb_gt;
    try apply Z.eqb_neq; lia.
Qed.

Lemma digits_snoc (s : string) :
  forall c,
    digitsOnly (String c s) = true ->
    exists pre b, String c s = pre ++ String b "" /\ fmt.isDigit b = true.
Proof.
  induction s as [| d s IH]; intros c H.
  - exists "", c. cbn [digitsOnly] in H. apply andb_true_iff in H.
    split; [reflexivity | tauto].
  - cbn [digitsOnly] in H. apply andb_true_iff in H. destruct H as [_ H].
    destruct (IH d H) as [pre [b [E D]]].
    exists (String c pre), b. cbn [append]. now rewrite <- E.
Qed.

(** The numeral of an unsigned integer has solid bytes at both ends. *)
Lemma FormatUint_solid (u : Z) :
  0 <= u ->
  solidFirst (strconv.FormatUint u) /\ solidLast (strconv.FormatUint u).
Proof.
  intros H. destruct (FormatUint_cons u H) as [c [t [E D]]].
  pose proof (FormatUint_digits u H) as Ds. rewrite E in *.
  split; [now apply isDigit_solid |].
  destruct (digits_snoc t c Ds) as [pre [b [E' Db]]].
  exists pre, b. split; [exact E' | now apply isDigit_solid].
Qed.

(** X4. Of a memory limit file that holds the decimal numeral of a
    [uint64] [v] followed by ASCII white space, as the kernel writes it,
    the probe returns [v] when [v < 2^63 - 4096] and the absent value
    otherwise, with no error; of a file of white space alone it returns
    the syntax error of [ParseUint] on the empty text. *)
Theorem readCgroupMemoryLimit_numeral (w : World) :
  (forall v wr,
      0 <= v < 2 ^ 64 -> spacesOnly wr = true ->
      ReadFile w "/sys/fs/cgroup/memory/memory.limit_in_bytes"
      = inl (strconv.FormatUint v ++ wr) ->
      readCgroupMemoryLimit w
      = (if v <? 2 ^ 63 - 4096 then Some v else None, None))
  /\ (forall ws,
         spacesOnly ws = true ->
         ReadFile w "/sys/fs/cgroup/memory/memory.limit_in_bytes" = inl ws ->
         readCgroupMemoryLimit w
         = (None, Some (NumError "ParseUint" "" ErrSyntax))).
Proof.
  unfold readCgroupMemoryLimit, readTrim. split.
  - intros v wr Hv Hw H. rewrite H.
    destruct (FormatUint_solid v (proj1 Hv)) as [Hf Hl].
    change (strconv.FormatUint v ++ wr)
      with ("" ++ strconv.FormatUint v ++ wr).
    rewrite TrimSpace_spaces, ParseUint_FormatUint by auto.
    unfold unlimitedThreshold.
    destruct (Z.geb_spec v (2 ^ 63 - 4096)), (Z.ltb_spec v (2 ^ 63 - 4096));
      try lia; reflexivity.
  - intros ws Hw H. rewrite H, TrimSpace_blank by assumption. reflexivity.
Qed.

Lemma readCgroupMemoryLimit_numeral_witness :
  readCgroupMemoryLimit (memLimitFile ("536870912" ++ nl))
  = (Some 536870912, None)
  /\ readCgroupMemoryLimit (memLimitFile ("9223372036854771712" ++ nl))
     = (None, None)
  /\ readCgroupMemoryLimit (memLimitFile nl)
     = (None, Some (NumError "ParseUint" "" ErrSyntax)).
Proof.
  split; [| split].
  - apply (proj1 (readCgroupMemoryLimit_numeral
                    (memLimitFile ("536870912" ++ nl))) 536870912 nl);
      [lia | reflexivity | reflexivity].
  - apply (proj1 (readCgroupMemoryLimit_numeral
                    (memLimitFile ("9223372036854771712" ++ nl)))
             9223372036854771712 nl);
      [lia | reflexivity | reflexivity].
  - apply (proj2 (readCgroupMemoryLimit_numeral (memLimitFile nl)) nl);
      reflexivity.
Defined.

(** X5. The memory limit probe never returns a value together with an
    error, and a value it returns is a [uint64] below [2^63 - 4096]. *)
Theorem readCgroupMemoryLimit_below (w : World) (v : Z) (err : option error) :
  readCgroupMemoryLimit w = (Some v, err) ->
  err = None /\ 0 <= v < 2 ^ 63 - 4096.
Proof.
  unfold readCgroupMemoryLimit, unlimitedThreshold.
  destruct (readTrim w _) as [value [e |]]; [discriminate |].
  destruct (strconv.ParseUint value) as [num [e |]] eqn:P; [discriminate |].
  pose proof (ParseUint_range _ _ P) as R.
  destruct (Z.geb_spec num (2 ^ 63 - 4096)) as [G | G]; [discriminate |].
  intros E. inversion E; subst. split; [reflexivity | lia].
Qed.

Lemma readCgroupMemoryLimit_below_witness :
  readCgroupMemoryLimit (memLimitFile ("536870912" ++ nl))
  = (Some 536870912, None)
  /\ 0 <= 536870912 < 2 ^ 63 - 4096.
Proof.
  split; [reflexivity |].
  apply (readCgroupMemoryLimit_below (memLimitFile ("536870912" ++ nl))
           536870912 None eq_refl).
Defined.

Section CPULimitOutcomes.

Variable ParseFloat : string -> float64 * option error.

(** X6. The CPU limit probe returns the absent value with no error
    exactly when both files are read and the trimmed quota is "-1", as
    for a quota file that holds "-1" followed by ASCII white space; and
    it never returns a value together with an error. *)
Theorem readCgroupCPULimit_outcomes (w : World) :
  (readCgroupCPULimit ParseFloat w = (None, None) <->
   exists quota period,
     ReadFile w "/sys/fs/cgroup/cpu/cpu.cfs_quota_us" = inl quota
     /\ ReadFile w "/sys/fs/cgroup/cpu/cpu.cfs_period_us" = inl period
     /\ strings.TrimSpace quota = "-1")
  /\ (forall wr period,
         ReadFile w "/sys/fs/cgroup/cpu/cpu.cfs_quota_us" = inl ("-1" ++ wr) ->
         spacesOnly wr = true ->
         ReadFile w "/sys/fs/cgroup/cpu/cpu.cfs_period_us" = inl period ->
         readCgroupCPULimit ParseFloat w = (None, None))
  /\ (forall cores err,
         readCgroupCPULimit ParseFloat w = (Some cores, err) -> err = None).
Proof.
  unfold readCgroupCPULimit, readTrim. split; [split | split].
  - destruct (ReadFile w "/sys/fs/cgroup/cpu/cpu.cfs_quota_us")
      as [quota | e]; [| discriminate].
    destruct (ReadFile w "/sys/fs/cgroup/cpu/cpu.cfs_period_us")
      as [period | e]; [| discriminate].
    destruct (String.eqb_spec (strings.TrimSpace quota) "-1") as [E | _];
      [intros _; eauto |].
    intros H. repeat break_in H; discriminate.
  - intros [quota [period [-> [-> E]]]]. rewrite E. reflexivity.
  - intros wr period -> Hw ->.
    change ("-1" ++ wr) with ("" ++ "-1" ++ wr).
    rewrite TrimSpace_spaces; try reflexivity; try assumption.
    exists "-", "1"%char. split; reflexivity.
  - intros cores err H. repeat break_in H; try discriminate.
    now inversion H.
Qed.

End CPULimitOutcomes.

Lemma readCgroupCPULimit_outcomes_witness :
  readCgroupCPULimit parseFloatDigits
    (cpuFiles ("-1" ++ nl) ("100000" ++ nl)) = (None, None).
Proof.
  apply (proj1 (proj2 (readCgroupCPULimit_outcomes parseFloatDigits
                         (cpuFiles ("-1" ++ nl) ("100000" ++ nl))))
           nl ("100000" ++ nl)); reflexivity.
Defined.

(** ** The run as a whole *)

Section RunProperties.

Variable ParseFloat : string -> float64 * option error.

(** The snapshot and the notes of a run whose two fatal probes
    succeed. *)
Lemma collect_some (w : World) :
  snd (countFDs w) = None -> snd (getRSS w) = None ->
  collect ParseFloat w
  = ((report ("Path getting error:" ++ tab) (snd (getBinPath w))
      ++ report ("CPU info getting error:" ++ tab) (snd (getCPUInfo w))
      ++ report ("Mem info getting error:" ++ tab) (snd (getMemInfo w))
      ++ report ("Disk info getting error:" ++ tab) (snd (getDisksInfo w))
      ++ report ("cgroup memory limit error:" ++ tab)
           (snd (readCgroupMemoryLimit w))
      ++ report ("cgroup CPU limit error:" ++ tab)
           (snd (readCgroupCPULimit ParseFloat w)))%list,
     Some {| FDCount := fst (countFDs w);
             VmRSS := fst (getRSS w);
             ExePath := fst (getBinPath w);
             CPUModel := fst (fst (getCPUInfo w));
             CPUCores := snd (fst (getCPUInfo w));
             MemTotal := fst (getMemInfo w);
             Mounts := fst (getDisksInfo w);
             CgroupV1_ :=
               Some {| MemoryLimitBytes := fst (readCgroupMemoryLimit w);
                       CPULimitCores :=
                         fst (readCgroupCPULimit ParseFloat w) |} |}).
Proof.
  unfold collect.
  destruct (countFDs w) as [fds errF], (getRSS w) as [vmrss errR].
  cbn [fst snd]. intros -> ->.
  destruct (getBinPath w) as [path err1].
  destruct (getCPUInfo w) as [[model cores] err2].
  destruct (getMemInfo w) as [memTotal err3].
  destruct (getDisksInfo w) as [disks err4].
  destruct (readCgroupMemoryLimit w) as [memLimit err5].
  destruct (readCgroupCPULimit ParseFloat w) as [cpuLimit err6].
  reflexivity.
Qed.

Lemma collect_fatal (w : World) :
  snd (countFDs w) <> None \/ snd (getRSS w) <> None ->
  exists l e,
    collect ParseFloat w = ([Fprintln Stdout [AString l; AError e]], None).
Proof.
  unfold collect.
  destruct (countFDs w) as [fds [e |]]; [eauto |].
  destruct (getRSS w) as [vmrss [e |]]; [eauto |].
  cbn [snd]. tauto.
Qed.

Lemma collect_cases (w : World) :
  (exists out info,
      collect ParseFloat w = (out, Some info)
      /\ snd (countFDs w) = None /\ snd (getRSS w) = None)
  \/ (exists l e,
        collect ParseFloat w = ([Fprintln Stdout [AString l; AError e]], None)
        /\ (snd (countFDs w) <> None \/ snd (getRSS w) <> None)).
Proof.
  destruct (snd (countFDs w)) as [e |] eqn:F.
  - right. destruct (collect_fatal w) as [l [e' E]];
      [left; congruence |].
    exists l, e'. split; [exact E | left; discriminate].
  - destruct (snd (getRSS w)) as [e |] eqn:R.
    + right. destruct (collect_fatal w) as [l [e' E]];
        [right; congruence |].
      exists l, e'. split; [exact E | right; discriminate].
    + left. rewrite (collect_some w F R). eauto.
Qed.

Lemma report_notes (label : string) (err : option error) :
  forallb isNote (report label err) = true.
Proof. destruct err; reflexivity. Qed.

Lemma collect_notes (w : World) :
  forallb isNote (fst (collect ParseFloat w)) = true.
Proof.
  destruct (collect_cases w) as [[out [info [E [F R]]]] | [l [e [E _]]]].
  - rewrite (collect_some w F R). cbn [fst].
    rewrite !forallb_app, !report_notes. reflexivity.
  - rewrite E. reflexivity.
Qed.

End RunProperties.


(** The encoder fails exactly on a CPU limit that is not finite. *)
Lemma Marshal_cases (info : SysInfo) :
  (exists v, json.Marshal info = inl v
             /\ forall c f, CgroupV1_ info = Some c ->
                             CPULimitCores c = Some f -> isFinite f = true)
  \/ (json.Marshal info = inr UnsupportedValueError
      /\ exists c f, CgroupV1_ info = Some c /\ CPULimitCores c = Some f
                      /\ isFinite f = false).
Proof.
  unfold json.Marshal, json.marshalCgroupV1, json.marshalFloat.
  destruct (CgroupV1_ info) as [[m [f |]] |]; cbn [CPULimitCores].
  - destruct (isFinite f) eqn:F.
    + left. eexists. split; [reflexivity |].
      intros c f' E1 E2. inversion E1; subst. simpl in E2. congruence.
    + right. split; [reflexivity |]. do 2 eexists.
      split; [reflexivity |]. split; [reflexivity | assumption].
  - left. eexists. split; [reflexivity |].
    intros c f' E1 E2. inversion E1; subst. discriminate.
  - left. eexists. split; [reflexivity |]. intros c f' E1. discriminate.
Qed.


Section ExitStatus.

Variable ParseFloat : string -> float64 * option error.

(** The four shapes of a run. *)
Lemma main_shape (w : World) (jsonOutput : bool) :
  (exists l e,
      main ParseFloat w jsonOutput = [Fprintln Stdout [AString l; AError e]]
      /\ (snd (countFDs w) <> None \/ snd (getRSS w) <> None))
  \/ (snd (countFDs w) = None /\ snd (getRSS w) = None
      /\ exists notes info,
          forallb isNote notes = true
          /\ ((jsonOutput = false
               /\ main ParseFloat w jsonOutput
                  = (notes ++ renderTable info)%list)
              \/ (jsonOutput = true /\ ~ limitNotFinite ParseFloat w
                  /\ exists v,
                      main ParseFloat w jsonOutput
                      = (notes ++ [Fprintln Stdout [AJSON v]])%list)
              \/ (jsonOutput = true /\ limitNotFinite ParseFloat w
                  /\ main ParseFloat w jsonOutput
                     = (notes
                        ++ [Fprintln Stderr
                              [AString "JSON marshal error:";
                               AError UnsupportedValueError];
                            Exit 1])%list))).
Proof.
  unfold main. pose proof (collect_notes ParseFloat w) as N.
  destruct (collect_cases ParseFloat w)
    as [[out [info [E [F R]]]] | [l [e [E C]]]].
  - right. split; [exact F |]. split; [exact R |].
    pose proof (collect_some ParseFloat w F R) as S.
    rewrite E in N, S |- *. cbn [fst] in N.
    exists out, info. split; [exact N |].
    destruct jsonOutput; [| left; split; reflexivity].
    right. unfold render, renderJSON.
    assert (forall f, fst (readCgroupCPULimit ParseFloat w) = Some f <->
                      exists c, CgroupV1_ info = Some c
                                /\ CPULimitCores c = Some f) as L.
    { inversion S; subst info. cbn [CgroupV1_]. intros f. split.
      - intros Hf. eexists. split; [reflexivity | exact Hf].
      - intros [c [Hc Hf]]. inversion Hc; subst c. exact Hf. }
    destruct (Marshal_cases info) as [[v [M Fin]] | [M [c [f [Hc [Hf Hn]]]]]];
      rewrite M.
    + left. split; [reflexivity |]. split; [| eauto].
      intros [f [Hf Hn]]. apply L in Hf. destruct Hf as [c [Hc Hf]].
      rewrite (Fin c f Hc Hf) in Hn. discriminate.
    + right. split; [reflexivity |]. split; [| reflexivity].
      exists f. split; [| exact Hn]. apply L. eauto.
  - left. rewrite E. eauto.
Qed.



End ExitStatus.


(** ** The snapshot of a run *)

Lemma readCgroupMemoryLimit_uint64 (w : World) (m : Z) :
  fst (readCgroupMemoryLimit w) = Some m -> 0 <= m < 2 ^ 64.
Proof.
  unfold readCgroupMemoryLimit.
  destruct (readTrim w _) as [value [e |]]; [discriminate |].
  destruct (strconv.ParseUint value) as [num [e |]] eqn:P; [discriminate |].
  pose proof (ParseUint_range _ _ P) as R.
  destruct (num >=? unlimitedThreshold); [discriminate |].
  intros E. inversion E; subst. exact R.
Qed.

Lemma getDisksInfo_uint64 (w : World) :
  Forall (fun d => uint64Range (Total d) /\ uint64Range (Free d))
         (fst (getDisksInfo w)).
Proof.
  unfold getDisksInfo. destruct (ReadFile w "/proc/mounts") as [data | e];
    [| constructor].
  cbn [fst]. rewrite getDisksInfo_lines_flat_map. cbn [app].
  apply Forall_forall. intros d Hd. apply in_flat_map in Hd.
  destruct Hd as [line [_ Hd]].
  destruct (mountOf_cases w line) as [E | [stat [_ [_ [_ E]]]]];
    rewrite E in Hd; [destruct Hd |].
  destruct Hd as [<- | []]. unfold uint64Range. cbn [Total Free diskOf].
  split; apply Z.mod_pos_bound; lia.
Qed.

(** Reading back the document of a snapshot in range, whose strings are
    valid UTF-8. *)
Lemma Unmarshal_Marshal (info : SysInfo) (v : json.value) :
  inRange info -> validStrings info ->
  json.Marshal info = inl v -> json.Unmarshal v = inl info.
Proof.
  intros HR HV. unfold json.Marshal.
  destruct (CgroupV1_ info) as [c |] eqn:Hc.
  - destruct (json.marshalCgroupV1 c) as [cv | e] eqn:Hcv; [| discriminate].
    intros Hv. inversion Hv; subst v; clear Hv. unfold json.Unmarshal.
    etransitivity;
      [exact (members_roundtrip info [("cgroup_v1", cv)] HR HV) |].
    cbn [json.members].
    rewrite (proj2 (proj2 (proj2 (proj2 (proj2 (proj2 (proj2
               (stepSysInfo_keys _ _)))))))).
    cbn [CgroupV1_].
    rewrite (decCgroupV1Ptr_roundtrip c cv); [| | assumption].
    + destruct info; simpl in *; subst; reflexivity.
    + destruct HR as [_ [_ [_ [_ [_ HR]]]]]. rewrite Hc in HR.
      destruct c as [[m |] f]; simpl; auto.
  - intros Hv. inversion Hv; subst v; clear Hv. unfold json.Unmarshal.
    etransitivity; [exact (members_roundtrip info [] HR HV) |].
    cbn [json.members].
    destruct info; simpl in *; subst; reflexivity.
Qed.

Section Snapshot.

Variable ParseFloat : string -> float64 * option error.

(** X8. The snapshot of a run always has its cgroup section, made of
    what the two cgroup probes returned: so the JSON document always
    ends with the member [cgroup_v1], an empty object when both limits
    are absent, and a memory probe that failed shows in the table as
    "unlimited", like a limit at or above the threshold. *)
Theorem collect_cgroup_section (w : World) (out : list call) (info : SysInfo) :
  collect ParseFloat w = (out, Some info) ->
  CgroupV1_ info
  = Some {| MemoryLimitBytes := fst (readCgroupMemoryLimit w);
            CPULimitCores := fst (readCgroupCPULimit ParseFloat w) |}
  /\ (forall v,
         json.Marshal info = inl v ->
         json.keys v = (topKeys ++ ["cgroup_v1"])%list
         /\ (fst (readCgroupMemoryLimit w) = None ->
             fst (readCgroupCPULimit ParseFloat w) = None ->
             json.member "cgroup_v1" v = Some (json.Object [])))
  /\ (forall e,
         snd (readCgroupMemoryLimit w) = Some e ->
         In (Fprintln Tabwriter [AString ("Cgroup (v1) MemLimit:" ++ tab);
                                 AString "unlimited"])
            (renderTable info)).
Proof.
  intros E.
  destruct (collect_cases ParseFloat w)
    as [[out' [info' [E' [F R]]]] | [l [e [E' _]]]];
    [| rewrite E' in E; discriminate].
  rewrite (collect_some ParseFloat w F R) in E. inversion E; subst.
  cbn [CgroupV1_]. clear E E'.
  split; [reflexivity |]. split.
  - intros v M. unfold json.Marshal in M. cbn [CgroupV1_] in M.
    destruct (json.marshalCgroupV1 _) as [cv | e] eqn:C; [| discriminate].
    inversion M; subst v. split; [reflexivity |].
    intros Hm Hc. unfold json.marshalCgroupV1 in C.
    cbn [MemoryLimitBytes CPULimitCores] in C. rewrite Hm, Hc in C.
    inversion C; subst cv. reflexivity.
  - intros e He. pose proof (readCgroupMemoryLimit_default w e He) as D.
    unfold renderTable. cbn [CgroupV1_]. rewrite !in_app_iff. right. left.
    unfold renderCgroup. cbn [MemoryLimitBytes]. rewrite D. now left.
Qed.

(** X9. The values of the snapshot of a run are in the ranges of their
    Go types, as soon as the core count of the runtime is an [int] and
    the descriptors are fewer than [2^63]; so the document of a run whose
    strings are valid UTF-8, read back with [json.Unmarshal] (which
    [main.go] does not call: it is the reader modelled for the round
    trip), gives the snapshot of the run. *)
Theorem collect_roundtrip (w : World) (out : list call) (info : SysInfo) :
  collect ParseFloat w = (out, Some info) ->
  - 2 ^ 63 <= NumCPU w < 2 ^ 63 ->
  (forall entries,
      ReadDir w "/proc/self/fd" = inl entries ->
      Z.of_nat (List.length entries) < 2 ^ 63) ->
  inRange info
  /\ (forall v,
         validStrings info -> json.Marshal info = inl v ->
         json.Unmarshal v = inl info).
Proof.
  intros E Hn Hd.
  assert (inRange info) as HR.
  { destruct (collect_cases ParseFloat w)
      as [[out' [info' [E' [F R]]]] | [l [e [E' _]]]];
      [| rewrite E' in E; discriminate].
    rewrite (collect_some ParseFloat w F R) in E. inversion E; subst.
    clear E E'. unfold inRange, int64Range.
    cbn [FDCount VmRSS CPUCores MemTotal Mounts CgroupV1_].
    split; [| split; [| split; [| split; [| split]]]].
    - unfold countFDs in *.
      destruct (ReadDir w "/proc/self/fd") as [entries | e];
        [| discriminate].
      cbn [fst]. specialize (Hd entries eq_refl). lia.
    - unfold getRSS. destruct (ReadFile w "/proc/self/status");
        [apply getRSS_lines_range | cbn [fst]; lia].
    - unfold getCPUInfo. destruct (ReadFile w "/proc/cpuinfo");
        cbn [fst snd]; lia.
    - unfold getMemInfo. destruct (ReadFile w "/proc/meminfo");
        cbn [fst]; [apply getMemInfo_lines_range |]; lia.
    - apply getDisksInfo_uint64.
    - destruct (fst (readCgroupMemoryLimit w)) as [m |] eqn:M; [| exact I].
      apply (readCgroupMemoryLimit_uint64 w m M). }
  split; [exact HR |].
  intros v HV M. now apply Unmarshal_Marshal.
Qed.

End Snapshot.

Lemma collect_cgroup_section_witness :
  exists out info,
    collect parseFloatDigits bareWorld = (out, Some info)
    /\ CgroupV1_ info
       = Some {| MemoryLimitBytes := None; CPULimitCores := None |}
    /\ In (Fprintln Tabwriter [AString ("Cgroup (v1) MemLimit:" ++ tab);
                               AString "unlimited"])
          (renderTable info).
Proof.
  destruct (collect parseFloatDigits bareWorld) as [out [info |]] eqn:E;
    [| vm_compute in E; discriminate].
  exists out, info.
  destruct (collect_cgroup_section parseFloatDigits bareWorld out info E)
    as [Hc [_ Ht]].
  split; [reflexivity |]. split; [exact Hc |].
  apply (Ht (OSError "no such file or directory")). reflexivity.
Defined.

Lemma collect_roundtrip_witness :
  collect parseFloatDigits fullWorld = ([], Some fullInfo)
  /\ inRange fullInfo
  /\ validStrings fullInfo
  /\ exists v,
      json.Marshal fullInfo = inl v
      /\ json.member "exe_path" v = Some (json.String_ "/usr/local/bin/sysinfo")
      /\ json.Unmarshal v = inl fullInfo.
Proof.
  assert (collect parseFloatDigits fullWorld = ([], Some fullInfo)) as E
      by (vm_compute; reflexivity).
  assert (validStrings fullInfo) as V.
  { split; [reflexivity |]. split; [reflexivity |].
    apply Forall_cons; [split; reflexivity |].
    apply Forall_cons; [split; reflexivity | apply Forall_nil]. }
  destruct (collect_roundtrip parseFloatDigits fullWorld [] fullInfo E)
    as [HR HU].
  - vm_compute. split; [discriminate | reflexivity].
  - intros entries H. vm_compute in H. inversion H. reflexivity.
  - split; [exact E |]. split; [exact HR |]. split; [exact V |].
    destruct (json.Marshal fullInfo) as [v | e] eqn:M;
      [| vm_compute in M; discriminate].
    exists v. split; [reflexivity |]. split.
    + vm_compute in M. inversion M. reflexivity.
    + exact (HU v V eq_refl).
Defined.

(** ** The entries of the disk probe *)

Lemma mountOf_length (w : World) (line : string) :
  (List.length (mountOf w line) <= 1)%nat.
Proof.
  destruct (mountOf_cases w line) as [E | [stat [_ [_ [_ E]]]]];
    rewrite E; simpl; lia.
Qed.

Lemma flat_map_length (w : World) (lines : list string) :
  (List.length (flat_map (mountOf w) lines) <= List.length lines)%nat.
Proof.
  induction lines as [| l lines IH]; [simpl; lia |].
  cbn [flat_map]. rewrite length_app. pose proof (mountOf_length w l).
  simpl. lia.
Qed.

(** X10. Every entry the disk probe returns has a type that is none of
    "proc", "sysfs" and "cgroup", a mountpoint whose statistics call
    succeeds, and sizes that are [uint64]; there is at most one entry per
    line of the table; and when the table cannot be read the probe
    returns no entry, with the error of the read. *)
Theorem getDisksInfo_entries (w : World) :
  (forall d,
      In d (fst (getDisksInfo w)) ->
      ~ pseudo (FSType d)
      /\ (exists stat, Statfs w (Mountpoint d) = inl stat)
      /\ 0 <= Total d < 2 ^ 64 /\ 0 <= Free d < 2 ^ 64)
  /\ (forall data,
         ReadFile w "/proc/mounts" = inl data ->
         (List.length (fst (getDisksInfo w))
          <= List.length (strings.Split data "010"))%nat)
  /\ (forall e,
         ReadFile w "/proc/mounts" = inr e -> getDisksInfo w = ([], Some e)).
Proof.
  unfold getDisksInfo. split; [| split].
  - destruct (ReadFile w "/proc/mounts") as [data | e]; [| intros d []].
    cbn [fst]. rewrite getDisksInfo_lines_flat_map. cbn [app].
    intros d Hd. apply in_flat_map in Hd. destruct Hd as [line [_ Hd]].
    destruct (mountOf_cases w line) as [E | [stat [_ [Hs [Hp E]]]]];
      rewrite E in Hd; [destruct Hd |].
    destruct Hd as [<- | []]. cbn [FSType Mountpoint Total Free diskOf].
    split; [exact Hp |]. split; [eauto |].
    split; apply Z.mod_pos_bound; lia.
  - intros data ->. cbn [fst]. rewrite getDisksInfo_lines_flat_map.
    apply flat_map_length.
  - intros e ->. reflexivity.
Qed.

Lemma getDisksInfo_entries_witness :
  ~ pseudo (FSType (diskOf "/sys" "sysfsx" stat1M))
  /\ (List.length (fst (getDisksInfo mountsWorld)) <= 6)%nat
  /\ getDisksInfo emptyWorld
     = ([], Some (OSError "no such file or directory")).
Proof.
  pose proof (getDisksInfo_entries mountsWorld) as [H1 [H2 _]].
  split; [| split].
  - apply (H1 (diskOf "/sys" "sysfsx" stat1M)). vm_compute. tauto.
  - apply (H2 mountsData eq_refl).
  - apply (proj2 (proj2 (getDisksInfo_entries emptyWorld))). reflexivity.
Defined.

(** ** Whole megabytes *)

(** X11. For a [uint64] [b], [humanMB] writes a decimal numeral followed
    by " MB", and the numeral parses back to the quotient of [b] by
    [2^20]: a size below one mebibyte shows as "0 MB". *)
Theorem humanMB_numeral (b : Z) :
  0 <= b < 2 ^ 64 ->
  (exists digits,
      humanMB b = digits ++ " MB"
      /\ digitsOnly digits = true
      /\ strconv.ParseUint digits = (b / 1048576, None))
  /\ (b < 1048576 -> humanMB b = "0 MB").
Proof.
  intros H.
  assert (0 <= b / 1024 / 1024 < 2 ^ 64) as R.
  { rewrite Z.div_div by lia. split; [apply Z.div_pos; lia |].
    apply Z.div_lt_upper_bound; lia. }
  assert (humanMB b = strconv.FormatUint (b / 1024 / 1024) ++ " MB") as E.
  { unfold humanMB, strconv.FormatInt.
    destruct (Z.ltb_spec (b / 1024 / 1024) 0); [lia | reflexivity]. }
  split.
  - exists (strconv.FormatUint (b / 1024 / 1024)).
    split; [exact E |]. split; [apply FormatUint_digits; lia |].
    rewrite ParseUint_FormatUint by exact R.
    rewrite Z.div_div by lia. reflexivity.
  - intros Hb. rewrite E, Z.div_div, Z.div_small by lia. reflexivity.
Qed.

Lemma humanMB_numeral_witness :
  humanMB 1048575 = "0 MB"
  /\ exists digits,
      humanMB 4096000000 = digits ++ " MB"
      /\ strconv.ParseUint digits = (3906, None).
Proof.
  split.
  - apply (proj2 (humanMB_numeral 1048575 ltac:(lia))). lia.
  - destruct (proj1 (humanMB_numeral 4096000000 ltac:(lia)))
      as [digits [E [_ P]]].
    exists digits. split; [exact E | exact P].
Defined.

(** ** The outcomes of the RSS probe *)

Lemma getRSS_lines_ok (lines : list string) :
  snd (getRSS_lines lines) = None <->
  Exists (fun l => strings.HasPrefix l "VmRSS:" = true) lines.
Proof.
  induction lines as [| l lines IH].
  - simpl. split; [discriminate | intros H; inversion H].
  - cbn [getRSS_lines].
    destruct (strings.HasPrefix l "VmRSS:") eqn:P.
    + destruct (fmt.Sscanf l "VmRSS: %d kB" 0) as [[rss k] e]. cbn [snd].
      split; [intros _; now left | reflexivity].
    + rewrite IH. split; [now right |].
      intros H. inversion H; subst; [congruence | assumption].
Qed.

Lemma getRSS_lines_zero (lines : list string) (e : error) :
  snd (getRSS_lines lines) = Some e ->
  getRSS_lines lines = (0, Some (Errorf "VmRSS not found")).
Proof.
  induction lines as [| l lines IH]; [reflexivity |].
  cbn [getRSS_lines]. destruct (strings.HasPrefix l "VmRSS:"); [| exact IH].
  destruct (fmt.Sscanf l "VmRSS: %d kB" 0) as [[rss k] e']. discriminate.
Qed.

(** X12. The RSS probe succeeds exactly when the status file is read
    and one of its lines has the prefix "VmRSS:"; it fails otherwise
    with the value 0 and the error of the read or "VmRSS not found"; and
    the value it returns is always an [int]. *)
Theorem getRSS_outcomes (w : World) :
  (snd (getRSS w) = None <->
   exists data,
     ReadFile w "/proc/self/status" = inl data
     /\ Exists (fun l => strings.HasPrefix l "VmRSS:" = true)
               (strings.Split data "010"))
  /\ (forall e,
         snd (getRSS w) = Some e ->
         fst (getRSS w) = 0
         /\ (ReadFile w "/proc/self/status" = inr e
             \/ e = Errorf "VmRSS not found"))
  /\ - 2 ^ 63 <= fst (getRSS w) < 2 ^ 63.
Proof.
  unfold getRSS.
  destruct (ReadFile w "/proc/self/status") as [data | e0].
  - split; [| split].
    + rewrite getRSS_lines_ok. split; [eauto |].
      intros [data' [E H]]. now inversion E; subst.
    + intros e He. pose proof (getRSS_lines_zero _ e He) as Z0.
      rewrite Z0 in He |- *. cbn [fst snd] in *.
      split; [reflexivity |]. right. congruence.
    + apply getRSS_lines_range.
  - cbn [fst snd]. split; [| split].
    + split; [discriminate | intros [data [E _]]; discriminate].
    + intros e He. split; [reflexivity |]. left. congruence.
    + lia.
Qed.

Lemma getRSS_outcomes_witness :
  snd (getRSS (statusFile statusMalformed)) = None
  /\ fst (getRSS emptyWorld) = 0.
Proof.
  split.
  - apply (proj1 (getRSS_outcomes (statusFile statusMalformed))).
    exists statusMalformed. split; [reflexivity |].
    apply Exists_cons_tl, Exists_cons_hd. reflexivity.
  - apply (proj1 (proj2 (getRSS_outcomes emptyWorld))
             (OSError "no such file or directory")).
    reflexivity.
Defined.

(** ** The two modes *)

Lemma renderTable_tabwriter (info : SysInfo) :
  forallb (fun c => onTabwriter c && negb (isJSON c)) (renderTable info)
  = true.
Proof.
  unfold renderTable. rewrite !forallb_app. cbn [forallb].
  assert (forallb (fun c => onTabwriter c && negb (isJSON c))
            (renderCgroup (CgroupV1_ info)) = true) as ->.
  { destruct (CgroupV1_ info) as [[[m |] [f |]] |]; reflexivity. }
  assert (forallb (fun c => onTabwriter c && negb (isJSON c))
            (map renderMount (Mounts info)) = true) as ->.
  { induction (Mounts info); [reflexivity | simpl; assumption]. }
  reflexivity.
Qed.

Lemma notes_plain (notes : list call) :
  forallb isNote notes = true ->
  existsb onTabwriter notes = false /\ existsb isJSON notes = false.
Proof.
  induction notes as [| c notes IH]; [auto |]. cbn [forallb existsb].
  intros H. apply andb_true_iff in H. destruct H as [Hc Hn].
  destruct (IH Hn) as [-> ->]. unfold isNote in Hc.
  destruct c as [[| |] a | [| |] f a | |]; try discriminate; auto.
  destruct a as [| [] [|]]; try discriminate; auto.
Qed.

Section Modes.

Variable ParseFloat : string -> float64 * option error.

(** X13. The two modes exclude each other: a run in JSON mode makes no
    call on the tabwriter, and a run in table mode prints no JSON
    document; when its two fatal probes succeed, the table run ends with
    one row per entry of the disk probe, in the order of the probe,
    followed by the flush. *)
Theorem main_modes (w : World) (jsonOutput : bool) :
  (jsonOutput = true ->
   existsb onTabwriter (main ParseFloat w jsonOutput) = false)
  /\ (jsonOutput = false ->
      existsb isJSON (main ParseFloat w jsonOutput) = false)
  /\ (jsonOutput = false ->
      snd (countFDs w) = None -> snd (getRSS w) = None ->
      exists before,
        main ParseFloat w jsonOutput
        = (before ++ map renderMount (fst (getDisksInfo w)) ++ [Flush])%list).
Proof.
  split; [| split].
  - intros ->.
    destruct (main_shape ParseFloat w true)
      as [[l [e [M _]]] | [_ [_ [notes [info [N S]]]]]];
      [rewrite M; reflexivity |].
    destruct (notes_plain notes N) as [P _].
    destruct S as [[J _] | [[_ [_ [v M]]] | [_ [_ M]]]];
      [discriminate | |]; rewrite M, existsb_app, P; reflexivity.
  - intros ->.
    destruct (main_shape ParseFloat w false)
      as [[l [e [M _]]] | [_ [_ [notes [info [N S]]]]]];
      [rewrite M; reflexivity |].
    destruct (notes_plain notes N) as [_ P].
    destruct S as [[_ M] | [[J _] | [J _]]]; try discriminate.
    rewrite M, existsb_app, P. cbn [orb]. clear M.
    pose proof (renderTable_tabwriter info) as T.
    induction (renderTable info) as [| c l IH]; [reflexivity |].
    cbn [forallb existsb] in *. apply andb_true_iff in T.
    destruct T as [Tc Tl]. rewrite (IH Tl).
    destruct (isJSON c); [| reflexivity].
    rewrite andb_false_r in Tc. discriminate.
  - intros -> F R. unfold main.
    rewrite (collect_some ParseFloat w F R).
    unfold render, renderTable. cbn [Mounts].
    eexists. rewrite !app_assoc. reflexivity.
Qed.

End Modes.

Lemma main_modes_witness :
  existsb onTabwriter (main parseFloatDigits fullWorld true) = false
  /\ existsb isJSON (main parseFloatDigits fullWorld false) = false
  /\ exists before,
      main parseFloatDigits fullWorld false
      = (before ++ [row1M "/" "ext4"; row1M "/sys" "sysfsx"] ++ [Flush])%list.
Proof.
  pose proof (main_modes parseFloatDigits fullWorld true) as [H1 _].
  pose proof (main_modes parseFloatDigits fullWorld false) as [_ [H2 H3]].
  split; [exact (H1 eq_refl) |]. split; [exact (H2 eq_refl) |].
  destruct (H3 eq_refl eq_refl eq_refl) as [before Hb].
  exists before. rewrite Hb. reflexivity.
Defined.
